(** * DeBelegger: the Box 3 simulation engine and its tax calculators

    A shallow embedding of [js/taxSystems.js], of the simulation engine
    ([runSimulation], in its version with monthly contributions), of
    [buildContributionsByYear] of [js/app.js] and of the tables and lookups
    of [js/marketData.js], with the properties of the specification proved,
    amended or refuted on it.

    Numbers.  A JavaScript number is modelled as an exact rational ([Q]):
    rounding of doubles is abstracted away, except where the code rounds an
    amount to cents: there the double may lie on either side of an exact half
    cent, and the model leaves the direction open ([round2]).  [NaN] and the
    infinities are kept only in [JsNum], the result of the coercion
    [Number(...)], which the code applies to [config.partnerMultiplier] and
    tests with [Number.isFinite]. *)

From Stdlib Require Import QArith Qminmax Qround Qabs Lqa ZArith Lia.
From stdpp Require Import base option list functions gmap strings sorting.

Local Open Scope Q_scope.

(** ** The fragment of JavaScript the engine relies on *)

Module Js.

(** [Math.max(a, b)] and [Math.min(a, b)] on two finite numbers: the result is
    one of the arguments *)
Definition Math_max (a b : Q) : Q := if Qle_bool a b then b else a.
Definition Math_min (a b : Q) : Q := if Qle_bool a b then a else b.

(** [Math.abs] *)
Definition Math_abs (a : Q) : Q := Qabs a.

(** [Math.round(x)]: the integer nearest to [x], ties towards plus infinity *)
Definition Math_round (x : Q) : Z := Qfloor (x + (1 # 2)).

(** [a < b], [a <= b], [a === b] on finite numbers *)
Definition ltb (a b : Q) : bool := negb (Qle_bool b a).
Definition leb (a b : Q) : bool := Qle_bool a b.
Definition eqb (a b : Q) : bool := Qeq_bool a b.

(** The result of [Number(v)] *)
Inductive JsNum : Type :=
  | NaN
  | PosInfinity
  | NegInfinity
  | Fin (q : Q).

(** A value stored in a config field that the code reads through
    [Number(...)].  A string, array or object is observed only through that
    coercion, so it is represented by the number it coerces to
    ([Number("abc")] is [NaN], [Number("2")] is [2]). *)
Inductive JsVal : Type :=
  | JUndefined
  | JNull
  | JBool (b : bool)
  | JNumber (n : JsNum)
  | JCoerced (n : JsNum).

(** [Number(v)] *)
Definition Number (v : JsVal) : JsNum :=
  match v with
  | JUndefined => NaN
  | JNull => Fin 0
  | JBool true => Fin 1
  | JBool false => Fin 0
  | JNumber n => n
  | JCoerced n => n
  end.

(** [Number.isFinite(n)] *)
Definition Number_isFinite (n : JsNum) : bool :=
  match n with Fin _ => true | _ => false end.

(** [n > q] for a finite [q]: false on [NaN] *)
Definition gtb (n : JsNum) (q : Q) : bool :=
  match n with
  | NaN => false
  | PosInfinity => true
  | NegInfinity => false
  | Fin x => ltb q x
  end.

(** [q || d] for a finite number [q]: zero is falsy *)
Definition or_default (q d : Q) : Q := if eqb q 0 then d else q.

(** [Number(x) || d] for a field that holds a finite number or is absent
    ([Number(undefined)] is [NaN], which is falsy) *)
Definition Number_or (x : option Q) (d : Q) : Q :=
  match x with
  | Some q => or_default q d
  | None => d
  end.

End Js.

Import Js.

(** ** Regime configuration

    A config is a JavaScript object: every field may be absent.  The numeric
    fields hold a finite number when present; [partnerMultiplier] is kept as a
    JavaScript value because the code coerces and tests it. *)

Record Config : Type := mkConfig {
  cfg_deemedReturn : option Q;
  cfg_taxRate : option Q;
  cfg_exemption : option Q;
  cfg_debtThreshold : option Q;
  cfg_savingsRate : option Q;
  cfg_investRate : option Q;
  cfg_debtRate : option Q;
  cfg_allocSavings : option Q;
  cfg_allocInvest : option Q;
  cfg_allocDebt : option Q;
  cfg_freeReturn : option Q;
  cfg_lossThreshold : option Q;
  cfg_partnerMultiplier : JsVal
}.

(** The object [{}] *)
Definition emptyConfig : Config :=
  mkConfig None None None None None None None None None None None None
    JUndefined.

Definition set_partnerMultiplier (v : JsVal) (c : Config) : Config :=
  mkConfig (cfg_deemedReturn c) (cfg_taxRate c) (cfg_exemption c)
    (cfg_debtThreshold c) (cfg_savingsRate c) (cfg_investRate c)
    (cfg_debtRate c) (cfg_allocSavings c) (cfg_allocInvest c)
    (cfg_allocDebt c) (cfg_freeReturn c) (cfg_lossThreshold c) v.

(** ** js/taxSystems.js *)

Definition getPartnerMultiplier (config : Config) : Q :=
  let raw := Number (cfg_partnerMultiplier config) in
  if Number_isFinite raw && gtb raw 1 then 2 else 1.

Record Shares : Type := mkShares {
  savingsShare : Q;
  investShare : Q;
  debtShare : Q
}.

Definition normalizeAllocations (allocSavings allocInvest allocDebt : Q)
  : Shares :=
  let savings := Math_max 0 (or_default allocSavings 0) in
  let invest := Math_max 0 (or_default allocInvest 0) in
  let debt := Math_max 0 (or_default allocDebt 0) in
  let total := savings + invest + debt in
  if leb total 0 then mkShares 0 0 0
  else mkShares (savings / total) (invest / total) (debt / total).

Definition calcNoTax : Q := 0.

Definition calcOldSystem (portfolioValue actualReturn : Q) (config : Config)
  : Q :=
  let deemedReturn := default 4 (cfg_deemedReturn config) in
  let taxRate := default 30 (cfg_taxRate config) in
  let exemption := default 21139 (cfg_exemption config) in
  let partnerMultiplier := getPartnerMultiplier config in
  let effectiveExemption := exemption * partnerMultiplier in
  let taxableWealth := Math_max 0 (portfolioValue - effectiveExemption) in
  let deemedIncome := taxableWealth * (deemedReturn / 100) in
  let tax := deemedIncome * (taxRate / 100) in
  Math_max 0 tax.

Definition calcCurrentSystem (portfolioValue actualReturn : Q)
  (config : Config) : Q :=
  let taxRate := default 36 (cfg_taxRate config) in
  let exemption := default 59357 (cfg_exemption config) in
  let debtThreshold := default 3800 (cfg_debtThreshold config) in
  let savingsRate := default 1.28 (cfg_savingsRate config) in
  let investRate := default 6.00 (cfg_investRate config) in
  let debtRate := default 2.70 (cfg_debtRate config) in
  let allocSavings := default 0 (cfg_allocSavings config) in
  let allocInvest := default 100 (cfg_allocInvest config) in
  let allocDebt := default 0 (cfg_allocDebt config) in
  let totalWealth := Math_max 0 portfolioValue in
  if leb totalWealth 0 then 0 else
  let partnerMultiplier := getPartnerMultiplier config in
  let effectiveExemption := exemption * partnerMultiplier in
  let effectiveDebtThreshold := debtThreshold * partnerMultiplier in
  let sh := normalizeAllocations allocSavings allocInvest allocDebt in
  if eqb (savingsShare sh) 0 && eqb (investShare sh) 0
     && eqb (debtShare sh) 0 then 0 else
  let savingsPortion := totalWealth * savingsShare sh in
  let investPortion := totalWealth * investShare sh in
  let debtPortion := totalWealth * debtShare sh in
  let deductibleDebt := Math_max 0 (debtPortion - effectiveDebtThreshold) in
  let belastbaarRendement :=
    savingsPortion * (savingsRate / 100) +
    investPortion * (investRate / 100) -
    deductibleDebt * (debtRate / 100) in
  if leb belastbaarRendement 0 then 0 else
  let rendementsgrondslag := savingsPortion + investPortion - deductibleDebt in
  if leb rendementsgrondslag 0 then 0 else
  let grondslagSparenBeleggen :=
    Math_max 0 (rendementsgrondslag - effectiveExemption) in
  if leb grondslagSparenBeleggen 0 then 0 else
  let aandeelInRendementsgrondslag :=
    Math_min 1 (grondslagSparenBeleggen / rendementsgrondslag) in
  let voordeelUitSparenBeleggen :=
    belastbaarRendement * aandeelInRendementsgrondslag in
  let tax := voordeelUitSparenBeleggen * (taxRate / 100) in
  Math_max 0 tax.

Definition calcFutureIncome (actualReturn : Q) (config : Config) : Q :=
  let freeReturn := default 1800 (cfg_freeReturn config) in
  if leb actualReturn 0 then actualReturn else
  let partnerMultiplier := getPartnerMultiplier config in
  let effectiveFreeReturn := freeReturn * partnerMultiplier in
  Math_max 0 (actualReturn - effectiveFreeReturn).

Definition calcFutureSystem (portfolioValue taxableIncome : Q)
  (config : Config) : Q :=
  let taxRate := default 36 (cfg_taxRate config) in
  let tax := Math_max 0 taxableIncome * (taxRate / 100) in
  Math_max 0 tax.

(** The configs of the four regimes the simulation runs *)
Record Configs : Type := mkConfigs {
  configs_noTax : Config;
  configs_old : Config;
  configs_current : Config;
  configs_future : Config
}.

Definition getDefaultConfigs : Configs :=
  {| configs_noTax := emptyConfig;
     configs_old :=
       mkConfig (Some 4) (Some 30) (Some 21139) None None None None None None
         None None None (JNumber (Fin 1));
     configs_current :=
       mkConfig None (Some 36) (Some 59357) (Some 3800) (Some 1.28)
         (Some 6.00) (Some 2.70) (Some 0) (Some 100) (Some 0) None None
         (JNumber (Fin 1));
     configs_future :=
       mkConfig None (Some 36) None None None None None None None None
         (Some 1800) (Some 500) (JNumber (Fin 1)) |}.


(** ** js/simulation.js (the engine with monthly contributions) *)

Inductive System : Type := noTax | old | current | future.

#[global] Instance System_eq_dec : EqDecision System.
Proof. solve_decision. Defined.

Definition systems : list System := [noTax; old; current; future].

(** An element [{year, return}] of the return series *)
Record YearReturn : Type := mkYearReturn {
  yr_year : Z;
  yr_return : Q
}.

(** [contributionsByYear]: a map from year to monthly amount, or one flat
    number *)
Inductive Contributions : Type :=
  | ContribMap (m : gmap Z Q)
  | ContribFlat (q : Q).

(** The variables the loops of [runSimulation] update *)
Record SimState : Type := mkSimState {
  st_portfolioValues : System -> list Q;
  st_annualTax : System -> list Q;
  st_cumulativeTax : System -> list Q;
  st_futureCarryForwardLoss : Q
}.

Inductive Label : Type :=
  | LabelStart
  | LabelYear (y : Z).

(** The object [runSimulation] returns *)
Record SimResult : Type := mkSimResult {
  labels : list Label;
  taxLabels : list Z;
  portfolioValues : System -> list Q;
  annualTax : System -> list Q;
  cumulativeTax : System -> list Q;
  res_systems : list System
}.

(** [arr[i]].  Past the end JavaScript yields [undefined]; the simulation
    never reads there (see [yearLoop_lengths]). *)
Definition at_index (arr : list Q) (i : nat) : Q := default 0 (arr !! i).

(** The monthly deposit of a year *)
Definition depositOf (contributionsByYear : Contributions) (yearKey : Z) : Q :=
  match contributionsByYear with
  | ContribMap m => Math_max 0 (Number_or (m !! yearKey) 0)
  | ContribFlat q => Math_max 0 (or_default q 0)
  end.

(** The value after the market return of the year, with the deposits made at
    the end of each month *)
Definition valueAfterReturnOf (prevValue annualFactor monthlyFactor deposit : Q)
  : Q :=
  if leb deposit 0 then prevValue * annualFactor
  else Nat.iter 12 (fun value => value * monthlyFactor + deposit) prevValue.

(** The multiplier and the loss threshold the simulation computes for the
    future regime *)
Definition simPartnerMultiplier (config : Config) : Q :=
  if gtb (Number (cfg_partnerMultiplier config)) 1 then 2 else 1.

Definition simLossThreshold (config : Config) : Q :=
  Number_or (cfg_lossThreshold config) 500 * simPartnerMultiplier config.

(** [case 'future']: the tax before the clamp and the new carried loss *)
Definition futureCase (config : Config)
  (valueAfterReturn returnAmount futureCarryForwardLoss : Q) : Q * Q :=
  let incomeBeforeLossSetoff := calcFutureIncome returnAmount config in
  let lossThreshold := simLossThreshold config in
  if ltb incomeBeforeLossSetoff 0 then
    let recognisedLoss := Math_abs incomeBeforeLossSetoff in
    (0, if ltb lossThreshold recognisedLoss
        then futureCarryForwardLoss + recognisedLoss
        else futureCarryForwardLoss)
  else if eqb incomeBeforeLossSetoff 0 then
    (0, futureCarryForwardLoss)
  else
    let lossUsed := Math_min futureCarryForwardLoss incomeBeforeLossSetoff in
    let taxableIncome := incomeBeforeLossSetoff - lossUsed in
    (calcFutureSystem valueAfterReturn taxableIncome config,
     futureCarryForwardLoss - lossUsed).

(** The [switch (sys)]: the tax before the clamp and the new carried loss *)
Definition regimeTax (configs : Configs) (sys : System)
  (prevValue valueAfterReturn returnAmount futureCarryForwardLoss : Q)
  : Q * Q :=
  match sys with
  | noTax => (calcNoTax, futureCarryForwardLoss)
  | old =>
      (calcOldSystem prevValue returnAmount (configs_old configs),
       futureCarryForwardLoss)
  | current =>
      (calcCurrentSystem prevValue returnAmount (configs_current configs),
       futureCarryForwardLoss)
  | future =>
      futureCase (configs_future configs) valueAfterReturn returnAmount
        futureCarryForwardLoss
  end.

(** The body of the inner loop [for (const sys of systems)] *)
Definition sysStep (configs : Configs) (i : nat)
  (annualFactor monthlyFactor deposit contributionsThisYear : Q)
  (st : SimState) (sys : System) : SimState :=
  let prevValue := at_index (st_portfolioValues st sys) i in
  let valueAfterReturn :=
    valueAfterReturnOf prevValue annualFactor monthlyFactor deposit in
  let returnAmount := valueAfterReturn - prevValue - contributionsThisYear in
  let outcome :=
    regimeTax configs sys prevValue valueAfterReturn returnAmount
      (st_futureCarryForwardLoss st) in
  let tax := Math_min (fst outcome) (Math_max 0 valueAfterReturn) in
  let valueAfterTax := valueAfterReturn - tax in
  let prevCumTax := default 0 (last (st_cumulativeTax st sys)) in
  {| st_portfolioValues :=
       <[sys := st_portfolioValues st sys ++ [valueAfterTax]]>
         (st_portfolioValues st);
     st_annualTax :=
       <[sys := st_annualTax st sys ++ [tax]]> (st_annualTax st);
     st_cumulativeTax :=
       <[sys := st_cumulativeTax st sys ++ [prevCumTax + tax]]>
         (st_cumulativeTax st);
     st_futureCarryForwardLoss := snd outcome |}.

Section Simulation.

(** [Math.pow] is the runtime's: the engine is embedded for any
    implementation of it. *)
Variable Math_pow : Q -> Q -> Q.

Definition monthlyFactorOf (annualFactor : Q) : Q :=
  if leb annualFactor 0 then 0 else Math_pow annualFactor (1 / 12).

(** The body of the outer loop [for (let i = 0; i < returns.length; i++)] *)
Definition yearStep (configs : Configs) (contributionsByYear : Contributions)
  (i : nat) (r : YearReturn) (st : SimState) : SimState :=
  let yearKey := yr_year r in
  let deposit := depositOf contributionsByYear yearKey in
  let annualRate := yr_return r / 100 in
  let annualFactor := 1 + annualRate in
  let monthlyFactor := monthlyFactorOf annualFactor in
  let contributionsThisYear := deposit * 12 in
  foldl (sysStep configs i annualFactor monthlyFactor deposit
           contributionsThisYear) st systems.

(** The outer loop from index [i] on, over the elements [returns[i..]] *)
Fixpoint yearLoop (configs : Configs) (contributionsByYear : Contributions)
  (i : nat) (rest : list YearReturn) (st : SimState) : SimState :=
  match rest with
  | [] => st
  | r :: rest' =>
      yearLoop configs contributionsByYear (S i) rest'
        (yearStep configs contributionsByYear i r st)
  end.

Definition initState (startCapital : Q) : SimState :=
  {| st_portfolioValues := fun _ => [startCapital];
     st_annualTax := fun _ => [];
     st_cumulativeTax := fun _ => [];
     st_futureCarryForwardLoss := 0 |}.

(** The state when the outer loop ends *)
Definition finalState (startCapital : Q) (returns : list YearReturn)
  (configs : Configs) (contributionsByYear : Contributions) : SimState :=
  yearLoop configs contributionsByYear 0 returns (initState startCapital).

Definition runSimulation (startCapital : Q) (returns : list YearReturn)
  (configs : Configs) (contributionsByYear : Contributions) : SimResult :=
  let years := map yr_year returns in
  let st := finalState startCapital returns configs contributionsByYear in
  {| labels :=
       match years with
       | y :: _ => LabelYear (y - 1)
       | [] => LabelStart
       end :: map LabelYear years;
     taxLabels := years;
     portfolioValues := st_portfolioValues st;
     annualTax := st_annualTax st;
     cumulativeTax := st_cumulativeTax st;
     res_systems := systems |}.

End Simulation.

(** ** js/marketData.js: the consumer price index *)

Definition cpiData : gmap Z Q :=
  list_to_map
    [ (1980%Z, 6.5); (1981%Z, 6.7); (1982%Z, 6.0); (1983%Z, 2.8);
      (1984%Z, 3.3); (1985%Z, 2.3); (1986%Z, 0.2); (1987%Z, -0.5);
      (1988%Z, 0.7); (1989%Z, 1.1); (1990%Z, 2.5); (1991%Z, 3.9);
      (1992%Z, 3.7); (1993%Z, 2.1); (1994%Z, 2.7); (1995%Z, 2.0);
      (1996%Z, 2.1); (1997%Z, 2.2); (1998%Z, 2.0); (1999%Z, 2.2);
      (2000%Z, 2.6); (2001%Z, 4.5); (2002%Z, 3.4); (2003%Z, 2.1);
      (2004%Z, 1.2); (2005%Z, 1.7); (2006%Z, 1.1); (2007%Z, 1.6);
      (2008%Z, 2.5); (2009%Z, 1.2); (2010%Z, 1.3); (2011%Z, 2.3);
      (2012%Z, 2.5); (2013%Z, 2.5); (2014%Z, 1.0); (2015%Z, 0.6);
      (2016%Z, 0.3); (2017%Z, 1.4); (2018%Z, 1.7); (2019%Z, 2.6);
      (2020%Z, 1.3); (2021%Z, 2.7); (2022%Z, 10.0); (2023%Z, 3.8);
      (2024%Z, 3.3); (2025%Z, 3.3) ].

(** [cpiData[year] ?? 0] *)
Definition getCpiForYear (year : Z) : Q := default 0 (cpiData !! year).

(** ** js/app.js: the contribution schedule *)

(** [x] lies halfway between two integers *)
Definition isHalfway (x : Q) : bool :=
  Qeq_bool (x + (1 # 2)) (inject_Z (Qfloor (x + (1 # 2)))).

(** [Math.round(amount * 100) / 100].  The code rounds the double
    [amount * 100], which is not always the exact product: for the amount
    [75 * (1 + 1.7 / 100)] the exact product is 7627.5 and the double is
    7627.499999999999, so the code stores 76.27 where [Math.round] of the
    exact product gives 76.28.  The model therefore fixes the cent only when
    the exact product is not halfway between two integers; at a halfway
    product the direction is the argument [up], [true] being the direction
    [Math.round] takes on the exact product. *)
Definition round2 (up : bool) (amount : Q) : Q :=
  let product := amount * 100 in
  let cents :=
    if isHalfway product && negb up
    then (Math_round product - 1)%Z
    else Math_round product in
  inject_Z cents / 100.

(** The loop [for (let y = startYear; y <= endYear; y++)], with [n] the
    number of years left to visit from [y] on; [tieUp y] is the direction in
    which the double product of the year [y] is rounded, should the exact
    product be halfway *)
Fixpoint contributionsLoop (tieUp : Z -> bool) (startYear : Z)
  (cpiEnabled : bool) (n : nat) (y : Z) (amount : Q) (map : gmap Z Q)
  : gmap Z Q :=
  match n with
  | O => map
  | S n' =>
      let amount :=
        if cpiEnabled && (startYear <? y)%Z
        then let rate := getCpiForYear y in amount * (1 + rate / 100)
        else amount in
      contributionsLoop tieUp startYear cpiEnabled n' (y + 1)%Z amount
        (<[y := round2 (tieUp y) amount]> map)
  end.

Definition buildContributionsByYear (tieUp : Z -> bool) (baseAmount : Q)
  (startYear endYear : Z) (cpiEnabled : bool) : gmap Z Q :=
  contributionsLoop tieUp startYear cpiEnabled
    (Z.to_nat (endYear - startYear + 1)) startYear baseAmount ∅.

(** ** Observing a run

    The quantities the body of the loops computes in one year from the wealth
    [prevValue] at the start of the year and the carried loss, and the same
    quantities for year [i] of a run. *)

Section Year.

Variable Math_pow : Q -> Q -> Q.
Variable configs : Configs.
Variable contributionsByYear : Contributions.

Definition depositAt (r : YearReturn) : Q :=
  depositOf contributionsByYear (yr_year r).

Definition annualFactorAt (r : YearReturn) : Q := 1 + yr_return r / 100.

Definition yearValueAfterReturn (r : YearReturn) (prevValue : Q) : Q :=
  valueAfterReturnOf prevValue (annualFactorAt r)
    (monthlyFactorOf Math_pow (annualFactorAt r)) (depositAt r).

Definition yearReturnAmount (r : YearReturn) (prevValue : Q) : Q :=
  yearValueAfterReturn r prevValue - prevValue - depositAt r * 12.

(** The tax before the clamp, and the carried loss after the year *)
Definition yearOutcome (sys : System) (r : YearReturn)
  (prevValue futureCarryForwardLoss : Q) : Q * Q :=
  regimeTax configs sys prevValue (yearValueAfterReturn r prevValue)
    (yearReturnAmount r prevValue) futureCarryForwardLoss.

(** The tax after the clamp *)
Definition yearTax (sys : System) (r : YearReturn)
  (prevValue futureCarryForwardLoss : Q) : Q :=
  Math_min (fst (yearOutcome sys r prevValue futureCarryForwardLoss))
    (Math_max 0 (yearValueAfterReturn r prevValue)).

Variable startCapital : Q.
Variable returns : list YearReturn.

(** The state of the loop after the first [n] years *)
Definition stateAfter (n : nat) : SimState :=
  yearLoop Math_pow configs contributionsByYear 0 (take n returns)
    (initState startCapital).

(** [portfolioValues[sys][i]], the wealth at the start of year [i] *)
Definition prevValueAt (sys : System) (i : nat) : Q :=
  at_index
    (portfolioValues
       (runSimulation Math_pow startCapital returns configs
          contributionsByYear) sys) i.

(** The carried loss at the start of year [i] *)
Definition carryAt (i : nat) : Q := st_futureCarryForwardLoss (stateAfter i).

Definition valueAfterReturnAt (sys : System) (i : nat) (r : YearReturn) : Q :=
  yearValueAfterReturn r (prevValueAt sys i).

Definition returnAmountAt (sys : System) (i : nat) (r : YearReturn) : Q :=
  yearReturnAmount r (prevValueAt sys i).

(** The tax of year [i] before the clamp *)
Definition taxBeforeClampAt (sys : System) (i : nat) (r : YearReturn) : Q :=
  fst (yearOutcome sys r (prevValueAt sys i) (carryAt i)).

(** [cumulativeTax[sys][i - 1]], taken as 0 before the first year *)
Definition prevCumulativeTaxAt (sys : System) (i : nat) : Q :=
  match i with
  | O => 0
  | S j =>
      at_index
        (cumulativeTax
           (runSimulation Math_pow startCapital returns configs
              contributionsByYear) sys) j
  end.

End Year.

(** ** The specification's wording of two algorithms *)

(** The Current regime, step by step as the specification words it: the
    weights are divided by their sum, the portions are shares of the base
    wealth, and the notional return is apportioned by the part of the notional
    base above the exemption. *)
Definition calcCurrentSystem_spec (baseWealth : Q) (config : Config) : Q :=
  let taxRate := default 36 (cfg_taxRate config) in
  let exemption := default 59357 (cfg_exemption config) in
  let debtThreshold := default 3800 (cfg_debtThreshold config) in
  let savingsRate := default 1.28 (cfg_savingsRate config) in
  let investRate := default 6.00 (cfg_investRate config) in
  let debtRate := default 2.70 (cfg_debtRate config) in
  let wSavings := default 0 (cfg_allocSavings config) in
  let wInvest := default 100 (cfg_allocInvest config) in
  let wDebt := default 0 (cfg_allocDebt config) in
  let partnerMultiplier := getPartnerMultiplier config in
  if leb wSavings 0 && leb wInvest 0 && leb wDebt 0 then 0 else
  let total := wSavings + wInvest + wDebt in
  let savings := baseWealth * (wSavings / total) in
  let invest := baseWealth * (wInvest / total) in
  let debtPortion := baseWealth * (wDebt / total) in
  let deductibleDebt :=
    Math_max 0 (debtPortion - debtThreshold * partnerMultiplier) in
  let taxableNotionalReturn :=
    savings * (savingsRate / 100) + invest * (investRate / 100)
    - deductibleDebt * (debtRate / 100) in
  let notionalBase := savings + invest - deductibleDebt in
  if leb taxableNotionalReturn 0 || leb notionalBase 0 then 0 else
  let exemptBase := Math_max 0 (notionalBase - exemption * partnerMultiplier) in
  taxableNotionalReturn * Math_min 1 (exemptBase / notionalBase)
  * (taxRate / 100).

(** A config whose allocation weights are replaced by what
    [normalizeAllocations] makes of them: a negative weight counts as zero. *)
Definition clampAllocations (c : Config) : Config :=
  mkConfig (cfg_deemedReturn c) (cfg_taxRate c) (cfg_exemption c)
    (cfg_debtThreshold c) (cfg_savingsRate c) (cfg_investRate c)
    (cfg_debtRate c)
    (Some (Math_max 0 (or_default (default 0 (cfg_allocSavings c)) 0)))
    (Some (Math_max 0 (or_default (default 100 (cfg_allocInvest c)) 0)))
    (Some (Math_max 0 (or_default (default 0 (cfg_allocDebt c)) 0)))
    (cfg_freeReturn c) (cfg_lossThreshold c) (cfg_partnerMultiplier c).

(** The contribution schedule as the specification words it: the amount of
    the [k]-th year after the first, before rounding. *)
Fixpoint scheduleAmount (indexRate : Z -> Q) (baseAmount : Q) (startYear : Z)
  (indexation : bool) (k : nat) : Q :=
  match k with
  | O => baseAmount
  | S k' =>
      let previous :=
        scheduleAmount indexRate baseAmount startYear indexation k' in
      if indexation
      then previous * (1 + indexRate (startYear + Z.of_nat (S k'))%Z / 100)
      else previous
  end.

(** ** Classes of values of [partnerMultiplier] *)

(** [Number(v)] is a finite number strictly greater than 1 *)
Definition finiteAboveOne (v : JsVal) : Prop :=
  exists q, Number v = Fin q /\ 1 < q.

(** A rational stand-in for [Math.pow], to run the engine on concrete inputs:
    the first-order expansion of [b ^ e] around [b = 1], exact at base 1.  The
    examples below make no deposits, so the year's growth is the annual
    factor and the value of [Math.pow] plays no part in them. *)
Definition pow_approx (b e : Q) : Q := 1 + (b - 1) * e.

(** ** js/taxSystems.js: the regime of 2017-2022

    The config of [calcOldMethodSystem] is an object with the fields of the
    other regimes and the two bracket limits. *)

Record OldMethodConfig : Type := mkOldMethodConfig {
  om_config : Config;
  om_bracket1Limit : option Q;
  om_bracket2Limit : option Q
}.

(** The fixed mix of savings and investments of the three brackets *)
Definition brackets : list (Q * Q) := [(0.67, 0.33); (0.21, 0.79); (0.00, 1.00)].

(** [bracket1Amount], [bracket2Amount] and [bracket3Amount] *)
Definition bracketAmounts (grondslag bracket1Limit bracket2Limit : Q)
  : list Q :=
  [ Math_min grondslag bracket1Limit;
    Math_min (Math_max 0 (grondslag - bracket1Limit))
      (bracket2Limit - bracket1Limit);
    Math_max 0 (grondslag - bracket2Limit) ].

(** The body of the loop over the three brackets *)
Definition addFictitiousReturn (savingsRate investRate : Q)
  (totalFictitiousReturn : Q) (bracket : Q * (Q * Q)) : Q :=
  let amount := bracket.1 in
  if leb amount 0 then totalFictitiousReturn else
  let b := bracket.2 in
  let fictitiousReturn :=
    amount * (b.1 * (savingsRate / 100) + b.2 * (investRate / 100)) in
  totalFictitiousReturn + fictitiousReturn.

Definition calcOldMethodSystem (portfolioValue actualReturn : Q)
  (config : OldMethodConfig) : Q :=
  let taxRate := default 31 (cfg_taxRate (om_config config)) in
  let exemption := default 50650 (cfg_exemption (om_config config)) in
  let savingsRate := default (-0.01) (cfg_savingsRate (om_config config)) in
  let investRate := default 5.53 (cfg_investRate (om_config config)) in
  let bracket1Limit := default 50651 (om_bracket1Limit config) in
  let bracket2Limit := default 962351 (om_bracket2Limit config) in
  let partnerMultiplier := getPartnerMultiplier (om_config config) in
  let effectiveExemption := exemption * partnerMultiplier in
  let grondslag := Math_max 0 (portfolioValue - effectiveExemption) in
  if leb grondslag 0 then 0 else
  let totalFictitiousReturn :=
    foldl (addFictitiousReturn savingsRate investRate) 0
      (zip (bracketAmounts grondslag bracket1Limit bracket2Limit) brackets) in
  if leb totalFictitiousReturn 0 then 0 else
  let tax := totalFictitiousReturn * (taxRate / 100) in
  Math_max 0 tax.

(** [getDefaultConfigs().oldMethod] *)
Definition defaultOldMethodConfig : OldMethodConfig :=
  mkOldMethodConfig
    (mkConfig None (Some 31) (Some 50650) None (Some (-0.01)) (Some 5.53) None
       None None None None None (JNumber (Fin 1)))
    (Some 50651) (Some 962351).

(** ** js/marketData.js: the return series *)

Record IndexData : Type := mkIndexData {
  idx_name : string;
  idx_currency : string;
  idx_returns : gmap Z Q
}.

Definition returns_sp500 : gmap Z Q :=
  list_to_map
    [ (1988%Z, 16.61); (1989%Z, 31.69); (1990%Z, -3.10); (1991%Z, 30.47);
      (1992%Z, 7.62); (1993%Z, 10.08); (1994%Z, 1.32); (1995%Z, 37.58);
      (1996%Z, 22.96); (1997%Z, 33.36); (1998%Z, 28.58); (1999%Z, 21.04);
      (2000%Z, -9.10); (2001%Z, -11.89); (2002%Z, -22.10); (2003%Z, 28.68);
      (2004%Z, 10.88); (2005%Z, 4.91); (2006%Z, 15.79); (2007%Z, 5.49);
      (2008%Z, -37.0); (2009%Z, 26.46); (2010%Z, 15.06); (2011%Z, 2.11);
      (2012%Z, 16.0); (2013%Z, 32.39); (2014%Z, 13.69); (2015%Z, 1.38);
      (2016%Z, 11.96); (2017%Z, 21.83); (2018%Z, -4.38); (2019%Z, 31.49);
      (2020%Z, 18.4); (2021%Z, 28.71); (2022%Z, -18.11); (2023%Z, 26.29);
      (2024%Z, 25.02); (2025%Z, 17.88) ].

Definition returns_aex : gmap Z Q :=
  list_to_map
    [ (2005%Z, 28.01); (2006%Z, 17.35); (2007%Z, 7.94); (2008%Z, -50.4);
      (2009%Z, 41.8); (2010%Z, 8.9); (2011%Z, -9.4); (2012%Z, 16.2);
      (2013%Z, 21.2); (2014%Z, 9.8); (2015%Z, 7.4); (2016%Z, 12.7);
      (2017%Z, 16.1); (2018%Z, -8.5); (2019%Z, 28.6); (2020%Z, 5.4);
      (2021%Z, 30.3); (2022%Z, -11.7); (2023%Z, 18.6); (2024%Z, 14.5);
      (2025%Z, 11.18) ].

Definition returns_allworld : gmap Z Q :=
  list_to_map
    [ (2005%Z, 11.37); (2006%Z, 21.53); (2007%Z, 12.18); (2008%Z, -42.19);
      (2009%Z, 34.63); (2010%Z, 12.67); (2011%Z, -7.35); (2012%Z, 16.13);
      (2013%Z, 22.8); (2014%Z, 4.16); (2015%Z, -2.36); (2016%Z, 7.86);
      (2017%Z, 23.97); (2018%Z, -9.41); (2019%Z, 26.6); (2020%Z, 16.25);
      (2021%Z, 18.54); (2022%Z, -18.36); (2023%Z, 22.2); (2024%Z, 17.49);
      (2025%Z, 22.34) ].

Definition returns_ethereum : gmap Z Q :=
  list_to_map
    [ (2016%Z, 756.99); (2017%Z, 9394.73); (2018%Z, -82.38); (2019%Z, -2.82);
      (2020%Z, 469.25); (2021%Z, 399.14); (2022%Z, -67.55); (2023%Z, 90.92);
      (2024%Z, 46.08); (2025%Z, -10.96) ].

Definition marketData : gmap string IndexData :=
  list_to_map
    [ ("sp500"%string,
       mkIndexData "S&P 500 (Total Return)" "USD" returns_sp500);
      ("aex"%string, mkIndexData "AEX (Gross Return)" "EUR" returns_aex);
      ("allworld"%string,
       mkIndexData "MSCI All World (Total Return)" "USD" returns_allworld);
      ("ethereum"%string, mkIndexData "Ethereum (ETH)" "USD" returns_ethereum) ].

(** [Object.keys(returns).map(Number).sort((a, b) => a - b)] *)
Definition sortedYears (returns : gmap Z Q) : list Z :=
  merge_sort Z.le (map_to_list returns).*1.

(** [marketData] is an object literal, so [marketData[indexKey]] finds the
    four indices, its own properties, and also what the object inherits from
    [Object.prototype]: functions, and for [__proto__] the prototype itself.
    All of these are truthy and none has a property [returns]. *)
Definition objectPrototypeKeys : list string :=
  [ "constructor"; "hasOwnProperty"; "isPrototypeOf"; "propertyIsEnumerable";
    "toLocaleString"; "toString"; "valueOf"; "__proto__";
    "__defineGetter__"; "__defineSetter__"; "__lookupGetter__";
    "__lookupSetter__" ]%string.

(** What a property access on an object literal finds *)
Inductive Property (A : Type) : Type :=
  | Own (a : A)
  | Inherited
  | Undefined.
Arguments Own {A} a.
Arguments Inherited {A}.
Arguments Undefined {A}.

(** [marketData[indexKey]] *)
Definition marketData_at (indexKey : string) : Property IndexData :=
  match marketData !! indexKey with
  | Some data => Own data
  | None =>
      if bool_decide (indexKey ∈ objectPrototypeKeys)
      then Inherited
      else Undefined
  end.

(** A call returns a value or throws *)
Inductive JsError : Type := TypeError.

Inductive Completion (A : Type) : Type :=
  | Return (a : A)
  | Throw (e : JsError).
Arguments Return {A} a.
Arguments Throw {A} e.

#[global] Instance Completion_ret : MRet Completion := @Return.

#[global] Instance Completion_bind : MBind Completion :=
  fun A B f c =>
    match c with
    | Return a => f a
    | Throw e => Throw e
    end.

(** [Object.keys(data.returns)], [data.returns] and [data.returns[y]] for
    what [marketData[indexKey]] found: on an inherited value [data.returns]
    is [undefined], and [Object.keys(undefined)] and [undefined[y]] throw a
    [TypeError] *)
Definition returnsOf (data : Property IndexData) : Completion (gmap Z Q) :=
  match data with
  | Own d => Return (idx_returns d)
  | Inherited | Undefined => Throw TypeError
  end.

Definition getAvailableYears (indexKey : string) : Completion (list Z) :=
  let data := marketData_at indexKey in
  match data with
  | Undefined => Return []
  | _ => returns ← returnsOf data; Return (sortedYears returns)
  end.

(** [years.filter(...).map(...)]: the callback of [map] reads [data.returns]
    for every year, so [mapM] runs it in the order of the years *)
Definition getReturns (indexKey : string) (startYear endYear : Z)
  : Completion (list YearReturn) :=
  let data := marketData_at indexKey in
  match data with
  | Undefined => Return []
  | _ =>
      years ← getAvailableYears indexKey;
      mapM
        (fun y =>
           returns ← returnsOf data;
           Return (mkYearReturn y (default 0 (returns !! y))))
        (filter (fun y => (startYear <= y)%Z /\ (y <= endYear)%Z) years)
  end.

(** ** A single person with other thresholds *)

(** The config [c] with the given exemption, debt threshold and free return,
    and without fiscal partner *)
Definition withThresholds (exemption debtThreshold freeReturn : Q)
  (c : Config) : Config :=
  mkConfig (cfg_deemedReturn c) (cfg_taxRate c) (Some exemption)
    (Some debtThreshold) (cfg_savingsRate c) (cfg_investRate c)
    (cfg_debtRate c) (cfg_allocSavings c) (cfg_allocInvest c)
    (cfg_allocDebt c) (Some freeReturn) (cfg_lossThreshold c)
    (JNumber (Fin 1)).

(** ** Sums over the result series *)

(** The sum of the first entries of a tax series, added in the order of the
    years *)
Definition sumTax (taxes : list Q) : Q := foldl Qplus 0 taxes.

(** ** Concrete inputs of the examples *)

(** A future config with the given tax rate and loss threshold, the default
    free return and no fiscal partner *)
Definition futureConfig (taxRate lossThreshold : Q) : Config :=
  mkConfig None (Some taxRate) None None None None None None None None
    (Some 1800) (Some lossThreshold) (JNumber (Fin 1)).

(** The default configs with another future config *)
Definition withFuture (config : Config) : Configs :=
  mkConfigs (configs_noTax getDefaultConfigs) (configs_old getDefaultConfigs)
    (configs_current getDefaultConfigs) config.

(** An old config with the given deemed return and tax rate, the default
    exemption and no fiscal partner *)
Definition oldConfig (deemedReturn taxRate : Q) : Config :=
  mkConfig (Some deemedReturn) (Some taxRate) (Some 21139) None None None
    None None None None None None (JNumber (Fin 1)).

(** The default configs with another old config *)
Definition withOld (config : Config) : Configs :=
  mkConfigs (configs_noTax getDefaultConfigs) config
    (configs_current getDefaultConfigs) (configs_future getDefaultConfigs).

(** A current config with the given tax rate and savings weight, and the
    default values elsewhere *)
Definition currentConfig (taxRate allocSavings : Q) : Config :=
  mkConfig None (Some taxRate) (Some 59357) (Some 3800) (Some 1.28)
    (Some 6.00) (Some 2.70) (Some allocSavings) (Some 100) (Some 0) None None
    (JNumber (Fin 1)).

(** One year at +20 percent, one year at -0.1 percent, and a loss year
    followed by a gain year *)
Definition oneGoodYear : list YearReturn := [mkYearReturn 2024 20].
Definition oneSmallLoss : list YearReturn := [mkYearReturn 2024 (-0.1)].
Definition lossThenGain : list YearReturn :=
  [mkYearReturn 2022 (-10); mkYearReturn 2023 20].

(** The invariant of the outer loop at index [i]: every wealth series has
    [i + 1] entries, every tax series [i]. *)
Definition lengths (i : nat) (st : SimState) : Prop :=
  forall sys,
    length (st_portfolioValues st sys) = S i
    /\ length (st_annualTax st sys) = i
    /\ length (st_cumulativeTax st sys) = i.

(** * Properties *)

(** ** Case analysis on the comparisons *)

Lemma leb_true (a b : Q) : leb a b = true <-> a <= b.
Proof. apply Qle_bool_iff. Qed.

Lemma leb_false (a b : Q) : leb a b = false <-> b < a.
Proof.
  unfold leb. split; intros H.
  - apply Qnot_le_lt. intros Hle. apply Qle_bool_iff in Hle. congruence.
  - destruct (Qle_bool a b) eqn:E; [| reflexivity].
    apply Qle_bool_iff in E. lra.
Qed.

Lemma ltb_true (a b : Q) : ltb a b = true <-> a < b.
Proof.
  unfold ltb. rewrite negb_true_iff. apply (leb_false b a).
Qed.

Lemma ltb_false (a b : Q) : ltb a b = false <-> b <= a.
Proof.
  unfold ltb. rewrite negb_false_iff. apply Qle_bool_iff.
Qed.

Lemma eqb_true (a b : Q) : eqb a b = true <-> a == b.
Proof. apply Qeq_bool_iff. Qed.

Lemma eqb_false (a b : Q) : eqb a b = false <-> ~ a == b.
Proof.
  unfold eqb. split; intros H.
  - intros Heq. apply Qeq_bool_iff in Heq. congruence.
  - destruct (Qeq_bool a b) eqn:E; [| reflexivity].
    apply Qeq_bool_iff in E. contradiction.
Qed.

Lemma Math_max_cases (a b : Q) :
  (a <= b /\ Math_max a b = b) \/ (b < a /\ Math_max a b = a).
Proof.
  unfold Math_max. destruct (Qle_bool a b) eqn:E.
  - left. split; [by apply Qle_bool_iff | reflexivity].
  - right. split; [by apply (leb_false a b) | reflexivity].
Qed.

Lemma Math_min_cases (a b : Q) :
  (a <= b /\ Math_min a b = a) \/ (b < a /\ Math_min a b = b).
Proof.
  unfold Math_min. destruct (Qle_bool a b) eqn:E.
  - left. split; [by apply Qle_bool_iff | reflexivity].
  - right. split; [by apply (leb_false a b) | reflexivity].
Qed.

Lemma Math_max_lb_l (a b : Q) : a <= Math_max a b.
Proof. destruct (Math_max_cases a b) as [[H ->]|[H ->]]; lra. Qed.

Lemma Math_max_lb_r (a b : Q) : b <= Math_max a b.
Proof. destruct (Math_max_cases a b) as [[H ->]|[H ->]]; lra. Qed.

Lemma Math_min_ub_l (a b : Q) : Math_min a b <= a.
Proof. destruct (Math_min_cases a b) as [[H ->]|[H ->]]; lra. Qed.

Lemma Math_min_ub_r (a b : Q) : Math_min a b <= b.
Proof. destruct (Math_min_cases a b) as [[H ->]|[H ->]]; lra. Qed.

Lemma Math_min_glb (a b c : Q) : c <= a -> c <= b -> c <= Math_min a b.
Proof. intros. destruct (Math_min_cases a b) as [[H' ->]|[H' ->]]; lra. Qed.

(** Turns every boolean comparison among the hypotheses into its
    proposition. *)
Ltac cmp_hyps :=
  repeat match goal with
  | H : leb _ _ = true |- _ => apply leb_true in H
  | H : leb _ _ = false |- _ => apply leb_false in H
  | H : ltb _ _ = true |- _ => apply ltb_true in H
  | H : ltb _ _ = false |- _ => apply ltb_false in H
  | H : eqb _ _ = true |- _ => apply eqb_true in H
  | H : eqb _ _ = false |- _ => apply eqb_false in H
  end.

(** ** The partner multiplier *)

Lemma getPartnerMultiplier_cases (config : Config) :
  (finiteAboveOne (cfg_partnerMultiplier config)
   /\ getPartnerMultiplier config = 2)
  \/ (~ finiteAboveOne (cfg_partnerMultiplier config)
      /\ getPartnerMultiplier config = 1).
Proof.
  unfold getPartnerMultiplier, finiteAboveOne.
  destruct (Number (cfg_partnerMultiplier config)) as [| | |q] eqn:E; simpl.
  - right. split; [intros (q & Hq & _); discriminate | reflexivity].
  - right. split; [intros (q & Hq & _); discriminate | reflexivity].
  - right. split; [intros (q & Hq & _); discriminate | reflexivity].
  - destruct (ltb 1 q) eqn:Hlt; cmp_hyps.
    + left. split; [exists q; by split | reflexivity].
    + right. split; [| reflexivity].
      intros (q' & Hq' & Hlt'). injection Hq' as <-. lra.
Qed.

(** The calculators read [partnerMultiplier] through [getPartnerMultiplier]
    only. *)
Lemma calculators_partnerMultiplier (v : JsVal) (config : Config) (w r : Q) :
  getPartnerMultiplier (set_partnerMultiplier v config)
  = getPartnerMultiplier config ->
  calcOldSystem w r (set_partnerMultiplier v config) = calcOldSystem w r config
  /\ calcCurrentSystem w r (set_partnerMultiplier v config)
     = calcCurrentSystem w r config
  /\ calcFutureIncome r (set_partnerMultiplier v config)
     = calcFutureIncome r config.
Proof.
  intros H. unfold calcOldSystem, calcCurrentSystem, calcFutureIncome.
  rewrite H. simpl. repeat split; reflexivity.
Qed.

(** C10.  For every config given to [calcOldSystem], [calcCurrentSystem] or
    [calcFutureIncome], the effective partner multiplier is exactly 2 when
    [Number(config.partnerMultiplier)] is a finite number strictly greater
    than 1 and exactly 1 for every other value (missing, not a number, [NaN],
    infinite, at most 1), and the three calculators compute what they compute
    on the config whose multiplier is that effective value: 1.5 acts as 2,
    while 0 and -5 act as 1. *)
Theorem partnerMultiplier_effective (config : Config) (w r : Q) :
  let m := getPartnerMultiplier config in
  let as_number (q : Q) := set_partnerMultiplier (JNumber (Fin q)) config in
  (m = 2 <-> finiteAboveOne (cfg_partnerMultiplier config))
  /\ (m = 1 <-> ~ finiteAboveOne (cfg_partnerMultiplier config))
  /\ (calcOldSystem w r config = calcOldSystem w r (as_number m)
      /\ calcCurrentSystem w r config = calcCurrentSystem w r (as_number m)
      /\ calcFutureIncome r config = calcFutureIncome r (as_number m))
  /\ (calcOldSystem w r (as_number 1.5) = calcOldSystem w r (as_number 2)
      /\ calcCurrentSystem w r (as_number 1.5)
         = calcCurrentSystem w r (as_number 2)
      /\ calcFutureIncome r (as_number 1.5) = calcFutureIncome r (as_number 2))
  /\ (calcOldSystem w r (as_number 0) = calcOldSystem w r (as_number 1)
      /\ calcOldSystem w r (as_number (-5)) = calcOldSystem w r (as_number 1)
      /\ calcCurrentSystem w r (as_number 0)
         = calcCurrentSystem w r (as_number 1)
      /\ calcCurrentSystem w r (as_number (-5))
         = calcCurrentSystem w r (as_number 1)
      /\ calcFutureIncome r (as_number 0) = calcFutureIncome r (as_number 1)
      /\ calcFutureIncome r (as_number (-5))
         = calcFutureIncome r (as_number 1))
  /\ (getPartnerMultiplier (set_partnerMultiplier JUndefined config) = 1
      /\ getPartnerMultiplier (set_partnerMultiplier (JNumber NaN) config) = 1
      /\ getPartnerMultiplier (set_partnerMultiplier (JCoerced NaN) config) = 1
      /\ getPartnerMultiplier
           (set_partnerMultiplier (JNumber PosInfinity) config) = 1
      /\ getPartnerMultiplier
           (set_partnerMultiplier (JNumber NegInfinity) config) = 1).
Proof.
  intros m as_number.
  assert (Hsame : forall v,
    getPartnerMultiplier (set_partnerMultiplier v config)
    = getPartnerMultiplier (set_partnerMultiplier v emptyConfig)) by reflexivity.
  split; [| split; [| split; [| split; [| split]]]].
  - subst m.
    destruct (getPartnerMultiplier_cases config) as [[Hf ->]|[Hf ->]].
    + split; [intros _; exact Hf | reflexivity].
    + split; [discriminate | intros Hf'; contradiction].
  - subst m.
    destruct (getPartnerMultiplier_cases config) as [[Hf ->]|[Hf ->]].
    + split; [discriminate | intros Hf'; contradiction].
    + split; [intros _; exact Hf | reflexivity].
  - assert (Hm : getPartnerMultiplier (as_number m)
                 = getPartnerMultiplier config).
    { subst as_number m. simpl. rewrite Hsame.
      destruct (getPartnerMultiplier_cases config) as [[_ ->]|[_ ->]];
        reflexivity. }
    destruct (calculators_partnerMultiplier (JNumber (Fin m)) config w r Hm)
      as (H1 & H2 & H3).
    subst as_number. simpl. by rewrite H1, H2, H3.
  - unfold calcOldSystem, calcCurrentSystem, calcFutureIncome.
    repeat split; reflexivity.
  - unfold calcOldSystem, calcCurrentSystem, calcFutureIncome.
    repeat split; reflexivity.
  - repeat split; reflexivity.
Qed.

(** ** One year of the simulation *)

Section YearLemmas.

Variable Math_pow : Q -> Q -> Q.
Variable configs : Configs.
Variable contributionsByYear : Contributions.

Local Abbreviation yearStep' := (yearStep Math_pow configs contributionsByYear).
Local Abbreviation yearLoop' := (yearLoop Math_pow configs contributionsByYear).
Local Abbreviation yearTax' := (yearTax Math_pow configs contributionsByYear).
Local Abbreviation yearOutcome' :=
  (yearOutcome Math_pow configs contributionsByYear).
Local Abbreviation yearValueAfterReturn' :=
  (yearValueAfterReturn Math_pow contributionsByYear).

(** Each regime appends one entry to each of its three series, computed from
    its own wealth at index [i]; only the future regime changes the carried
    loss. *)
Lemma yearStep_series (i : nat) (r : YearReturn) (st : SimState)
  (sys : System) :
  let prev := at_index (st_portfolioValues st sys) i in
  let carry := st_futureCarryForwardLoss st in
  let tax := yearTax' sys r prev carry in
  st_portfolioValues (yearStep' i r st) sys
  = st_portfolioValues st sys ++ [yearValueAfterReturn' r prev - tax]
  /\ st_annualTax (yearStep' i r st) sys = st_annualTax st sys ++ [tax]
  /\ st_cumulativeTax (yearStep' i r st) sys
     = st_cumulativeTax st sys
       ++ [default 0 (last (st_cumulativeTax st sys)) + tax].
Proof.
  destruct sys; repeat split; reflexivity.
Qed.

Lemma yearStep_carry (i : nat) (r : YearReturn) (st : SimState) :
  st_futureCarryForwardLoss (yearStep' i r st)
  = snd (yearOutcome' future r (at_index (st_portfolioValues st future) i)
           (st_futureCarryForwardLoss st)).
Proof. reflexivity. Qed.

Lemma yearStep_lengths (i : nat) (r : YearReturn) (st : SimState) :
  lengths i st -> lengths (S i) (yearStep' i r st).
Proof.
  intros H sys. destruct (H sys) as (H1 & H2 & H3).
  destruct (yearStep_series i r st sys) as (-> & -> & ->).
  rewrite !length_app, H1, H2, H3. simpl. lia.
Qed.

Lemma yearLoop_app (l1 l2 : list YearReturn) (i : nat) (st : SimState) :
  yearLoop' i (l1 ++ l2) st
  = yearLoop' (i + length l1) l2 (yearLoop' i l1 st).
Proof.
  revert i st. induction l1 as [|r l1 IH]; intros i st; simpl.
  - by rewrite Nat.add_0_r.
  - rewrite IH. f_equal. lia.
Qed.

Lemma yearLoop_lengths (rest : list YearReturn) (i : nat) (st : SimState) :
  lengths i st -> lengths (i + length rest) (yearLoop' i rest st).
Proof.
  revert i st. induction rest as [|r rest IH]; intros i st H; simpl.
  - by rewrite Nat.add_0_r.
  - replace (i + S (length rest))%nat with (S i + length rest)%nat by lia.
    apply IH. by apply yearStep_lengths.
Qed.

(** The loop only appends: what a series holds stays where it is. *)
Lemma yearLoop_prefix (rest : list YearReturn) (i : nat) (st : SimState)
  (sys : System) :
  st_portfolioValues st sys
    `prefix_of` st_portfolioValues (yearLoop' i rest st) sys
  /\ st_annualTax st sys `prefix_of` st_annualTax (yearLoop' i rest st) sys
  /\ st_cumulativeTax st sys
       `prefix_of` st_cumulativeTax (yearLoop' i rest st) sys.
Proof.
  revert i st. induction rest as [|r rest IH]; intros i st; simpl.
  - done.
  - destruct (IH (S i) (yearStep' i r st)) as (H1 & H2 & H3).
    destruct (yearStep_series i r st sys) as (E1 & E2 & E3).
    rewrite E1 in H1. rewrite E2 in H2. rewrite E3 in H3.
    repeat split; (etrans; [apply prefix_app_r; reflexivity | eassumption]).
Qed.

Lemma yearLoop_carry_invariant (P : Q -> Prop) (rest : list YearReturn)
  (i : nat) (st : SimState) :
  (forall r prev carry, P carry -> P (snd (yearOutcome' future r prev carry))) ->
  P (st_futureCarryForwardLoss st) ->
  P (st_futureCarryForwardLoss (yearLoop' i rest st)).
Proof.
  intros Hstep. revert i st.
  induction rest as [|r rest IH]; intros i st H; simpl; [done |].
  apply IH. rewrite yearStep_carry. by apply Hstep.
Qed.

End YearLemmas.

(** ** A whole run *)

Section RunLemmas.

Variable Math_pow : Q -> Q -> Q.
Variable configs : Configs.
Variable contributionsByYear : Contributions.
Variable startCapital : Q.
Variable returns : list YearReturn.

Local Abbreviation final :=
  (finalState Math_pow startCapital returns configs contributionsByYear).
Local Abbreviation result :=
  (runSimulation Math_pow startCapital returns configs contributionsByYear).
Local Abbreviation after :=
  (stateAfter Math_pow configs contributionsByYear startCapital returns).
Local Abbreviation yearStep' := (yearStep Math_pow configs contributionsByYear).
Local Abbreviation yearLoop' := (yearLoop Math_pow configs contributionsByYear).
Local Abbreviation yearTax' := (yearTax Math_pow configs contributionsByYear).
Local Abbreviation yearOutcome' :=
  (yearOutcome Math_pow configs contributionsByYear).
Local Abbreviation prevValueAt' :=
  (prevValueAt Math_pow configs contributionsByYear startCapital returns).
Local Abbreviation carryAt' :=
  (carryAt Math_pow configs contributionsByYear startCapital returns).
Local Abbreviation prevCumulativeTaxAt' :=
  (prevCumulativeTaxAt Math_pow configs contributionsByYear startCapital
     returns).

Lemma initState_lengths : lengths 0 (initState startCapital).
Proof. intros sys. by repeat split. Qed.

Lemma stateAfter_lengths (n : nat) :
  (n <= length returns)%nat -> lengths n (after n).
Proof.
  intros Hn. unfold stateAfter.
  pose proof (yearLoop_lengths Math_pow configs contributionsByYear
                (take n returns) 0 (initState startCapital)
                initState_lengths) as H.
  rewrite length_take in H. simpl in H.
  by replace (n `min` length returns)%nat with n in H by lia.
Qed.

Lemma stateAfter_S (i : nat) (r : YearReturn) :
  returns !! i = Some r -> after (S i) = yearStep' i r (after i).
Proof.
  intros Hr. unfold stateAfter.
  rewrite (take_S_r _ _ _ Hr), yearLoop_app. simpl.
  rewrite length_take. apply lookup_lt_Some in Hr.
  by replace (i `min` length returns)%nat with i by lia.
Qed.

Lemma final_after (n : nat) :
  final = yearLoop' (n `min` length returns) (drop n returns) (after n).
Proof.
  unfold finalState, stateAfter.
  rewrite <- (take_drop n returns) at 1.
  by rewrite yearLoop_app, length_take.
Qed.

Lemma stateAfter_prefix (n : nat) (sys : System) :
  st_portfolioValues (after n) sys `prefix_of` st_portfolioValues final sys
  /\ st_annualTax (after n) sys `prefix_of` st_annualTax final sys
  /\ st_cumulativeTax (after n) sys `prefix_of` st_cumulativeTax final sys.
Proof. rewrite (final_after n). apply yearLoop_prefix. Qed.

(** The series of the result have the lengths the specification gives them. *)
Lemma result_lengths (sys : System) :
  length (portfolioValues result sys) = S (length returns)
  /\ length (annualTax result sys) = length returns
  /\ length (cumulativeTax result sys) = length returns.
Proof.
  apply (yearLoop_lengths Math_pow configs contributionsByYear returns 0
           (initState startCapital) initState_lengths sys).
Qed.

Lemma at_index_lookup (l : list Q) (i : nat) (x : Q) :
  l !! i = Some x -> at_index l i = x.
Proof. unfold at_index. by intros ->. Qed.

Lemma lookup_at_index (l : list Q) (i : nat) :
  (i < length l)%nat -> l !! i = Some (at_index l i).
Proof.
  intros H. destruct (lookup_lt_is_Some_2 l i H) as [x Hx].
  by rewrite (at_index_lookup l i x Hx).
Qed.

(** Year [i] of a run: the entries the result holds for it are the ones the
    loop body computes from the wealth at index [i] and the carried loss of
    the state after [i] years. *)
Lemma run_year (sys : System) (i : nat) (r : YearReturn) :
  returns !! i = Some r ->
  let prev := prevValueAt' sys i in
  let tax := yearTax' sys r prev (carryAt' i) in
  portfolioValues result sys !! i = Some prev
  /\ portfolioValues result sys !! S i
     = Some (yearValueAfterReturn Math_pow contributionsByYear r prev - tax)
  /\ annualTax result sys !! i = Some tax
  /\ cumulativeTax result sys !! i = Some (prevCumulativeTaxAt' sys i + tax)
  /\ carryAt' (S i)
     = snd (yearOutcome' future r (prevValueAt' future i) (carryAt' i)).
Proof.
  intros Hr. pose proof (lookup_lt_Some _ _ _ Hr) as Hi.
  assert (Hlen : lengths i (after i)) by (apply stateAfter_lengths; lia).
  assert (Hprev : forall s,
            at_index (st_portfolioValues (after i) s) i = prevValueAt' s i).
  { intros s. destruct (Hlen s) as (H1 & _).
    destruct (stateAfter_prefix i s) as (P1 & _).
    symmetry. apply at_index_lookup.
    eapply prefix_lookup_Some; [| exact P1].
    apply lookup_at_index. lia. }
  assert (Hcum : default 0 (last (st_cumulativeTax (after i) sys))
                 = prevCumulativeTaxAt' sys i).
  { destruct (Hlen sys) as (_ & _ & H3).
    destruct (stateAfter_prefix i sys) as (_ & _ & P3).
    rewrite last_lookup, H3. destruct i as [|j]; simpl.
    - destruct (st_cumulativeTax (after 0) sys); [done | discriminate].
    - symmetry. unfold at_index.
      assert (Hj : (j < length (st_cumulativeTax (after (S j)) sys))%nat)
        by lia.
      destruct (lookup_lt_is_Some_2 _ _ Hj) as [c Hc].
      rewrite Hc. rewrite (prefix_lookup_Some _ _ _ _ Hc P3). done. }
  destruct (Hlen sys) as (H1 & H2 & H3).
  destruct (stateAfter_prefix (S i) sys) as (P1 & P2 & P3).
  destruct (yearStep_series Math_pow configs contributionsByYear i r
              (after i) sys) as (E1 & E2 & E3).
  rewrite <- (stateAfter_S i r Hr) in E1, E2, E3.
  rewrite Hprev in E1, E2, E3. rewrite Hcum in E3.
  intros prev tax. subst prev tax. unfold carryAt in *.
  repeat split.
  - destruct (stateAfter_prefix i sys) as (Q1 & _).
    eapply prefix_lookup_Some; [| exact Q1].
    rewrite <- Hprev. apply lookup_at_index. lia.
  - eapply prefix_lookup_Some; [| exact P1].
    rewrite E1. by apply list_lookup_middle.
  - eapply prefix_lookup_Some; [| exact P2].
    rewrite E2. by apply list_lookup_middle.
  - eapply prefix_lookup_Some; [| exact P3].
    rewrite E3. by apply list_lookup_middle.
  - rewrite (stateAfter_S i r Hr), yearStep_carry. by rewrite Hprev.
Qed.

End RunLemmas.

(** ** The growth of one year *)

(** Without deposits the year compounds once: the wealth of the no-tax regime
    is multiplied by [1 + return / 100]. *)
Lemma valueAfterReturnOf_no_deposit (prevValue annualFactor monthlyFactor : Q) :
  valueAfterReturnOf prevValue annualFactor monthlyFactor 0
  = prevValue * annualFactor.
Proof. reflexivity. Qed.

(** With a monthly factor of 1 the twelve deposits are summed. *)
Lemma valueAfterReturnOf_no_growth (prevValue annualFactor deposit : Q) :
  0 < deposit ->
  valueAfterReturnOf prevValue annualFactor 1 deposit
  == prevValue + 12 * deposit.
Proof.
  intros H. unfold valueAfterReturnOf.
  apply leb_false in H. rewrite H. simpl. ring.
Qed.

Example monthly_deposits_at_zero_return :
  map Qred
    (portfolioValues
       (runSimulation pow_approx 50000 [mkYearReturn 2024 0]
          getDefaultConfigs (ContribFlat 1000)) noTax)
  = [50000; 62000].
Proof. vm_compute. reflexivity. Qed.

(** ** The calculators never return a negative tax *)

Lemma calcOldSystem_nonneg (w r : Q) (config : Config) :
  0 <= calcOldSystem w r config.
Proof. apply Math_max_lb_l. Qed.

Lemma calcCurrentSystem_nonneg (w r : Q) (config : Config) :
  0 <= calcCurrentSystem w r config.
Proof.
  unfold calcCurrentSystem.
  repeat match goal with
         | |- context [if ?b then _ else _] => destruct b; [lra |]
         end.
  apply Math_max_lb_l.
Qed.

Lemma calcFutureSystem_nonneg (w income : Q) (config : Config) :
  0 <= calcFutureSystem w income config.
Proof. apply Math_max_lb_l. Qed.

Lemma futureCase_tax_nonneg (config : Config) (v ra carry : Q) :
  0 <= fst (futureCase config v ra carry).
Proof.
  unfold futureCase.
  destruct (ltb _ 0); [simpl; lra |].
  destruct (eqb _ 0); [simpl; lra |].
  apply calcFutureSystem_nonneg.
Qed.

Lemma regimeTax_nonneg (configs : Configs) (sys : System)
  (prev v ra carry : Q) :
  0 <= fst (regimeTax configs sys prev v ra carry).
Proof.
  destruct sys; simpl.
  - unfold calcNoTax. lra.
  - apply calcOldSystem_nonneg.
  - apply calcCurrentSystem_nonneg.
  - apply futureCase_tax_nonneg.
Qed.

Lemma yearTax_bounds (Math_pow : Q -> Q -> Q) (configs : Configs)
  (contributionsByYear : Contributions) (sys : System) (r : YearReturn)
  (prev carry : Q) :
  0 <= yearTax Math_pow configs contributionsByYear sys r prev carry
  /\ yearTax Math_pow configs contributionsByYear sys r prev carry
     <= Math_max 0 (yearValueAfterReturn Math_pow contributionsByYear r prev).
Proof.
  unfold yearTax. split.
  - apply Math_min_glb; [apply regimeTax_nonneg | apply Math_max_lb_l].
  - apply Math_min_ub_r.
Qed.

(** ** The invariants of the result series *)

(** C1.  In every run, for every regime and every year index [i], the
    recorded annual tax is between 0 and [max(0, valueAfterReturn)] of that
    year, and the cumulative tax of the year is the cumulative tax of the year
    before (0 before the first year) plus the annual tax; hence the
    cumulative tax never decreases. *)
Theorem annualTax_bounds_cumulativeTax_sum (Math_pow : Q -> Q -> Q)
  (configs : Configs) (contributionsByYear : Contributions)
  (startCapital : Q) (returns : list YearReturn) :
  let result :=
    runSimulation Math_pow startCapital returns configs contributionsByYear in
  (forall sys i r,
     returns !! i = Some r ->
     exists tax,
       annualTax result sys !! i = Some tax
       /\ 0 <= tax
       /\ tax <= Math_max 0
                   (valueAfterReturnAt Math_pow configs contributionsByYear
                      startCapital returns sys i r)
       /\ cumulativeTax result sys !! i
          = Some (prevCumulativeTaxAt Math_pow configs contributionsByYear
                    startCapital returns sys i + tax))
  /\ (forall sys i j ci cj,
        (i <= j)%nat ->
        cumulativeTax result sys !! i = Some ci ->
        cumulativeTax result sys !! j = Some cj ->
        ci <= cj).
Proof.
  intros result.
  assert (Hyear : forall sys i r,
     returns !! i = Some r ->
     exists tax,
       annualTax result sys !! i = Some tax
       /\ 0 <= tax
       /\ tax <= Math_max 0
                   (valueAfterReturnAt Math_pow configs contributionsByYear
                      startCapital returns sys i r)
       /\ cumulativeTax result sys !! i
          = Some (prevCumulativeTaxAt Math_pow configs contributionsByYear
                    startCapital returns sys i + tax)).
  { intros sys i r Hr.
    destruct (run_year Math_pow configs contributionsByYear startCapital
                returns sys i r Hr) as (_ & _ & Ha & Hc & _).
    eexists. split; [exact Ha |].
    split; [apply yearTax_bounds |]. split; [apply yearTax_bounds | exact Hc]. }
  split; [exact Hyear |].
  intros sys i j ci cj Hij Hi Hj.
  replace j with (i + (j - i))%nat in Hj by lia.
  generalize dependent cj. generalize (j - i)%nat as d. clear Hij j.
  induction d as [|d IH]; intros cj Hj.
  - rewrite Nat.add_0_r in Hj. rewrite Hi in Hj. injection Hj as <-. lra.
  - replace (i + S d)%nat with (S (i + d)) in Hj by lia.
    pose proof (lookup_lt_Some _ _ _ Hj) as Hlt.
    destruct (result_lengths Math_pow configs contributionsByYear startCapital
                returns sys) as (_ & _ & Hlen).
    fold result in Hlen. rewrite Hlen in Hlt.
    destruct (lookup_lt_is_Some_2 returns (S (i + d)) Hlt) as [r Hr].
    destruct (Hyear sys _ r Hr) as (tax & _ & Htax & _ & Hc).
    rewrite Hj in Hc. injection Hc as ->. simpl.
    assert (Hprev : cumulativeTax result sys !! (i + d)%nat
                    = Some (at_index (cumulativeTax result sys) (i + d))).
    { apply lookup_at_index. rewrite Hlen. lia. }
    apply (Qle_trans _ _ _ (IH _ Hprev)).
    subst result. simpl. lra.
Qed.

Lemma annualTax_bounds_cumulativeTax_sum_witness :
  exists tax,
    annualTax
      (runSimulation pow_approx 100000 lossThenGain getDefaultConfigs
         (ContribFlat 0)) future !! 1%nat = Some tax
    /\ 0 <= tax
    /\ tax <= Math_max 0
                (valueAfterReturnAt pow_approx getDefaultConfigs
                   (ContribFlat 0) 100000 lossThenGain future 1
                   (mkYearReturn 2023 20))
    /\ cumulativeTax
         (runSimulation pow_approx 100000 lossThenGain getDefaultConfigs
            (ContribFlat 0)) future !! 1%nat
       = Some (prevCumulativeTaxAt pow_approx getDefaultConfigs
                 (ContribFlat 0) 100000 lossThenGain future 1 + tax).
Proof.
  exact (proj1 (annualTax_bounds_cumulativeTax_sum pow_approx
                  getDefaultConfigs (ContribFlat 0) 100000 lossThenGain)
           future 1%nat (mkYearReturn 2023 20) eq_refl).
Defined.

(** ** The future regime: loss carry-forward *)

Lemma futureCase_loss (config : Config) (v ra carry : Q) :
  calcFutureIncome ra config < 0 ->
  futureCase config v ra carry
  = (0, if ltb (simLossThreshold config)
             (Math_abs (calcFutureIncome ra config))
        then carry + Math_abs (calcFutureIncome ra config)
        else carry).
Proof.
  intros H. unfold futureCase.
  apply ltb_true in H. by rewrite H.
Qed.

Lemma futureCase_zero (config : Config) (v ra carry : Q) :
  calcFutureIncome ra config == 0 ->
  futureCase config v ra carry = (0, carry).
Proof.
  intros H. unfold futureCase.
  assert (H1 : ltb (calcFutureIncome ra config) 0 = false)
    by (apply ltb_false; lra).
  apply eqb_true in H. by rewrite H1, H.
Qed.

Lemma futureCase_gain (config : Config) (v ra carry : Q) :
  0 < calcFutureIncome ra config ->
  futureCase config v ra carry
  = (calcFutureSystem v
       (calcFutureIncome ra config
        - Math_min carry (calcFutureIncome ra config)) config,
     carry - Math_min carry (calcFutureIncome ra config)).
Proof.
  intros H. unfold futureCase.
  assert (H1 : ltb (calcFutureIncome ra config) 0 = false)
    by (apply ltb_false; lra).
  assert (H2 : eqb (calcFutureIncome ra config) 0 = false)
    by (apply eqb_false; lra).
  by rewrite H1, H2.
Qed.

Lemma futureCase_carry_nonneg (config : Config) (v ra carry : Q) :
  0 <= carry -> 0 <= snd (futureCase config v ra carry).
Proof.
  intros Hc. unfold futureCase.
  destruct (ltb _ 0); [| destruct (eqb _ 0)]; simpl.
  - destruct (ltb _ _); [| exact Hc].
    pose proof (Qabs_nonneg (calcFutureIncome ra config)).
    unfold Math_abs. lra.
  - exact Hc.
  - pose proof (Math_min_ub_l carry (calcFutureIncome ra config)). lra.
Qed.

(** A tax of 0 before the clamp is a tax of 0 after it. *)
Lemma clamp_zero (v : Q) : Math_min 0 (Math_max 0 v) = 0.
Proof.
  pose proof (Math_max_lb_l 0 v).
  destruct (Math_min_cases 0 (Math_max 0 v)) as [[_ ->]|[H' _]]; [done | lra].
Qed.

(** C9.  Throughout every run the carried loss of the future regime is never
    negative: it starts at 0, a loss year never lowers it, and a gain year
    subtracts [min(carried loss, income)], which is at most the balance. *)
Theorem carryForwardLoss_nonneg (Math_pow : Q -> Q -> Q) (configs : Configs)
  (contributionsByYear : Contributions) (startCapital : Q)
  (returns : list YearReturn) :
  let carry :=
    carryAt Math_pow configs contributionsByYear startCapital returns in
  let income i r :=
    calcFutureIncome
      (returnAmountAt Math_pow configs contributionsByYear startCapital
         returns future i r) (configs_future configs) in
  carry 0%nat = 0
  /\ (forall n, 0 <= carry n)
  /\ 0 <= st_futureCarryForwardLoss
            (finalState Math_pow startCapital returns configs
               contributionsByYear)
  /\ (forall i r,
        returns !! i = Some r ->
        (income i r < 0 -> carry i <= carry (S i))
        /\ (income i r == 0 -> carry (S i) = carry i)
        /\ (0 < income i r ->
            carry (S i) = carry i - Math_min (carry i) (income i r)
            /\ Math_min (carry i) (income i r) <= carry i)).
Proof.
  intros carry income.
  assert (Hinv : forall rest i st,
            0 <= st_futureCarryForwardLoss st ->
            0 <= st_futureCarryForwardLoss
                   (yearLoop Math_pow configs contributionsByYear i rest st)).
  { intros rest i st. apply (yearLoop_carry_invariant _ _ _ (fun c => 0 <= c)).
    intros r prev c Hc. apply futureCase_carry_nonneg, Hc. }
  split; [reflexivity |].
  split; [intros n; apply Hinv; simpl; lra |].
  split; [apply Hinv; simpl; lra |].
  intros i r Hr.
  destruct (run_year Math_pow configs contributionsByYear startCapital
              returns future i r Hr) as (_ & _ & _ & _ & Hc).
  fold carry in Hc. subst income. unfold returnAmountAt. simpl.
  unfold yearOutcome, regimeTax in Hc.
  repeat split.
  - intros H. rewrite Hc, (futureCase_loss _ _ _ _ H). simpl.
    destruct (ltb _ _); [| lra].
    pose proof (Qabs_nonneg (calcFutureIncome
      (yearReturnAmount Math_pow contributionsByYear r
         (prevValueAt Math_pow configs contributionsByYear startCapital
            returns future i)) (configs_future configs))).
    unfold Math_abs. lra.
  - intros H. by rewrite Hc, (futureCase_zero _ _ _ _ H).
  - by rewrite Hc, (futureCase_gain _ _ _ _ H).
  - apply Math_min_ub_l.
Qed.

Lemma carryForwardLoss_nonneg_witness :
  0 <= carryAt pow_approx getDefaultConfigs (ContribFlat 0) 100000
         lossThenGain 1
  /\ carryAt pow_approx getDefaultConfigs (ContribFlat 0) 100000
       lossThenGain 0
     <= carryAt pow_approx getDefaultConfigs (ContribFlat 0) 100000
          lossThenGain 1.
Proof.
  destruct (carryForwardLoss_nonneg pow_approx getDefaultConfigs
              (ContribFlat 0) 100000 lossThenGain) as (_ & Hnn & _ & Hstep).
  split; [apply Hnn |].
  destruct (Hstep 0%nat (mkYearReturn 2022 (-10)) eq_refl) as (Hloss & _).
  apply Hloss. vm_compute. reflexivity.
Defined.

(** C2, as amended.  In the future regime, in every simulated year whose
    [incomeBeforeLossSetoff] is negative the tax is 0, and the absolute value
    of that income is added to the carried loss if and only if it strictly
    exceeds the threshold the code computes: [lossThreshold], or 500 when
    [lossThreshold] is missing or 0, times 2 when
    [Number(partnerMultiplier) > 1] and times 1 otherwise.  A loss equal to
    the threshold is not banked.  For a [lossThreshold] other than 0 and a
    multiplier that is not plus infinity this is
    [lossThreshold * partnerMultiplier] with the effective multiplier of the
    calculators. *)
Theorem future_loss_year (Math_pow : Q -> Q -> Q) (configs : Configs)
  (contributionsByYear : Contributions) (startCapital : Q)
  (returns : list YearReturn) (i : nat) (r : YearReturn) :
  let result :=
    runSimulation Math_pow startCapital returns configs contributionsByYear in
  let carry :=
    carryAt Math_pow configs contributionsByYear startCapital returns in
  let fut := configs_future configs in
  let income :=
    calcFutureIncome
      (returnAmountAt Math_pow configs contributionsByYear startCapital
         returns future i r) fut in
  let threshold :=
    Number_or (cfg_lossThreshold fut) 500 * simPartnerMultiplier fut in
  returns !! i = Some r ->
  income < 0 ->
  annualTax result future !! i = Some 0
  /\ (threshold < Math_abs income -> carry (S i) = carry i + Math_abs income)
  /\ (Math_abs income <= threshold -> carry (S i) = carry i)
  /\ (forall q,
        cfg_lossThreshold fut = Some q -> ~ q == 0 ->
        Number (cfg_partnerMultiplier fut) <> PosInfinity ->
        threshold = q * getPartnerMultiplier fut).
Proof.
  intros result carry fut income threshold Hr Hneg.
  destruct (run_year Math_pow configs contributionsByYear startCapital
              returns future i r Hr) as (_ & _ & Ha & _ & Hc).
  subst result carry fut income threshold.
  unfold returnAmountAt in *.
  unfold yearTax, yearOutcome, regimeTax in Ha, Hc.
  rewrite (futureCase_loss _ _ _ _ Hneg) in Ha, Hc. simpl in Ha, Hc.
  rewrite clamp_zero in Ha. unfold simLossThreshold in Hc.
  split; [exact Ha |]. split; [| split].
  - intros Hgt. apply ltb_true in Hgt. by rewrite Hgt in Hc.
  - intros Hle. apply ltb_false in Hle. by rewrite Hle in Hc.
  - intros q Hq Hq0 Hinf. rewrite Hq. simpl.
    unfold or_default. apply eqb_false in Hq0. rewrite Hq0. f_equal.
    unfold simPartnerMultiplier, getPartnerMultiplier.
    destruct (Number (cfg_partnerMultiplier (configs_future configs))); done.
Qed.

Lemma future_loss_year_witness :
  let carry := carryAt pow_approx getDefaultConfigs (ContribFlat 0) 100000
                 lossThenGain in
  annualTax
    (runSimulation pow_approx 100000 lossThenGain getDefaultConfigs
       (ContribFlat 0)) future !! 0%nat = Some 0
  /\ carry 1%nat == 10000.
Proof.
  assert (Hneg : calcFutureIncome
                   (returnAmountAt pow_approx getDefaultConfigs
                      (ContribFlat 0) 100000 lossThenGain future 0
                      (mkYearReturn 2022 (-10)))
                   (configs_future getDefaultConfigs) < 0)
    by (vm_compute; reflexivity).
  destruct (future_loss_year pow_approx getDefaultConfigs (ContribFlat 0)
              100000 lossThenGain 0 (mkYearReturn 2022 (-10)) eq_refl Hneg)
    as (Htax & Hbank & _).
  intros carry. subst carry.
  split; [exact Htax |].
  rewrite Hbank; vm_compute; reflexivity.
Defined.

(** C2 as stated fails: with [lossThreshold] 0 and no partner, a loss of 100
    strictly exceeds [lossThreshold * partnerMultiplier = 0], yet it is not
    added to the carried loss, because the code takes 500 for a threshold of
    0. *)
Lemma zero_lossThreshold_loss_not_banked :
  let configs := withFuture (futureConfig 36 0) in
  let carry := carryAt pow_approx configs (ContribFlat 0) 100000
                 oneSmallLoss in
  let income :=
    calcFutureIncome
      (returnAmountAt pow_approx configs (ContribFlat 0) 100000 oneSmallLoss
         future 0 (mkYearReturn 2024 (-0.1))) (configs_future configs) in
  oneSmallLoss !! 0%nat = Some (mkYearReturn 2024 (-0.1))
  /\ income == -100
  /\ cfg_lossThreshold (configs_future configs) = Some 0
  /\ getPartnerMultiplier (configs_future configs) = 1
  /\ 0 * 1 < Math_abs income
  /\ carry 1%nat = carry 0%nat
  /\ ~ carry 1%nat == carry 0%nat + Math_abs income.
Proof.
  repeat split; try (vm_compute; reflexivity).
  vm_compute. discriminate.
Qed.

Lemma calcFutureSystem_remainder (v income taxRate : Q) (config : Config) :
  default 36 (cfg_taxRate config) = taxRate ->
  0 <= income ->
  calcFutureSystem v income config = Math_max 0 (income * (taxRate / 100))
  /\ (0 <= taxRate ->
      calcFutureSystem v income config = income * (taxRate / 100)).
Proof.
  intros <- Hinc. unfold calcFutureSystem.
  destruct (Math_max_cases 0 income) as [[_ ->]|[H _]]; [| lra].
  split; [reflexivity |]. intros Hrate.
  assert (0 <= income * (default 36 (cfg_taxRate config) / 100)).
  { apply Qmult_le_0_compat; [exact Hinc |].
    apply Qle_shift_div_l; lra. }
  destruct (Math_max_cases 0
              (income * (default 36 (cfg_taxRate config) / 100)))
    as [[_ ->]|[H' _]]; [reflexivity | lra].
Qed.

(** C3, as amended.  In the future regime, in every simulated year whose
    [incomeBeforeLossSetoff] is positive the carried loss is reduced by
    [lossUsed = min(carried loss, income)] and the tax before the clamp is
    [calcFutureSystem] of the remainder, which is
    [max(0, (income - lossUsed) * taxRate / 100)]: the stated product whenever
    [taxRate] is not negative, and 0 for a negative [taxRate].  In every year
    whose income is 0 the tax is 0 and the carried loss is unchanged. *)
Theorem future_gain_year (Math_pow : Q -> Q -> Q) (configs : Configs)
  (contributionsByYear : Contributions) (startCapital : Q)
  (returns : list YearReturn) (i : nat) (r : YearReturn) :
  let result :=
    runSimulation Math_pow startCapital returns configs contributionsByYear in
  let carry :=
    carryAt Math_pow configs contributionsByYear startCapital returns in
  let fut := configs_future configs in
  let taxRate := default 36 (cfg_taxRate fut) in
  let income :=
    calcFutureIncome
      (returnAmountAt Math_pow configs contributionsByYear startCapital
         returns future i r) fut in
  let lossUsed := Math_min (carry i) income in
  let taxBeforeClamp :=
    taxBeforeClampAt Math_pow configs contributionsByYear startCapital
      returns future i r in
  returns !! i = Some r ->
  (0 < income ->
   carry (S i) = carry i - lossUsed
   /\ taxBeforeClamp
      = calcFutureSystem
          (valueAfterReturnAt Math_pow configs contributionsByYear
             startCapital returns future i r) (income - lossUsed) fut
   /\ taxBeforeClamp = Math_max 0 ((income - lossUsed) * (taxRate / 100))
   /\ (0 <= taxRate ->
       taxBeforeClamp = (income - lossUsed) * (taxRate / 100))
   /\ (taxRate < 0 -> taxBeforeClamp == 0))
  /\ (income == 0 ->
      taxBeforeClamp = 0
      /\ annualTax result future !! i = Some 0
      /\ carry (S i) = carry i).
Proof.
  intros result carry fut taxRate income lossUsed taxBeforeClamp Hr.
  destruct (run_year Math_pow configs contributionsByYear startCapital
              returns future i r Hr) as (_ & _ & Ha & _ & Hc).
  subst result carry fut taxRate income lossUsed taxBeforeClamp.
  unfold returnAmountAt, taxBeforeClampAt, valueAfterReturnAt in *.
  unfold yearTax, yearOutcome, regimeTax in *.
  split.
  - intros Hpos. rewrite (futureCase_gain _ _ _ _ Hpos) in *. simpl.
    match goal with
    | |- context [Math_min ?c ?inc] =>
        pose proof (Math_min_ub_r c inc) as Hused
    end.
    match goal with
    | |- context [calcFutureSystem ?v ?rem ?cfg] =>
        destruct (calcFutureSystem_remainder v rem _ cfg eq_refl) as [E1 E2];
          [lra |]
    end.
    split; [exact Hc |]. split; [reflexivity |]. split; [exact E1 |].
    split; [exact E2 |].
    intros Hrate. rewrite E1.
    match goal with
    | |- Math_max 0 (?rem * (?t / 100)) == 0 =>
        assert (Ht : t / 100 < 0) by (apply Qlt_shift_div_r; lra);
        assert (Hp : rem * (t / 100) <= 0) by nra;
        destruct (Math_max_cases 0 (rem * (t / 100))) as [[Hq ->]|[_ ->]];
          lra
    end.
  - intros Hzero. rewrite (futureCase_zero _ _ _ _ Hzero) in *. simpl in *.
    rewrite clamp_zero in Ha. by repeat split.
Qed.

Lemma future_gain_year_witness :
  let carry := carryAt pow_approx getDefaultConfigs (ContribFlat 0) 100000
                 lossThenGain in
  carry 1%nat == 10000
  /\ carry 2%nat == 0
  /\ taxBeforeClampAt pow_approx getDefaultConfigs (ContribFlat 0) 100000
       lossThenGain future 1 (mkYearReturn 2023 20) == 2232.
Proof.
  assert (Hpos : 0 < calcFutureIncome
                       (returnAmountAt pow_approx getDefaultConfigs
                          (ContribFlat 0) 100000 lossThenGain future 1
                          (mkYearReturn 2023 20))
                       (configs_future getDefaultConfigs))
    by (vm_compute; reflexivity).
  destruct (future_gain_year pow_approx getDefaultConfigs (ContribFlat 0)
              100000 lossThenGain 1 (mkYearReturn 2023 20) eq_refl)
    as [Hgain _].
  destruct (Hgain Hpos) as (Hcarry & _ & _ & Htax & _).
  intros carry. subst carry.
  split; [vm_compute; reflexivity |].
  split; [rewrite Hcarry; vm_compute; reflexivity |].
  rewrite Htax; vm_compute; [reflexivity | discriminate].
Defined.

(** C3 as stated fails: with a tax rate of -10 the tax before the clamp is 0,
    not [(income - lossUsed) * taxRate / 100 = -1820]. *)
Lemma negative_taxRate_future_tax_zero :
  let configs := withFuture (futureConfig (-10) 500) in
  let carry := carryAt pow_approx configs (ContribFlat 0) 100000
                 oneGoodYear in
  let income :=
    calcFutureIncome
      (returnAmountAt pow_approx configs (ContribFlat 0) 100000 oneGoodYear
         future 0 (mkYearReturn 2024 20)) (configs_future configs) in
  let lossUsed := Math_min (carry 0%nat) income in
  let taxBeforeClamp :=
    taxBeforeClampAt pow_approx configs (ContribFlat 0) 100000 oneGoodYear
      future 0 (mkYearReturn 2024 20) in
  oneGoodYear !! 0%nat = Some (mkYearReturn 2024 20)
  /\ income == 18200
  /\ lossUsed == 0
  /\ (income - lossUsed) * (-10 / 100) == -1820
  /\ taxBeforeClamp == 0
  /\ ~ taxBeforeClamp == (income - lossUsed) * (-10 / 100).
Proof.
  repeat split; try (vm_compute; reflexivity).
  vm_compute. discriminate.
Qed.

(** ** The old and current regimes: wealth at the start of the year *)

(** C6, as amended.  In every simulated year the old and the current regime
    compute their tax from [prevValue], the entry of the wealth series at the
    index of the year (the wealth before that year's return is applied): the
    recorded tax is the calculator's result at [prevValue], clamped, and the
    result does not depend on the return of the year.  The old regime's tax
    before the clamp is
    [max(0, max(0, prevValue - exemption * partnerMultiplier)
            * (deemedReturn / 100) * (taxRate / 100))]:
    the stated product when that product is not negative (so whenever
    [deemedReturn] and [taxRate] are not negative), and 0 otherwise. *)
Theorem old_current_tax_on_prevValue (Math_pow : Q -> Q -> Q)
  (configs : Configs) (contributionsByYear : Contributions)
  (startCapital : Q) (returns : list YearReturn) (i : nat) (r : YearReturn) :
  let result :=
    runSimulation Math_pow startCapital returns configs contributionsByYear in
  let prevValue :=
    prevValueAt Math_pow configs contributionsByYear startCapital returns in
  let valueAfterReturn sys :=
    valueAfterReturnAt Math_pow configs contributionsByYear startCapital
      returns sys i r in
  let taxBeforeClamp sys :=
    taxBeforeClampAt Math_pow configs contributionsByYear startCapital
      returns sys i r in
  let deemedReturn := default 4 (cfg_deemedReturn (configs_old configs)) in
  let taxRate := default 30 (cfg_taxRate (configs_old configs)) in
  let exemption := default 21139 (cfg_exemption (configs_old configs)) in
  let product :=
    Math_max 0
      (prevValue old i - exemption * getPartnerMultiplier (configs_old configs))
    * (deemedReturn / 100) * (taxRate / 100) in
  returns !! i = Some r ->
  (forall sys, portfolioValues result sys !! i = Some (prevValue sys i))
  /\ (forall anyReturn,
        taxBeforeClamp old
        = calcOldSystem (prevValue old i) anyReturn (configs_old configs))
  /\ (forall anyReturn,
        taxBeforeClamp current
        = calcCurrentSystem (prevValue current i) anyReturn
            (configs_current configs))
  /\ (forall sys,
        annualTax result sys !! i
        = Some (Math_min (taxBeforeClamp sys)
                  (Math_max 0 (valueAfterReturn sys))))
  /\ taxBeforeClamp old = Math_max 0 product
  /\ (0 <= product -> taxBeforeClamp old = product)
  /\ (product < 0 -> taxBeforeClamp old = 0)
  /\ (0 <= deemedReturn -> 0 <= taxRate -> taxBeforeClamp old = product).
Proof.
  intros result prevValue valueAfterReturn taxBeforeClamp deemedReturn taxRate
    exemption product Hr.
  assert (Hmax : taxBeforeClamp old = Math_max 0 product) by reflexivity.
  assert (Hnn : 0 <= product -> taxBeforeClamp old = product).
  { intros H. rewrite Hmax.
    destruct (Math_max_cases 0 product) as [[_ ->]|[H' _]]; [done | lra]. }
  split; [| split; [| split; [| split; [| split; [| split; [| split]]]]]].
  - intros sys.
    by destruct (run_year Math_pow configs contributionsByYear startCapital
                   returns sys i r Hr) as (H & _).
  - reflexivity.
  - reflexivity.
  - intros sys.
    by destruct (run_year Math_pow configs contributionsByYear startCapital
                   returns sys i r Hr) as (_ & _ & H & _).
  - exact Hmax.
  - exact Hnn.
  - intros H. rewrite Hmax.
    destruct (Math_max_cases 0 product) as [[H' _]|[_ ->]]; [lra | done].
  - intros Hd Ht. apply Hnn. subst product.
    apply Qmult_le_0_compat;
      [apply Qmult_le_0_compat;
         [apply Math_max_lb_l | apply Qle_shift_div_l; lra]
      | apply Qle_shift_div_l; lra].
Qed.

Lemma old_current_tax_on_prevValue_witness :
  portfolioValues
    (runSimulation pow_approx 100000 oneGoodYear getDefaultConfigs
       (ContribFlat 0)) old !! 0%nat = Some 100000
  /\ taxBeforeClampAt pow_approx getDefaultConfigs (ContribFlat 0) 100000
       oneGoodYear old 0 (mkYearReturn 2024 20) == 946.332.
Proof.
  destruct (old_current_tax_on_prevValue pow_approx getDefaultConfigs
              (ContribFlat 0) 100000 oneGoodYear 0 (mkYearReturn 2024 20)
              eq_refl) as (Hprev & _ & _ & _ & _ & _ & _ & Htax).
  split; [exact (Hprev old) |].
  rewrite Htax; vm_compute; [reflexivity | discriminate | discriminate].
Defined.

(** C6 as stated fails: with a tax rate of -30 the old regime's tax before
    the clamp is 0, not the product
    [max(0, 100000 - 21139) * (4 / 100) * (-30 / 100) = -946.332]. *)
Lemma negative_taxRate_old_tax_zero :
  let configs := withOld (oldConfig 4 (-30)) in
  let prevValue :=
    prevValueAt pow_approx configs (ContribFlat 0) 100000 oneGoodYear old 0 in
  let taxBeforeClamp :=
    taxBeforeClampAt pow_approx configs (ContribFlat 0) 100000 oneGoodYear
      old 0 (mkYearReturn 2024 20) in
  let product :=
    Math_max 0 (prevValue - 21139 * getPartnerMultiplier (configs_old configs))
    * (4 / 100) * (-30 / 100) in
  oneGoodYear !! 0%nat = Some (mkYearReturn 2024 20)
  /\ prevValue = 100000
  /\ product == -946.332
  /\ taxBeforeClamp = 0
  /\ ~ taxBeforeClamp == product.
Proof.
  repeat split; try (vm_compute; reflexivity).
  vm_compute. discriminate.
Qed.

(** ** The income of the future regime *)

(** C4.  [calcFutureIncome] returns a return that is zero or negative
    unchanged, and [max(0, actualReturn - freeReturn * partnerMultiplier)] for
    a positive one, where the multiplier is 2 when [Number(partnerMultiplier)]
    is finite and above 1 and 1 otherwise: with a partner a return of 20000
    gives 20000 - 2 * 1800 = 16400 and a return of 3000 gives 0, without one
    they give 18200 and 1200.  With a start capital of 100000, one year at
    +20 percent, a free return of 1800, a tax rate of 36 and no partner, the
    return amount is 20000, the income before loss set-off 18200 and the tax
    6552; with a partner the income is 16400 and the tax 5904. *)
Theorem calcFutureIncome_cases :
  (forall actualReturn config,
     actualReturn <= 0 -> calcFutureIncome actualReturn config = actualReturn)
  /\ (forall actualReturn config,
        0 < actualReturn ->
        calcFutureIncome actualReturn config
        = Math_max 0
            (actualReturn
             - default 1800 (cfg_freeReturn config)
               * getPartnerMultiplier config))
  /\ (forall actualReturn config,
        0 < actualReturn ->
        finiteAboveOne (cfg_partnerMultiplier config) ->
        calcFutureIncome actualReturn config
        = Math_max 0 (actualReturn - default 1800 (cfg_freeReturn config) * 2))
  /\ (forall actualReturn config,
        0 < actualReturn ->
        ~ finiteAboveOne (cfg_partnerMultiplier config) ->
        calcFutureIncome actualReturn config
        = Math_max 0 (actualReturn - default 1800 (cfg_freeReturn config) * 1))
  /\ (let single := futureConfig 36 500 in
      let partners := set_partnerMultiplier (JNumber (Fin 2)) single in
      calcFutureIncome 20000 single == 18200
      /\ calcFutureIncome 20000 partners == 16400
      /\ calcFutureIncome 3000 single == 1200
      /\ calcFutureIncome 3000 partners == 0
      /\ calcFutureIncome (-3000) partners == -3000)
  /\ (forall Math_pow year noTaxConfig oldConfig currentConfig lossThreshold,
        let configs :=
          mkConfigs noTaxConfig oldConfig currentConfig
            (futureConfig 36 lossThreshold) in
        let r := mkYearReturn year 20 in
        let returnAmount :=
          returnAmountAt Math_pow configs (ContribFlat 0) 100000 [r]
            future 0 r in
        returnAmount == 20000
        /\ calcFutureIncome returnAmount (configs_future configs) == 18200
        /\ 18200 * 0.36 == 6552
        /\ exists tax,
             annualTax
               (runSimulation Math_pow 100000 [r] configs (ContribFlat 0))
               future !! 0%nat = Some tax
             /\ tax == 6552)
  /\ (forall Math_pow year noTaxConfig oldConfig currentConfig lossThreshold,
        let configs :=
          mkConfigs noTaxConfig oldConfig currentConfig
            (set_partnerMultiplier (JNumber (Fin 2))
               (futureConfig 36 lossThreshold)) in
        let r := mkYearReturn year 20 in
        let returnAmount :=
          returnAmountAt Math_pow configs (ContribFlat 0) 100000 [r]
            future 0 r in
        returnAmount == 20000
        /\ calcFutureIncome returnAmount (configs_future configs) == 16400
        /\ 16400 * 0.36 == 5904
        /\ exists tax,
             annualTax
               (runSimulation Math_pow 100000 [r] configs (ContribFlat 0))
               future !! 0%nat = Some tax
             /\ tax == 5904).
Proof.
  assert (Hgain : forall actualReturn config,
    0 < actualReturn ->
    calcFutureIncome actualReturn config
    = Math_max 0
        (actualReturn
         - default 1800 (cfg_freeReturn config) * getPartnerMultiplier config)).
  { intros actualReturn config H. unfold calcFutureIncome.
    apply leb_false in H. by rewrite H. }
  split; [| split; [| split; [| split; [| split; [| split]]]]].
  - intros actualReturn config H. unfold calcFutureIncome.
    apply leb_true in H. by rewrite H.
  - exact Hgain.
  - intros actualReturn config H Hpartner. rewrite (Hgain _ _ H).
    destruct (getPartnerMultiplier_cases config) as [[_ ->]|[Hno _]];
      [reflexivity | contradiction].
  - intros actualReturn config H Hsingle. rewrite (Hgain _ _ H).
    destruct (getPartnerMultiplier_cases config) as [[Hyes _]|[_ ->]];
      [contradiction | reflexivity].
  - repeat split; vm_compute; reflexivity.
  - intros Math_pow year c1 c2 c3 lossThreshold configs r returnAmount.
    split; [vm_compute; reflexivity |].
    split; [vm_compute; reflexivity |].
    split; [vm_compute; reflexivity |].
    eexists. split; vm_compute; reflexivity.
  - intros Math_pow year c1 c2 c3 lossThreshold configs r returnAmount.
    split; [vm_compute; reflexivity |].
    split; [vm_compute; reflexivity |].
    split; [vm_compute; reflexivity |].
    eexists. split; vm_compute; reflexivity.
Qed.

Lemma calcFutureIncome_cases_witness :
  calcFutureIncome (-10000)
    (set_partnerMultiplier (JNumber (Fin 2))
       (configs_future getDefaultConfigs)) = -10000
  /\ calcFutureIncome 20000
       (set_partnerMultiplier (JNumber (Fin 2))
          (configs_future getDefaultConfigs))
     = Math_max 0 (20000 - 1800 * 2)
  /\ calcFutureIncome 20000 (configs_future getDefaultConfigs)
     = Math_max 0 (20000 - 1800 * 1).
Proof.
  destruct calcFutureIncome_cases as (Hloss & _ & Hpartner & Hsingle & _).
  split; [| split].
  - apply Hloss. vm_compute. discriminate.
  - apply (Hpartner 20000).
    + vm_compute. reflexivity.
    + exists 2. split; [reflexivity | vm_compute; reflexivity].
  - apply (Hsingle 20000).
    + vm_compute. reflexivity.
    + intros (q & Hq & Hlt). injection Hq as <-. vm_compute in Hlt.
      discriminate.
Defined.

(** ** The empty return series *)

(** C8, as amended.  On an empty return series [runSimulation] returns a
    result (the engine has no failing operation): for every regime the
    annual-tax and cumulative-tax series are empty, and the wealth series
    holds one entry, the start capital. *)
Theorem runSimulation_empty (Math_pow : Q -> Q -> Q) (startCapital : Q)
  (configs : Configs) (contributionsByYear : Contributions) (sys : System) :
  let result :=
    runSimulation Math_pow startCapital [] configs contributionsByYear in
  portfolioValues result sys = [startCapital]
  /\ annualTax result sys = []
  /\ cumulativeTax result sys = []
  /\ labels result = [LabelStart]
  /\ taxLabels result = []
  /\ res_systems result = systems.
Proof. by repeat split. Qed.

(** C8 as stated fails: on an empty return series the wealth series is not
    empty. *)
Lemma runSimulation_empty_wealth_not_empty :
  portfolioValues
    (runSimulation pow_approx 100000 [] getDefaultConfigs (ContribFlat 0))
    noTax = [100000]
  /\ portfolioValues
       (runSimulation pow_approx 100000 [] getDefaultConfigs (ContribFlat 0))
       noTax <> [].
Proof. split; [reflexivity | discriminate]. Qed.

(** ** The contribution schedule *)


Lemma isHalfway_true (x : Q) :
  isHalfway x = true -> inject_Z (Math_round x) == x + (1 # 2).
Proof.
  unfold isHalfway, Math_round. intros H. apply Qeq_bool_iff in H.
  symmetry. exact H.
Qed.

(** [round2] gives a whole number of cents within half a cent of the amount,
    whatever the direction at a halfway product. *)
Lemma round2_nearest (up : bool) (a : Q) :
  exists cents : Z,
    round2 up a = inject_Z cents / 100
    /\ a - (1 # 200) <= round2 up a /\ round2 up a <= a + (1 # 200).
Proof.
  unfold round2. cbv zeta.
  pose proof (Qfloor_le (a * 100 + (1 # 2))) as Hle.
  pose proof (Qlt_floor (a * 100 + (1 # 2))) as Hlt.
  rewrite inject_Z_plus in Hlt. change (inject_Z 1) with 1 in Hlt.
  destruct (isHalfway (a * 100) && negb up) eqn:E.
  - apply andb_true_iff in E as [Hhalf _].
    apply isHalfway_true in Hhalf.
    eexists. split; [reflexivity |].
    unfold Z.sub. rewrite inject_Z_plus.
    change (inject_Z (- (1))%Z) with (-1).
    set (z := inject_Z (Math_round (a * 100))) in *. clearbody z.
    split.
    + apply Qle_shift_div_l; lra.
    + apply Qle_shift_div_r; lra.
  - eexists. split; [reflexivity |]. unfold Math_round.
    set (z := inject_Z (Qfloor (a * 100 + (1 # 2)))) in *. clearbody z.
    split.
    + apply Qle_shift_div_l; lra.
    + apply Qle_shift_div_r; lra.
Qed.

(** The amount the loop holds when it enters the year [startYear + k] *)
Lemma contributionsLoop_lookup (tieUp : Z -> bool) (baseAmount : Q)
  (startYear : Z) (cpiEnabled : bool) (n k : nat) (map : gmap Z Q) (y : Z) :
  let amount j := scheduleAmount getCpiForYear baseAmount startYear
                    cpiEnabled j in
  contributionsLoop tieUp startYear cpiEnabled n (startYear + Z.of_nat k)%Z
    (match k with O => baseAmount | S k' => amount k' end) map !! y
  = if decide (startYear + Z.of_nat k <= y
               < startYear + Z.of_nat k + Z.of_nat n)%Z
    then Some (round2 (tieUp y) (amount (Z.to_nat (y - startYear))))
    else map !! y.
Proof.
  intros amount. revert k map.
  induction n as [|n IH]; intros k map.
  - simpl. case_decide; [lia | reflexivity].
  - cbn [contributionsLoop].
    assert (Hamount :
      (if cpiEnabled && (startYear <? startYear + Z.of_nat k)%Z
       then (match k with O => baseAmount | S k' => amount k' end)
            * (1 + getCpiForYear (startYear + Z.of_nat k)%Z / 100)
       else match k with O => baseAmount | S k' => amount k' end)
      = amount k).
    { destruct k as [|k'].
      - replace (startYear <? startYear + Z.of_nat 0)%Z with false
          by (symmetry; apply Z.ltb_ge; lia).
        by rewrite andb_false_r.
      - replace (startYear <? startYear + Z.of_nat (S k'))%Z with true
          by (symmetry; apply Z.ltb_lt; lia).
        rewrite andb_true_r. subst amount. simpl. by destruct cpiEnabled. }
    rewrite Hamount.
    replace (startYear + Z.of_nat k + 1)%Z
      with (startYear + Z.of_nat (S k))%Z by lia.
    rewrite (IH (S k)).
    destruct (decide (y = startYear + Z.of_nat k)%Z) as [->|Hne].
    + rewrite lookup_insert_eq.
      replace (Z.to_nat (startYear + Z.of_nat k - startYear)) with k by lia.
      repeat case_decide; try lia; reflexivity.
    + rewrite lookup_insert_ne by done.
      repeat case_decide; try lia; reflexivity.
Qed.

(** The entry of a year of the range *)
Lemma buildContributionsByYear_lookup (tieUp : Z -> bool) (baseAmount : Q)
  (startYear endYear : Z) (cpiEnabled : bool) (y : Z) :
  buildContributionsByYear tieUp baseAmount startYear endYear cpiEnabled !! y
  = if decide (startYear <= y <= endYear)%Z
    then Some (round2 (tieUp y)
                 (scheduleAmount getCpiForYear baseAmount startYear
                    cpiEnabled (Z.to_nat (y - startYear))))
    else None.
Proof.
  unfold buildContributionsByYear.
  pose proof (contributionsLoop_lookup tieUp baseAmount startYear cpiEnabled
                (Z.to_nat (endYear - startYear + 1)) 0 ∅ y) as H.
  simpl in H. rewrite Z.add_0_r in H. rewrite H, lookup_empty.
  repeat case_decide; try lia; reflexivity.
Qed.



(** The amount of 2005 for a base of 75 from 2004 is 76.275, half a cent:
    the schedule holds 76.27 when the product is rounded down, which is what
    the code stores (its double product is 7627.499999999999), and would hold
    76.28 were the product rounded up. *)
Example schedule_half_cent :
  scheduleAmount getCpiForYear 75 2004 true 1 == 76.275
  /\ buildContributionsByYear (fun _ => false) 75 2004 2005 true !! 2005%Z
     = Some 76.27
  /\ buildContributionsByYear (fun _ => true) 75 2004 2005 true !! 2005%Z
     = Some 76.28.
Proof. repeat split; vm_compute; reflexivity. Qed.

(** ** The current regime against the wording of the specification *)

Lemma Qdiv_nonneg (a t : Q) : 0 <= a -> 0 < t -> 0 <= a / t.
Proof. intros Ha Ht. apply Qle_shift_div_l; lra. Qed.

Lemma Qdiv_zero_inv (a t : Q) : 0 < t -> a / t == 0 -> a == 0.
Proof.
  intros Ht H. assert (E : a == a / t * t) by (field; lra).
  rewrite E, H. ring.
Qed.

(** The code computes the reference on the clamped weights, floored at 0. *)
Lemma calcCurrentSystem_floor_of_spec (baseWealth anyReturn : Q)
  (config : Config) :
  calcCurrentSystem baseWealth anyReturn config
  == Math_max 0 (calcCurrentSystem_spec baseWealth (clampAllocations config)).
Proof.
  unfold calcCurrentSystem, calcCurrentSystem_spec, normalizeAllocations.
  change (getPartnerMultiplier (clampAllocations config))
    with (getPartnerMultiplier config).
  cbn [clampAllocations cfg_taxRate cfg_exemption cfg_debtThreshold
       cfg_savingsRate cfg_investRate cfg_debtRate cfg_allocSavings
       cfg_allocInvest cfg_allocDebt].
  set (pm := getPartnerMultiplier config).
  set (wS := Math_max 0 (or_default (default 0 (cfg_allocSavings config)) 0)).
  set (wI := Math_max 0 (or_default (default 100 (cfg_allocInvest config)) 0)).
  set (wD := Math_max 0 (or_default (default 0 (cfg_allocDebt config)) 0)).
  change (default 0 (Some wS)) with wS.
  change (default 100 (Some wI)) with wI.
  change (default 0 (Some wD)) with wD.
  assert (HS : 0 <= wS) by apply Math_max_lb_l.
  assert (HI : 0 <= wI) by apply Math_max_lb_l.
  assert (HD : 0 <= wD) by apply Math_max_lb_l.
  set (total := wS + wI + wD).
  destruct (leb (Math_max 0 baseWealth) 0) eqn:Hw; cmp_hyps.
  - (* no wealth: the notional base of the reference is not positive *)
    assert (Hbw : baseWealth <= 0)
      by (pose proof (Math_max_lb_r 0 baseWealth); lra).
    destruct (leb wS 0 && leb wI 0 && leb wD 0) eqn:Hall;
      [reflexivity |].
    assert (Ht : 0 < total).
    { apply Qnot_le_lt. intros Hle.
      assert (leb wS 0 = true) by (apply leb_true; subst total; lra).
      assert (leb wI 0 = true) by (apply leb_true; subst total; lra).
      assert (leb wD 0 = true) by (apply leb_true; subst total; lra).
      by rewrite H, H0, H1 in Hall. }
    pose proof (Qdiv_nonneg wS total HS Ht) as HsS.
    pose proof (Qdiv_nonneg wI total HI Ht) as HsI.
    match goal with
    | |- context [leb ?ret 0 || leb ?base 0] =>
        assert (Hbase : leb base 0 = true)
    end.
    { apply leb_true.
      match goal with
      | |- _ + _ - Math_max 0 ?d <= 0 => pose proof (Math_max_lb_l 0 d)
      end.
      nra. }
    rewrite Hbase, orb_true_r. reflexivity.
  - (* positive wealth *)
    destruct (Math_max_cases 0 baseWealth) as [[Hbw ->]|[_ E]];
      [| rewrite E in Hw; lra].
    destruct (leb total 0) eqn:Htot; cmp_hyps.
    + (* every weight is zero *)
      cbn [savingsShare investShare debtShare].
      assert (leb wS 0 = true) by (apply leb_true; subst total; lra).
      assert (leb wI 0 = true) by (apply leb_true; subst total; lra).
      assert (leb wD 0 = true) by (apply leb_true; subst total; lra).
      rewrite H, H0, H1. reflexivity.
    + cbn [savingsShare investShare debtShare].
      destruct (eqb (wS / total) 0 && eqb (wI / total) 0
                && eqb (wD / total) 0) eqn:Hzero.
      { apply andb_prop in Hzero as [Hzero H3].
        apply andb_prop in Hzero as [H1 H2]. cmp_hyps.
        apply Qdiv_zero_inv in H1, H2, H3; try exact Htot.
        subst total. lra. }
      destruct (leb wS 0 && leb wI 0 && leb wD 0) eqn:Hall.
      { apply andb_prop in Hall as [Hall H3].
        apply andb_prop in Hall as [H1 H2]. cmp_hyps.
        subst total. lra. }
      match goal with
      | |- context [leb ?ret 0 || leb ?base 0] =>
          set (belastbaarRendement := ret);
          set (rendementsgrondslag := base)
      end.
      destruct (leb belastbaarRendement 0) eqn:Hret; [reflexivity |].
      destruct (leb rendementsgrondslag 0) eqn:Hbase; [reflexivity |].
      cbn [orb]. cmp_hyps.
      match goal with
      | |- context [Math_min 1 (?g / _)] => set (grondslag := g)
      end.
      destruct (leb grondslag 0) eqn:Hg; [| reflexivity]. cmp_hyps.
      assert (Hg0 : grondslag == 0)
        by (pose proof (Math_max_lb_l 0
              (rendementsgrondslag
               - default 59357 (cfg_exemption config) * pm));
            subst grondslag; lra).
      assert (Hshare : Math_min 1 (grondslag / rendementsgrondslag) == 0).
      { assert (Hq : grondslag / rendementsgrondslag == 0)
          by (rewrite Hg0; field; lra).
        destruct (Math_min_cases 1 (grondslag / rendementsgrondslag))
          as [[H1 _]|[_ ->]]; [lra | exact Hq]. }
      symmetry. apply Qle_antisym; [| apply Math_max_lb_l].
      match goal with
      | |- Math_max 0 ?p <= 0 =>
          assert (Hp : p == 0) by (rewrite Hshare; ring);
          destruct (Math_max_cases 0 p) as [[_ ->]|[_ ->]]; lra
      end.
Qed.

Lemma calcCurrentSystem_spec_nonneg (baseWealth : Q) (config : Config) :
  0 <= default 36 (cfg_taxRate config) ->
  0 <= calcCurrentSystem_spec baseWealth config.
Proof.
  intros Hrate. unfold calcCurrentSystem_spec.
  destruct (_ && _); [lra |].
  match goal with
  | |- context [leb ?ret 0 || leb ?base 0] =>
      set (taxableNotionalReturn := ret); set (notionalBase := base)
  end.
  destruct (leb taxableNotionalReturn 0) eqn:Hret; [simpl; lra |].
  destruct (leb notionalBase 0) eqn:Hbase; [simpl; lra |].
  cbn [orb]. cmp_hyps.
  apply Qmult_le_0_compat; [apply Qmult_le_0_compat; [lra |] |].
  - apply Math_min_glb; [lra |].
    apply Qdiv_nonneg; [apply Math_max_lb_l | exact Hbase].
  - apply Qdiv_nonneg; [exact Hrate | lra].
Qed.

Lemma clamp_weight_nonneg (w : Q) :
  0 <= w -> Math_max 0 (or_default w 0) == w.
Proof.
  intros H. unfold or_default.
  destruct (eqb w 0) eqn:E; cmp_hyps.
  - rewrite E. reflexivity.
  - destruct (Math_max_cases 0 w) as [[_ ->]|[H' _]]; lra.
Qed.

(** C5, as amended.  For every base wealth and config, [calcCurrentSystem]
    is the step-by-step reference of the specification floored at 0 and taken
    on the weights as [normalizeAllocations] reads them, a negative weight
    counting as 0 (weights that are not negative are left as they are).  When
    [taxRate] is not negative the floor changes nothing, and the code equals
    the reference on those weights. *)
Theorem calcCurrentSystem_refines_spec (baseWealth anyReturn : Q)
  (config : Config) :
  let reference :=
    calcCurrentSystem_spec baseWealth (clampAllocations config) in
  calcCurrentSystem baseWealth anyReturn config == Math_max 0 reference
  /\ (0 <= default 36 (cfg_taxRate config) ->
      calcCurrentSystem baseWealth anyReturn config == reference)
  /\ (0 <= default 0 (cfg_allocSavings config) ->
      default 0 (cfg_allocSavings (clampAllocations config))
      == default 0 (cfg_allocSavings config))
  /\ (0 <= default 100 (cfg_allocInvest config) ->
      default 100 (cfg_allocInvest (clampAllocations config))
      == default 100 (cfg_allocInvest config))
  /\ (0 <= default 0 (cfg_allocDebt config) ->
      default 0 (cfg_allocDebt (clampAllocations config))
      == default 0 (cfg_allocDebt config)).
Proof.
  intros reference.
  pose proof (calcCurrentSystem_floor_of_spec baseWealth anyReturn config)
    as Hfloor.
  split; [exact Hfloor |]. split; [| repeat split; apply clamp_weight_nonneg].
  intros Hrate. rewrite Hfloor.
  pose proof (calcCurrentSystem_spec_nonneg baseWealth
                (clampAllocations config) Hrate) as Hnn.
  subst reference.
  destruct (Math_max_cases 0
              (calcCurrentSystem_spec baseWealth (clampAllocations config)))
    as [[_ ->]|[H _]]; lra.
Qed.

Lemma calcCurrentSystem_refines_spec_witness :
  calcCurrentSystem 100000 20000 (configs_current getDefaultConfigs)
  == 877.8888
  /\ calcCurrentSystem_spec 100000 (configs_current getDefaultConfigs)
     == 877.8888.
Proof.
  destruct (calcCurrentSystem_refines_spec 100000 20000
              (configs_current getDefaultConfigs)) as (_ & Hspec & _).
  split; [rewrite Hspec |]; vm_compute; try reflexivity; discriminate.
Defined.

(** C5 as stated fails.  With a tax rate of -36 the reference gives a
    negative tax where the code returns 0; and with the weights -50 and 100
    for savings and investments the reference, which divides each weight by
    their sum, gives another tax than the code, which takes the negative
    weight as 0. *)
Lemma calcCurrentSystem_differs_from_spec :
  (calcCurrentSystem 100000 20000 (currentConfig (-36) 0) == 0
   /\ calcCurrentSystem_spec 100000 (currentConfig (-36) 0) == -877.8888
   /\ ~ calcCurrentSystem 100000 20000 (currentConfig (-36) 0)
        == calcCurrentSystem_spec 100000 (currentConfig (-36) 0))
  /\ (calcCurrentSystem 100000 20000 (currentConfig 36 (-50)) == 877.8888
      /\ calcCurrentSystem_spec 100000 (currentConfig 36 (-50))
         == 1568.494656
      /\ ~ calcCurrentSystem 100000 20000 (currentConfig 36 (-50))
           == calcCurrentSystem_spec 100000 (currentConfig 36 (-50))).
Proof.
  repeat split; try (vm_compute; reflexivity); vm_compute; discriminate.
Qed.

(** * Further properties of the code *)

(** ** Comparisons and extrema respect the equality of rationals *)

#[global] Instance Math_max_proper : Proper (Qeq ==> Qeq ==> Qeq) Math_max.
Proof.
  intros a a' Ha b b' Hb.
  destruct (Math_max_cases a b) as [[H ->]|[H ->]];
    destruct (Math_max_cases a' b') as [[H' ->]|[H' ->]]; lra.
Qed.

#[global] Instance Math_min_proper : Proper (Qeq ==> Qeq ==> Qeq) Math_min.
Proof.
  intros a a' Ha b b' Hb.
  destruct (Math_min_cases a b) as [[H ->]|[H ->]];
    destruct (Math_min_cases a' b') as [[H' ->]|[H' ->]]; lra.
Qed.

#[global] Instance leb_proper : Proper (Qeq ==> Qeq ==> eq) leb.
Proof. intros a a' Ha b b' Hb. unfold leb. by rewrite Ha, Hb. Qed.

(** ** The calculators *)

Lemma clamp_weight_nonpos (w : Q) : w <= 0 -> Math_max 0 (or_default w 0) = 0.
Proof.
  intros H. unfold or_default. destruct (eqb w 0) eqn:E; [reflexivity |].
  cmp_hyps. destruct (Math_max_cases 0 w) as [[H' _]|[_ ->]]; [lra | done].
Qed.

Lemma share_in_unit (x t : Q) : 0 <= x -> x <= t -> 0 < t -> 0 <= x / t <= 1.
Proof.
  intros Hx Hle Ht. split; [by apply Qdiv_nonneg |].
  apply Qle_shift_div_r; lra.
Qed.

(** X1.  The shares [normalizeAllocations] returns lie between 0 and 1; they
    sum to 1 as soon as one weight is positive and are all 0 when no weight
    is; a weight that is zero or negative gets no share. *)
Theorem normalizeAllocations_shares (allocSavings allocInvest allocDebt : Q) :
  let sh := normalizeAllocations allocSavings allocInvest allocDebt in
  (0 <= savingsShare sh <= 1 /\ 0 <= investShare sh <= 1
   /\ 0 <= debtShare sh <= 1)
  /\ (0 < allocSavings \/ 0 < allocInvest \/ 0 < allocDebt ->
      savingsShare sh + investShare sh + debtShare sh == 1)
  /\ (allocSavings <= 0 -> allocInvest <= 0 -> allocDebt <= 0 ->
      sh = mkShares 0 0 0)
  /\ (allocSavings <= 0 -> savingsShare sh == 0)
  /\ (allocInvest <= 0 -> investShare sh == 0)
  /\ (allocDebt <= 0 -> debtShare sh == 0).
Proof.
  intros sh. subst sh. unfold normalizeAllocations.
  set (s := Math_max 0 (or_default allocSavings 0)).
  set (i := Math_max 0 (or_default allocInvest 0)).
  set (d := Math_max 0 (or_default allocDebt 0)).
  assert (Hs : 0 <= s) by apply Math_max_lb_l.
  assert (Hi : 0 <= i) by apply Math_max_lb_l.
  assert (Hd : 0 <= d) by apply Math_max_lb_l.
  assert (Hs0 : allocSavings <= 0 -> s = 0) by apply clamp_weight_nonpos.
  assert (Hi0 : allocInvest <= 0 -> i = 0) by apply clamp_weight_nonpos.
  assert (Hd0 : allocDebt <= 0 -> d = 0) by apply clamp_weight_nonpos.
  assert (Hs1 : 0 < allocSavings -> s == allocSavings)
    by (intros; apply clamp_weight_nonneg; lra).
  assert (Hi1 : 0 < allocInvest -> i == allocInvest)
    by (intros; apply clamp_weight_nonneg; lra).
  assert (Hd1 : 0 < allocDebt -> d == allocDebt)
    by (intros; apply clamp_weight_nonneg; lra).
  clearbody s i d.
  destruct (leb (s + i + d) 0) eqn:Ht; cmp_hyps; simpl.
  - assert (s == 0 /\ i == 0 /\ d == 0) as (Es & Ei & Ed) by (repeat split; lra).
    repeat split; try lra; reflexivity.
  - split; [split; [| split]; apply share_in_unit; lra |].
    split; [intros _; field; lra |].
    split; [intros H1 H2 H3; rewrite (Hs0 H1), (Hi0 H2), (Hd0 H3) in Ht; lra |].
    split; [intros H; specialize (Hs0 H); subst s; field; lra |].
    split; [intros H; specialize (Hi0 H); subst i; field; lra |].
    intros H. specialize (Hd0 H). subst d. field. lra.
Qed.

(** X2.  [calcOldSystem] charges nothing on a wealth up to the exemption
    times the partner multiplier, and its tax never decreases when the wealth
    increases, whatever the config and the returns passed. *)
Theorem calcOldSystem_exemption_monotone (config : Config)
  (wealth wealth' anyReturn anyReturn' : Q) :
  let effectiveExemption :=
    default 21139 (cfg_exemption config) * getPartnerMultiplier config in
  (wealth <= effectiveExemption -> calcOldSystem wealth anyReturn config == 0)
  /\ (wealth <= wealth' ->
      calcOldSystem wealth anyReturn config
      <= calcOldSystem wealth' anyReturn' config).
Proof.
  intros effectiveExemption. unfold calcOldSystem. fold effectiveExemption.
  set (d := default 4 (cfg_deemedReturn config) / 100).
  set (t := default 30 (cfg_taxRate config) / 100).
  clearbody effectiveExemption d t.
  split.
  - intros H.
    destruct (Math_max_cases 0 (wealth - effectiveExemption))
      as [[H1 ->]|[H1 ->]].
    + assert (E : wealth - effectiveExemption == 0) by lra.
      assert (E' : (wealth - effectiveExemption) * d * t == 0)
        by (rewrite E; ring).
      rewrite E'. reflexivity.
    + assert (E' : 0 * d * t == 0) by ring.
      rewrite E'. reflexivity.
  - intros H.
    pose proof (Math_max_lb_l 0 (wealth - effectiveExemption)) as H0.
    assert (Hle : Math_max 0 (wealth - effectiveExemption)
                  <= Math_max 0 (wealth' - effectiveExemption)).
    { destruct (Math_max_cases 0 (wealth - effectiveExemption))
        as [[H1 ->]|[H1 ->]];
        destruct (Math_max_cases 0 (wealth' - effectiveExemption))
          as [[H2 ->]|[H2 ->]]; lra. }
    set (a := Math_max 0 (wealth - effectiveExemption)) in *.
    set (b := Math_max 0 (wealth' - effectiveExemption)) in *.
    clearbody a b.
    destruct (Math_max_cases 0 (a * d * t)) as [[H1 ->]|[H1 ->]];
      destruct (Math_max_cases 0 (b * d * t)) as [[H2 ->]|[H2 ->]];
      try lra.
    + assert (a * d * t == a * (d * t)) as -> by ring.
      assert (b * d * t == b * (d * t)) as -> by ring.
      assert (E1 : a * d * t == a * (d * t)) by ring.
      destruct (Qlt_le_dec (d * t) 0) as [Hneg|Hpos]; [nra | nra].
    + assert (E1 : a * d * t == a * (d * t)) by ring.
      assert (E2 : b * d * t == b * (d * t)) by ring.
      destruct (Qlt_le_dec (d * t) 0) as [Hneg|Hpos]; nra.
Qed.

Lemma normalizeAllocations_sum_le (a b c : Q) :
  let sh := normalizeAllocations a b c in
  0 <= savingsShare sh /\ 0 <= investShare sh /\ 0 <= debtShare sh
  /\ savingsShare sh + investShare sh + debtShare sh <= 1.
Proof.
  intros sh. subst sh. unfold normalizeAllocations.
  set (s := Math_max 0 (or_default a 0)).
  set (i := Math_max 0 (or_default b 0)).
  set (d := Math_max 0 (or_default c 0)).
  assert (Hs : 0 <= s) by apply Math_max_lb_l.
  assert (Hi : 0 <= i) by apply Math_max_lb_l.
  assert (Hd : 0 <= d) by apply Math_max_lb_l.
  clearbody s i d.
  destruct (leb (s + i + d) 0) eqn:Ht; cmp_hyps; simpl.
  - repeat split; lra.
  - assert (E : s / (s + i + d) + i / (s + i + d) + d / (s + i + d) == 1)
      by (field; lra).
    repeat split; try (apply Qdiv_nonneg; lra). lra.
Qed.

(** X3.  [calcCurrentSystem] returns 0 on every wealth up to the exemption
    times the partner multiplier, whatever the allocation and the rates. *)
Theorem calcCurrentSystem_exemption (config : Config) (wealth anyReturn : Q) :
  wealth
  <= default 59357 (cfg_exemption config) * getPartnerMultiplier config ->
  calcCurrentSystem wealth anyReturn config = 0.
Proof.
  intros Hex. unfold calcCurrentSystem.
  destruct (leb (Math_max 0 wealth) 0) eqn:Hw; [reflexivity |]. cmp_hyps.
  destruct (Math_max_cases 0 wealth) as [[Hpos E]|[_ E]];
    rewrite E in *; [| lra]. clear E.
  pose proof (normalizeAllocations_sum_le
                (default 0 (cfg_allocSavings config))
                (default 100 (cfg_allocInvest config))
                (default 0 (cfg_allocDebt config))) as Hsh.
  cbv zeta in Hsh.
  set (sh := normalizeAllocations _ _ _) in *.
  destruct Hsh as (HS & HI & HD & Hsum).
  destruct (_ && _); [reflexivity |].
  match goal with
  | |- context [leb ?ret 0] => destruct (leb ret 0); [reflexivity |]
  end.
  match goal with
  | |- context [if leb ?base 0 then 0 else _] =>
      destruct (leb base 0) eqn:Hbase; [reflexivity |]; cmp_hyps
  end.
  match goal with
  | |- context [if leb ?g 0 then 0 else _] =>
      assert (Hg : leb g 0 = true); [| by rewrite Hg]
  end.
  apply leb_true.
  match goal with
  | |- Math_max 0 (?sp + ?ip - Math_max 0 ?dd - ?ee) <= 0 =>
      pose proof (Math_max_lb_l 0 dd);
      assert (sp + ip <= wealth);
      [| destruct (Math_max_cases 0 (sp + ip - Math_max 0 dd - ee))
           as [[? ->]|[? ->]]; lra]
  end.
  nra.
Qed.

(** The three bracket amounts split the base when the limits are ordered: a
    higher bracket is filled only when the lower one is full. *)
Lemma bracketAmounts_partition (grondslag bracket1Limit bracket2Limit : Q) :
  0 <= grondslag -> 0 <= bracket1Limit -> bracket1Limit <= bracket2Limit ->
  exists a1 a2 a3,
    bracketAmounts grondslag bracket1Limit bracket2Limit = [a1; a2; a3]
    /\ 0 <= a1 <= bracket1Limit
    /\ 0 <= a2 <= bracket2Limit - bracket1Limit
    /\ 0 <= a3
    /\ a1 + a2 + a3 == grondslag
    /\ (0 < a2 -> a1 == bracket1Limit)
    /\ (0 < a3 -> a2 == bracket2Limit - bracket1Limit).
Proof.
  intros Hg H1 H2. unfold bracketAmounts.
  eexists _, _, _. split; [reflexivity |].
  destruct (Math_min_cases grondslag bracket1Limit) as [[? ->]|[? ->]];
    destruct (Math_max_cases 0 (grondslag - bracket1Limit))
      as [[? ->]|[? ->]];
    destruct (Math_max_cases 0 (grondslag - bracket2Limit))
      as [[? ->]|[? ->]];
    match goal with
    | |- context [Math_min ?a ?b] =>
        destruct (Math_min_cases a b) as [[? ->]|[? ->]]
    end;
    repeat split; intros; lra.
Qed.

Lemma addFictitiousReturn_sum (savingsRate investRate total amount : Q)
  (mix : Q * Q) :
  0 <= amount ->
  addFictitiousReturn savingsRate investRate total (amount, mix)
  == total
     + amount * (mix.1 * (savingsRate / 100) + mix.2 * (investRate / 100)).
Proof.
  intros H. unfold addFictitiousReturn. simpl.
  destruct (leb amount 0) eqn:E; cmp_hyps; [| reflexivity].
  assert (E0 : amount == 0) by lra. rewrite E0. ring.
Qed.

(** X4.  [calcOldMethodSystem] never returns a negative tax and returns 0 on
    every wealth up to the exemption times the partner multiplier. *)
Theorem calcOldMethodSystem_exemption (config : OldMethodConfig)
  (wealth anyReturn : Q) :
  0 <= calcOldMethodSystem wealth anyReturn config
  /\ (wealth
      <= default 50650 (cfg_exemption (om_config config))
         * getPartnerMultiplier (om_config config) ->
      calcOldMethodSystem wealth anyReturn config = 0).
Proof.
  unfold calcOldMethodSystem. split.
  - destruct (leb _ 0); [lra |]. destruct (leb _ 0); [lra |].
    apply Math_max_lb_l.
  - intros H.
    match goal with
    | |- context [leb ?g 0] => assert (Hg : leb g 0 = true)
    end.
    { apply leb_true.
      match goal with
      | |- Math_max 0 ?x <= 0 =>
          destruct (Math_max_cases 0 x) as [[? ->]|[? ->]]; lra
      end. }
    by rewrite Hg.
Qed.

(** X5.  With ordered bracket limits and a wealth above the exemption, the
    three bracket amounts of [calcOldMethodSystem] are not negative and sum
    to the base (wealth minus exemption), and the tax is 0 when the sum of
    amount times mixed rate over the brackets is not positive, and that sum
    times [taxRate / 100], floored at 0, otherwise: skipping the empty
    brackets loses nothing. *)
Theorem calcOldMethodSystem_brackets (config : OldMethodConfig)
  (wealth anyReturn : Q) :
  let cfg := om_config config in
  let taxRate := default 31 (cfg_taxRate cfg) in
  let savingsRate := default (-0.01) (cfg_savingsRate cfg) in
  let investRate := default 5.53 (cfg_investRate cfg) in
  let bracket1Limit := default 50651 (om_bracket1Limit config) in
  let bracket2Limit := default 962351 (om_bracket2Limit config) in
  let grondslag :=
    wealth - default 50650 (cfg_exemption cfg) * getPartnerMultiplier cfg in
  let rate (savingsShare investShare : Q) :=
    savingsShare * (savingsRate / 100) + investShare * (investRate / 100) in
  0 <= bracket1Limit -> bracket1Limit <= bracket2Limit -> 0 < grondslag ->
  exists a1 a2 a3,
    bracketAmounts grondslag bracket1Limit bracket2Limit = [a1; a2; a3]
    /\ a1 + a2 + a3 == grondslag
    /\ let fictitiousReturn :=
         a1 * rate 0.67 0.33 + a2 * rate 0.21 0.79 + a3 * rate 0 1 in
       (fictitiousReturn <= 0 ->
        calcOldMethodSystem wealth anyReturn config == 0)
       /\ (0 < fictitiousReturn ->
           calcOldMethodSystem wealth anyReturn config
           == Math_max 0 (fictitiousReturn * (taxRate / 100))).
Proof.
  intros cfg taxRate savingsRate investRate bracket1Limit bracket2Limit
    grondslag rate Hb1 Hb2 Hg.
  destruct (bracketAmounts_partition grondslag bracket1Limit bracket2Limit)
    as (a1 & a2 & a3 & Hamounts & Ha1 & Ha2 & Ha3 & Hsum & _); [lra | lra | lra |].
  exists a1, a2, a3. split; [exact Hamounts |]. split; [exact Hsum |].
  intros fictitiousReturn.
  unfold calcOldMethodSystem.
  fold cfg. fold taxRate savingsRate investRate bracket1Limit bracket2Limit.
  fold grondslag.
  destruct (Math_max_cases 0 grondslag) as [[_ ->]|[? _]]; [| lra].
  assert (Hpos : leb grondslag 0 = false) by (apply leb_false; lra).
  rewrite Hpos, Hamounts.
  assert (Htotal :
    foldl (addFictitiousReturn savingsRate investRate) 0
      (zip [a1; a2; a3] brackets) == fictitiousReturn).
  { simpl. rewrite !addFictitiousReturn_sum by lra.
    subst fictitiousReturn rate. simpl. ring. }
  set (total := foldl _ 0 _) in *. clearbody total.
  split; intros H.
  - assert (Hle : leb total 0 = true) by (apply leb_true; lra).
    by rewrite Hle.
  - assert (Hgt : leb total 0 = false) by (apply leb_false; lra).
    rewrite Hgt, Htotal. reflexivity.
Qed.

(** [calcCurrentSystem] reads the exemption and the debt threshold only
    through their products with the partner multiplier. *)
Lemma calcCurrentSystem_effective_thresholds (w r : Q) (c c' : Config) :
  cfg_taxRate c' = cfg_taxRate c ->
  cfg_savingsRate c' = cfg_savingsRate c ->
  cfg_investRate c' = cfg_investRate c ->
  cfg_debtRate c' = cfg_debtRate c ->
  cfg_allocSavings c' = cfg_allocSavings c ->
  cfg_allocInvest c' = cfg_allocInvest c ->
  cfg_allocDebt c' = cfg_allocDebt c ->
  default 59357 (cfg_exemption c') * getPartnerMultiplier c'
  == default 59357 (cfg_exemption c) * getPartnerMultiplier c ->
  default 3800 (cfg_debtThreshold c') * getPartnerMultiplier c'
  == default 3800 (cfg_debtThreshold c) * getPartnerMultiplier c ->
  calcCurrentSystem w r c' == calcCurrentSystem w r c.
Proof.
  intros H1 H2 H3 H4 H5 H6 H7. unfold calcCurrentSystem.
  rewrite H1, H2, H3, H4, H5, H6, H7. clear H1 H2 H3 H4 H5 H6 H7.
  generalize (default 59357 (cfg_exemption c') * getPartnerMultiplier c'),
    (default 59357 (cfg_exemption c) * getPartnerMultiplier c),
    (default 3800 (cfg_debtThreshold c') * getPartnerMultiplier c'),
    (default 3800 (cfg_debtThreshold c) * getPartnerMultiplier c).
  intros ee' ee edt' edt Hee Hedt.
  destruct (leb (Math_max 0 w) 0); [reflexivity |].
  destruct (_ && _); [reflexivity |].
  set (sp := Math_max 0 w * savingsShare _).
  set (ip := Math_max 0 w * investShare _).
  set (dp := Math_max 0 w * debtShare _).
  assert (Hdd : Math_max 0 (dp - edt') == Math_max 0 (dp - edt))
    by (rewrite Hedt; reflexivity).
  set (dd' := Math_max 0 (dp - edt')) in *.
  set (dd := Math_max 0 (dp - edt)) in *.
  clearbody dd dd' sp ip dp.
  set (sr := default 1.28 (cfg_savingsRate c) / 100).
  set (ir := default 6.00 (cfg_investRate c) / 100).
  set (dr := default 2.70 (cfg_debtRate c) / 100).
  set (tr := default 36 (cfg_taxRate c) / 100).
  clearbody sr ir dr tr.
  assert (Hbel : sp * sr + ip * ir - dd' * dr == sp * sr + ip * ir - dd * dr)
    by (rewrite Hdd; reflexivity).
  set (bel' := sp * sr + ip * ir - dd' * dr) in *.
  set (bel := sp * sr + ip * ir - dd * dr) in *.
  clearbody bel bel'.
  rewrite (leb_proper _ _ Hbel 0 0 (Qeq_refl 0)).
  destruct (leb bel 0); [reflexivity |].
  assert (Hrg : sp + ip - dd' == sp + ip - dd) by (rewrite Hdd; reflexivity).
  set (rg' := sp + ip - dd') in *.
  set (rg := sp + ip - dd) in *.
  clearbody rg rg'.
  rewrite (leb_proper _ _ Hrg 0 0 (Qeq_refl 0)).
  destruct (leb rg 0); [reflexivity |].
  assert (Hg : Math_max 0 (rg' - ee') == Math_max 0 (rg - ee))
    by (rewrite Hrg, Hee; reflexivity).
  set (g' := Math_max 0 (rg' - ee')) in *.
  set (g := Math_max 0 (rg - ee)) in *.
  clearbody g g'.
  rewrite (leb_proper _ _ Hg 0 0 (Qeq_refl 0)).
  destruct (leb g 0); [reflexivity |].
  rewrite Hbel, Hg, Hrg. reflexivity.
Qed.

(** X6.  With a fiscal partner (an effective multiplier of 2) each calculator
    gives what it gives for a single person whose thresholds are doubled: the
    exemption for [calcOldSystem], the exemption and the debt threshold for
    [calcCurrentSystem], the free return for [calcFutureIncome]. *)
Theorem partner_doubles_thresholds (config : Config) (w r : Q) :
  let exemptionOld := default 21139 (cfg_exemption config) in
  let exemptionCurrent := default 59357 (cfg_exemption config) in
  let debtThreshold := default 3800 (cfg_debtThreshold config) in
  let freeReturn := default 1800 (cfg_freeReturn config) in
  getPartnerMultiplier config = 2 ->
  calcOldSystem w r config
  == calcOldSystem w r
       (withThresholds (2 * exemptionOld) debtThreshold freeReturn config)
  /\ calcCurrentSystem w r config
     == calcCurrentSystem w r
          (withThresholds (2 * exemptionCurrent) (2 * debtThreshold)
             freeReturn config)
  /\ calcFutureIncome r config
     == calcFutureIncome r
          (withThresholds exemptionOld debtThreshold (2 * freeReturn) config).
Proof.
  intros exemptionOld exemptionCurrent debtThreshold freeReturn Hpm.
  split; [| split].
  - unfold calcOldSystem. rewrite Hpm. simpl.
    fold exemptionOld.
    assert (E : exemptionOld * 2 == 2 * exemptionOld * 1) by ring.
    rewrite E. reflexivity.
  - symmetry. apply calcCurrentSystem_effective_thresholds; try reflexivity.
    + rewrite Hpm.
      change (2 * exemptionCurrent * 1 == exemptionCurrent * 2). ring.
    + rewrite Hpm.
      change (2 * debtThreshold * 1 == debtThreshold * 2). ring.
  - unfold calcFutureIncome. rewrite Hpm. simpl.
    destruct (leb r 0); [reflexivity |].
    fold freeReturn.
    assert (E : freeReturn * 2 == 2 * freeReturn * 1) by ring.
    rewrite E. reflexivity.
Qed.

(** X7.  [calcFutureIncome] and [calcFutureSystem] never decrease when the
    return, respectively the taxable income, increases; [calcFutureSystem]
    ignores the portfolio value and charges nothing on an income that is zero
    or negative. *)
Theorem future_calculators_monotone (config : Config)
  (income income' anyValue anyValue' : Q) :
  income <= income' ->
  calcFutureIncome income config <= calcFutureIncome income' config
  /\ calcFutureSystem anyValue income config
     <= calcFutureSystem anyValue' income' config
  /\ (income <= 0 -> calcFutureSystem anyValue income config == 0).
Proof.
  intros Hle. split; [| split].
  - unfold calcFutureIncome.
    set (f := default 1800 (cfg_freeReturn config) * getPartnerMultiplier config).
    clearbody f.
    destruct (leb income 0) eqn:E1; destruct (leb income' 0) eqn:E2;
      cmp_hyps; try lra.
    + pose proof (Math_max_lb_l 0 (income' - f)). lra.
    + destruct (Math_max_cases 0 (income - f)) as [[? ->]|[? ->]];
        destruct (Math_max_cases 0 (income' - f)) as [[? ->]|[? ->]]; lra.
  - unfold calcFutureSystem.
    set (t := default 36 (cfg_taxRate config) / 100). clearbody t.
    assert (Hm : Math_max 0 income <= Math_max 0 income').
    { destruct (Math_max_cases 0 income) as [[? ->]|[? ->]];
        destruct (Math_max_cases 0 income') as [[? ->]|[? ->]]; lra. }
    pose proof (Math_max_lb_l 0 income) as H0.
    set (a := Math_max 0 income) in *. set (b := Math_max 0 income') in *.
    clearbody a b.
    destruct (Math_max_cases 0 (a * t)) as [[H1 ->]|[H1 ->]];
      destruct (Math_max_cases 0 (b * t)) as [[H2 ->]|[H2 ->]];
      try lra; destruct (Qlt_le_dec t 0); nra.
  - intros Hneg. unfold calcFutureSystem.
    destruct (Math_max_cases 0 income) as [[? ->]|[? ->]].
    + assert (E : income == 0) by lra.
      assert (E' : income * (default 36 (cfg_taxRate config) / 100) == 0)
        by (rewrite E; ring).
      rewrite E'. reflexivity.
    + assert (E' : 0 * (default 36 (cfg_taxRate config) / 100) == 0) by ring.
      rewrite E'. reflexivity.
Qed.

(** ** The series of a run *)

Section RunProperties.

Variable Math_pow : Q -> Q -> Q.
Variable configs : Configs.
Variable contributionsByYear : Contributions.
Variable startCapital : Q.
Variable returns : list YearReturn.

Local Abbreviation result :=
  (runSimulation Math_pow startCapital returns configs contributionsByYear).
Local Abbreviation carryAt' :=
  (carryAt Math_pow configs contributionsByYear startCapital returns).
Local Abbreviation yearTax' := (yearTax Math_pow configs contributionsByYear).
Local Abbreviation growth := (yearValueAfterReturn Math_pow contributionsByYear).

Lemma wealth_first (sys : System) :
  portfolioValues result sys !! 0%nat = Some startCapital.
Proof.
  destruct (stateAfter_prefix Math_pow configs contributionsByYear
              startCapital returns 0 sys) as (H & _).
  by apply (prefix_lookup_Some _ _ 0%nat startCapital) in H.
Qed.

Lemma wealth_step (sys : System) (i : nat) (r : YearReturn) (w : Q) :
  returns !! i = Some r ->
  portfolioValues result sys !! i = Some w ->
  portfolioValues result sys !! S i
  = Some (growth r w - yearTax' sys r w (carryAt' i))
  /\ annualTax result sys !! i = Some (yearTax' sys r w (carryAt' i))
  /\ cumulativeTax result sys !! i
     = Some (prevCumulativeTaxAt Math_pow configs contributionsByYear
               startCapital returns sys i
             + yearTax' sys r w (carryAt' i)).
Proof.
  intros Hr Hw.
  destruct (run_year Math_pow configs contributionsByYear startCapital
              returns sys i r Hr) as (H1 & H2 & H3 & H4 & _).
  rewrite Hw in H1. injection H1 as E.
  rewrite <- E in H2, H3, H4. by repeat split.
Qed.

Lemma wealth_before (sys : System) (i : nat) (w' : Q) :
  portfolioValues result sys !! S i = Some w' ->
  exists r w,
    returns !! i = Some r /\ portfolioValues result sys !! i = Some w
    /\ w' = growth r w - yearTax' sys r w (carryAt' i).
Proof.
  intros H. pose proof (lookup_lt_Some _ _ _ H) as Hlt.
  destruct (result_lengths Math_pow configs contributionsByYear startCapital
              returns sys) as (Hlen & _).
  rewrite Hlen in Hlt.
  destruct (lookup_lt_is_Some_2 returns i ltac:(lia)) as [r Hr].
  destruct (lookup_lt_is_Some_2 (portfolioValues result sys) i
              ltac:(rewrite Hlen; lia)) as [w Hw].
  exists r, w. split; [exact Hr |]. split; [exact Hw |].
  destruct (wealth_step sys i r w Hr Hw) as (H1 & _).
  rewrite H in H1. by injection H1.
Qed.

(** An induction principle over the years of one regime *)
Lemma wealth_ind (sys : System) (P : nat -> Q -> Prop) :
  P 0%nat startCapital ->
  (forall i r w,
     returns !! i = Some r -> portfolioValues result sys !! i = Some w ->
     P i w -> P (S i) (growth r w - yearTax' sys r w (carryAt' i))) ->
  forall i w, portfolioValues result sys !! i = Some w -> P i w.
Proof.
  intros H0 Hstep i. induction i as [|i IH]; intros w Hw.
  - rewrite wealth_first in Hw. by injection Hw as <-.
  - destruct (wealth_before sys i w Hw) as (r & w0 & Hr & Hw0 & ->).
    apply Hstep; [exact Hr | exact Hw0 | by apply IH].
Qed.


Lemma wealth_lookup (sys : System) (i : nat) :
  (i <= length returns)%nat ->
  exists w, portfolioValues result sys !! i = Some w.
Proof.
  intros Hi. apply lookup_lt_is_Some_2.
  destruct (result_lengths Math_pow configs contributionsByYear startCapital
              returns sys) as (Hlen & _).
  rewrite Hlen. lia.
Qed.

Lemma carryAt_nonneg (i : nat) : 0 <= carryAt' i.
Proof.
  unfold carryAt, stateAfter.
  apply (yearLoop_carry_invariant _ _ _ (fun c => 0 <= c)); [| simpl; lra].
  intros r prev c Hc. apply futureCase_carry_nonneg, Hc.
Qed.

Lemma yearTax_noTax (r : YearReturn) (w carry : Q) :
  yearTax' noTax r w carry = 0.
Proof. unfold yearTax, yearOutcome. simpl. apply clamp_zero. Qed.

(** X8.  For every regime the wealth series of a run has one entry more than
    the return series and starts with the start capital, both tax series have
    as many entries as the return series, and there is one label per wealth
    entry and one tax label per year. *)
Theorem result_series_shape (sys : System) :
  length (portfolioValues result sys) = S (length returns)
  /\ length (annualTax result sys) = length returns
  /\ length (cumulativeTax result sys) = length returns
  /\ length (labels result) = S (length returns)
  /\ taxLabels result = yr_year <$> returns
  /\ portfolioValues result sys !! 0%nat = Some startCapital.
Proof.
  destruct (result_lengths Math_pow configs contributionsByYear startCapital
              returns sys) as (H1 & H2 & H3).
  split; [exact H1 |]. split; [exact H2 |]. split; [exact H3 |].
  split; [simpl; by rewrite !length_map |].
  split; [reflexivity | apply wealth_first].
Qed.

(** X9.  In every year of a run the wealth after the year is the value after
    return minus the recorded tax; the tax never turns a value that is not
    negative into a negative wealth, and a value that is zero or negative is
    passed on untaxed. *)
Theorem wealth_after_tax (sys : System) (i : nat) (r : YearReturn) :
  returns !! i = Some r ->
  exists w w' tax,
    portfolioValues result sys !! i = Some w
    /\ portfolioValues result sys !! S i = Some w'
    /\ annualTax result sys !! i = Some tax
    /\ w' = growth r w - tax
    /\ (0 <= growth r w -> 0 <= w')
    /\ (growth r w <= 0 -> tax == 0 /\ w' == growth r w).
Proof.
  intros Hr. pose proof (lookup_lt_Some _ _ _ Hr) as Hi.
  destruct (wealth_lookup sys i ltac:(lia)) as [w Hw].
  destruct (wealth_step sys i r w Hr Hw) as (H1 & H2 & _).
  exists w, (growth r w - yearTax' sys r w (carryAt' i)),
    (yearTax' sys r w (carryAt' i)).
  destruct (yearTax_bounds Math_pow configs contributionsByYear sys r w
              (carryAt' i)) as [Hlo Hhi].
  split; [exact Hw |]. split; [exact H1 |]. split; [exact H2 |].
  split; [reflexivity |].
  destruct (Math_max_cases 0 (growth r w)) as [[Hv E]|[Hv E]];
    rewrite E in Hhi; split; intros Hg; try split; lra.
Qed.

(** X10.  In the no-tax regime every annual and cumulative tax is 0 and the
    wealth after a year is the value after return; in a year without deposit
    it is the wealth before times [1 + return / 100]. *)
Theorem noTax_series (i : nat) (r : YearReturn) :
  returns !! i = Some r ->
  annualTax result noTax !! i = Some 0
  /\ (exists c, cumulativeTax result noTax !! i = Some c /\ c == 0)
  /\ exists w w',
       portfolioValues result noTax !! i = Some w
       /\ portfolioValues result noTax !! S i = Some w'
       /\ w' == growth r w
       /\ (depositAt contributionsByYear r == 0 ->
           w' == w * (1 + yr_return r / 100)).
Proof.
  intros Hr. pose proof (lookup_lt_Some _ _ _ Hr) as Hi.
  destruct (wealth_lookup noTax i ltac:(lia)) as [w Hw].
  destruct (wealth_step noTax i r w Hr Hw) as (H1 & H2 & _).
  rewrite yearTax_noTax in H1, H2.
  split; [exact H2 |]. split.
  - clear Hw H1 H2 w. revert r Hr Hi.
    induction i as [|i IH]; intros r Hr Hi.
    + destruct (wealth_lookup noTax 0 ltac:(lia)) as [w Hw].
      destruct (wealth_step noTax 0 r w Hr Hw) as (_ & _ & H3).
      rewrite yearTax_noTax in H3. eexists. split; [exact H3 |]. simpl. lra.
    + destruct (lookup_lt_is_Some_2 returns i ltac:(lia)) as [r0 Hr0].
      destruct (IH r0 Hr0 ltac:(lia)) as (c & Hc & Hc0).
      destruct (wealth_lookup noTax (S i) ltac:(lia)) as [w Hw].
      destruct (wealth_step noTax (S i) r w Hr Hw) as (_ & _ & H3).
      rewrite yearTax_noTax in H3. eexists. split; [exact H3 |].
      assert (E : prevCumulativeTaxAt Math_pow configs contributionsByYear
                    startCapital returns noTax (S i) = c)
        by (by apply at_index_lookup).
      rewrite E. lra.
  - exists w, (growth r w - 0). split; [exact Hw |]. split; [exact H1 |].
    split; [lra |]. intros Hd.
    assert (E : growth r w = w * (1 + yr_return r / 100)).
    { unfold yearValueAfterReturn, valueAfterReturnOf, annualFactorAt.
      assert (Hle : leb (depositAt contributionsByYear r) 0 = true)
        by (apply leb_true; lra).
      by rewrite Hle. }
    rewrite E. lra.
Qed.

(** X11.  Every entry of a cumulative-tax series is the sum of the annual
    taxes up to that year, added in the order of the years. *)
Theorem cumulativeTax_running_sum (sys : System) (i : nat) (c : Q) :
  cumulativeTax result sys !! i = Some c ->
  c = sumTax (take (S i) (annualTax result sys)).
Proof.
  revert c. induction i as [|i IH]; intros c Hc.
  - pose proof (lookup_lt_Some _ _ _ Hc) as Hlt.
    destruct (result_lengths Math_pow configs contributionsByYear
                startCapital returns sys) as (_ & _ & Hlen).
    rewrite Hlen in Hlt.
    destruct (lookup_lt_is_Some_2 returns 0 Hlt) as [r Hr].
    destruct (wealth_lookup sys 0 ltac:(lia)) as [w Hw].
    destruct (wealth_step sys 0 r w Hr Hw) as (_ & H2 & H3).
    rewrite Hc in H3. injection H3 as ->.
    by rewrite (take_S_r _ _ _ H2).
  - pose proof (lookup_lt_Some _ _ _ Hc) as Hlt.
    destruct (result_lengths Math_pow configs contributionsByYear
                startCapital returns sys) as (_ & _ & Hlen).
    rewrite Hlen in Hlt.
    destruct (lookup_lt_is_Some_2 returns (S i) Hlt) as [r Hr].
    destruct (wealth_lookup sys (S i) ltac:(lia)) as [w Hw].
    destruct (wealth_step sys (S i) r w Hr Hw) as (_ & H2 & H3).
    rewrite Hc in H3. injection H3 as ->.
    rewrite (take_S_r _ _ _ H2). unfold sumTax. rewrite foldl_app.
    cbn [prevCumulativeTaxAt foldl]. f_equal.
    destruct (lookup_lt_is_Some_2 (cumulativeTax result sys) i
                ltac:(rewrite Hlen; lia)) as [c0 Hc0].
    transitivity c0; [by apply at_index_lookup | by apply IH].
Qed.


(** The growth of a year keeps the sign and the order of the wealth when the
    return is at least -100 percent and the monthly factor is not negative. *)
Lemma growth_nonneg_monotone (r : YearReturn) (w w' : Q) :
  (forall b, 0 < b -> 0 <= Math_pow b (1 / 12)) ->
  -100 <= yr_return r ->
  (0 <= w -> 0 <= growth r w) /\ (w <= w' -> growth r w <= growth r w').
Proof.
  intros Hpow Hret.
  unfold yearValueAfterReturn, valueAfterReturnOf.
  assert (Haf : 0 <= annualFactorAt r).
  { unfold annualFactorAt.
    assert (-1 <= yr_return r / 100) by (apply Qle_shift_div_l; lra). lra. }
  assert (Hmf : 0 <= monthlyFactorOf Math_pow (annualFactorAt r)).
  { unfold monthlyFactorOf.
    destruct (leb (annualFactorAt r) 0) eqn:E; cmp_hyps; [lra |].
    by apply Hpow. }
  assert (Hd : 0 <= depositAt contributionsByYear r).
  { unfold depositAt, depositOf.
    destruct contributionsByYear; apply Math_max_lb_l. }
  set (af := annualFactorAt r) in *.
  set (mf := monthlyFactorOf Math_pow af) in *.
  set (d := depositAt contributionsByYear r) in *.
  clearbody af mf d.
  destruct (leb d 0); [split; intros; nra |].
  generalize 12%nat as n. intros n. split; intros H.
  - induction n as [|n IH]; simpl; [exact H | nra].
  - induction n as [|n IH]; simpl; [exact H | nra].
Qed.

(** X12.  When the start capital is not negative, no return is below -100
    percent and [Math.pow] gives no negative twelfth root, no wealth of any
    regime is ever negative. *)
Theorem wealth_nonneg (sys : System) (i : nat) (w : Q) :
  (forall b, 0 < b -> 0 <= Math_pow b (1 / 12)) ->
  Forall (fun r => -100 <= yr_return r) returns ->
  0 <= startCapital ->
  portfolioValues result sys !! i = Some w ->
  0 <= w.
Proof.
  intros Hpow Hret H0. revert i w.
  apply (wealth_ind sys (fun _ w => 0 <= w)); [exact H0 |].
  intros i r w Hr Hw IH.
  assert (Hr' : -100 <= yr_return r).
  { rewrite Forall_forall in Hret. apply Hret.
    by apply list_elem_of_lookup_2 in Hr. }
  destruct (growth_nonneg_monotone r w w Hpow Hr') as [Hg _].
  specialize (Hg IH).
  destruct (yearTax_bounds Math_pow configs contributionsByYear sys r w
              (carryAt' i)) as [_ Hhi].
  destruct (Math_max_cases 0 (growth r w)) as [[_ E]|[? E]];
    rewrite E in Hhi; lra.
Qed.

(** X13.  When no return is below -100 percent and [Math.pow] gives no
    negative twelfth root, the wealth of every regime is at most the wealth of
    the no-tax regime in the same year. *)
Theorem noTax_wealth_dominates (sys : System) (i : nat) (w wNoTax : Q) :
  (forall b, 0 < b -> 0 <= Math_pow b (1 / 12)) ->
  Forall (fun r => -100 <= yr_return r) returns ->
  portfolioValues result sys !! i = Some w ->
  portfolioValues result noTax !! i = Some wNoTax ->
  w <= wNoTax.
Proof.
  intros Hpow Hret. revert w wNoTax.
  induction i as [|i IH]; intros w wn Hw Hwn.
  - rewrite wealth_first in Hw, Hwn.
    injection Hw as <-. injection Hwn as <-. lra.
  - destruct (wealth_before sys i w Hw) as (r & w0 & Hr & Hw0 & ->).
    destruct (wealth_before noTax i wn Hwn) as (r' & wn0 & Hr' & Hwn0 & ->).
    rewrite Hr in Hr'. injection Hr' as <-.
    rewrite yearTax_noTax.
    assert (Hr' : -100 <= yr_return r).
    { rewrite Forall_forall in Hret. apply Hret.
      by apply list_elem_of_lookup_2 in Hr. }
    destruct (growth_nonneg_monotone r w0 wn0 Hpow Hr') as [_ Hmono].
    specialize (Hmono (IH _ _ Hw0 Hwn0)).
    destruct (yearTax_bounds Math_pow configs contributionsByYear sys r w0
                (carryAt' i)) as [Hlo _].
    lra.
Qed.

Lemma calcFutureIncome_le (ra : Q) (config : Config) :
  0 <= default 1800 (cfg_freeReturn config) ->
  calcFutureIncome ra config <= Math_max 0 ra
  /\ (0 < calcFutureIncome ra config -> 0 < ra).
Proof.
  intros Hf. unfold calcFutureIncome.
  pose proof (getPartnerMultiplier_cases config) as Hpm.
  set (pm := getPartnerMultiplier config) in *.
  set (f := default 1800 (cfg_freeReturn config)) in *.
  assert (Hfp : 0 <= f * pm) by (destruct Hpm as [[_ ->]|[_ ->]]; lra).
  clearbody pm f.
  destruct (leb ra 0) eqn:E; cmp_hyps.
  - split; [| lra]. pose proof (Math_max_lb_r 0 ra). lra.
  - split; [| lra].
    destruct (Math_max_cases 0 (ra - f * pm)) as [[? ->]|[? ->]];
      destruct (Math_max_cases 0 ra) as [[? ->]|[? ->]]; lra.
Qed.

(** X14.  With a tax rate and a free return that are not negative, the tax
    recorded for the future regime in a year is at most [taxRate / 100] times
    the positive part of that year's return amount, and 0 when the return
    amount is zero or negative. *)
Theorem future_tax_bound (i : nat) (r : YearReturn) (tax : Q) :
  let fut := configs_future configs in
  let taxRate := default 36 (cfg_taxRate fut) in
  let returnAmount :=
    returnAmountAt Math_pow configs contributionsByYear startCapital returns
      future i r in
  0 <= taxRate ->
  0 <= default 1800 (cfg_freeReturn fut) ->
  returns !! i = Some r ->
  annualTax result future !! i = Some tax ->
  tax <= Math_max 0 returnAmount * (taxRate / 100)
  /\ (returnAmount <= 0 -> tax = 0).
Proof.
  intros fut taxRate returnAmount Hrate Hfree Hr Htax.
  destruct (run_year Math_pow configs contributionsByYear startCapital
              returns future i r Hr) as (_ & _ & Ha & _).
  rewrite Htax in Ha. injection Ha as ->.
  unfold yearTax, yearOutcome, regimeTax. fold fut.
  change (yearReturnAmount Math_pow contributionsByYear r
            (prevValueAt Math_pow configs contributionsByYear startCapital
               returns future i)) with returnAmount.
  set (v := yearValueAfterReturn _ _ _ _).
  pose proof (carryAt_nonneg i) as Hcarry.
  set (carry := carryAt' i) in *.
  destruct (calcFutureIncome_le returnAmount fut Hfree) as [Hinc Hpos].
  assert (Ht : 0 <= taxRate / 100) by (apply Qle_shift_div_l; lra).
  pose proof (Math_max_lb_l 0 returnAmount) as Hm.
  assert (Hbound : 0 <= Math_max 0 returnAmount * (taxRate / 100))
    by (apply Qmult_le_0_compat; lra).
  pose proof (Math_max_lb_l 0 v) as Hv.
  clearbody carry v.
  destruct (Qlt_le_dec (calcFutureIncome returnAmount fut) 0) as [Hneg|Hnn].
  - rewrite (futureCase_loss _ _ _ _ Hneg). simpl. rewrite clamp_zero.
    split; [lra | done].
  - destruct (Qlt_le_dec 0 (calcFutureIncome returnAmount fut)) as [Hgain|Hz].
    + rewrite (futureCase_gain _ _ _ _ Hgain). simpl.
      split; [| intros Hle; specialize (Hpos Hgain); lra].
      pose proof (Math_min_ub_r carry (calcFutureIncome returnAmount fut)).
      pose proof (Math_min_glb carry (calcFutureIncome returnAmount fut) 0
                    Hcarry ltac:(lra)) as Hused.
      set (lossUsed := Math_min carry _) in *.
      destruct (calcFutureSystem_remainder v
                  (calcFutureIncome returnAmount fut - lossUsed) taxRate fut
                  eq_refl ltac:(lra)) as [_ E].
      rewrite (E Hrate).
      set (income := calcFutureIncome returnAmount fut) in *.
      set (t := taxRate / 100) in *. clearbody income lossUsed t.
      eapply Qle_trans; [apply Math_min_ub_l |]. nra.
    + assert (Hzero : calcFutureIncome returnAmount fut == 0) by lra.
      rewrite (futureCase_zero _ _ _ _ Hzero). simpl. rewrite clamp_zero.
      split; [lra | done].
Qed.

(** X15.  In a gain year of the future regime the carried loss is used before
    any tax is due: when the income is at most the carried loss the recorded
    tax is 0 and the carried loss shrinks by the income; when the income is at
    least the carried loss nothing is carried further and only the income
    above the carried loss is taxed. *)
Theorem future_setoff_exclusive (i : nat) (r : YearReturn) :
  let fut := configs_future configs in
  let income :=
    calcFutureIncome
      (returnAmountAt Math_pow configs contributionsByYear startCapital
         returns future i r) fut in
  returns !! i = Some r ->
  0 < income ->
  (income <= carryAt' i ->
   carryAt' (S i) == carryAt' i - income
   /\ exists tax, annualTax result future !! i = Some tax /\ tax == 0)
  /\ (carryAt' i <= income ->
      carryAt' (S i) == 0
      /\ taxBeforeClampAt Math_pow configs contributionsByYear startCapital
           returns future i r
         == calcFutureSystem 0 (income - carryAt' i) fut).
Proof.
  intros fut income Hr Hpos.
  destruct (run_year Math_pow configs contributionsByYear startCapital
              returns future i r Hr) as (_ & _ & Ha & _ & Hc).
  unfold taxBeforeClampAt, yearTax, yearOutcome, regimeTax in *.
  fold fut in Ha, Hc |- *. unfold returnAmountAt in income.
  rewrite (futureCase_gain _ _ _ _ Hpos) in Ha, Hc |- *.
  fold income in Ha, Hc |- *. simpl in Ha, Hc |- *.
  set (carry := carryAt' i) in *.
  set (v := yearValueAfterReturn _ _ _ _) in *.
  pose proof (Math_max_lb_l 0 v) as Hv.
  clearbody carry v. rewrite Hc. clear Hc.
  unfold calcFutureSystem in *.
  set (t := default 36 (cfg_taxRate fut) / 100) in *. clearbody t income.
  split; intros Hle.
  - destruct (Math_min_cases carry income) as [[H' E]|[H' E]];
      rewrite E in *.
    + assert (Heq : carry == income) by lra.
      split; [lra |]. eexists. split; [exact Ha |].
      assert (E0 : Math_max 0 (income - carry) == 0)
        by (destruct (Math_max_cases 0 (income - carry)) as [[? ->]|[? ->]];
            lra).
      apply Qle_antisym;
        [| apply Math_min_glb; [apply Math_max_lb_l | exact Hv]].
      eapply Qle_trans; [apply Math_min_ub_l |].
      destruct (Math_max_cases 0 (Math_max 0 (income - carry) * t))
        as [[? ->]|[? ->]]; [rewrite E0; lra | lra].
    + split; [lra |]. eexists. split; [exact Ha |].
      assert (E0 : Math_max 0 (income - income) == 0)
        by (destruct (Math_max_cases 0 (income - income)) as [[? ->]|[? ->]];
            lra).
      apply Qle_antisym;
        [| apply Math_min_glb; [apply Math_max_lb_l | exact Hv]].
      eapply Qle_trans; [apply Math_min_ub_l |].
      destruct (Math_max_cases 0 (Math_max 0 (income - income) * t))
        as [[? ->]|[? ->]]; [rewrite E0; lra | lra].
  - destruct (Math_min_cases carry income) as [[H' E]|[H' E]];
      rewrite E in *.
    + split; [lra | reflexivity].
    + lra.
Qed.

End RunProperties.

(** ** A year without return *)

Lemma iter_no_growth (monthlyFactor deposit w : Q) (n : nat) :
  monthlyFactor == 1 ->
  Nat.iter n (fun value => value * monthlyFactor + deposit) w
  == w + inject_Z (Z.of_nat n) * deposit.
Proof.
  intros Hm. induction n as [|n IH].
  - simpl. change (inject_Z 0) with 0. ring.
  - rewrite Nat2Z.inj_succ. unfold Z.succ. rewrite inject_Z_plus.
    simpl Nat.iter. rewrite IH, Hm. change (inject_Z 1) with 1. ring.
Qed.

(** X16.  In a year with a return of 0 (and a [Math.pow] that is 1 at base 1)
    the return amount of every regime is 0, the no-tax wealth grows by exactly
    the twelve deposits, and the future regime records no tax and leaves the
    carried loss as it is. *)
Theorem zero_return_year (Math_pow : Q -> Q -> Q) (configs : Configs)
  (contributionsByYear : Contributions) (startCapital : Q)
  (returns : list YearReturn) (i : nat) (r : YearReturn) :
  let result :=
    runSimulation Math_pow startCapital returns configs contributionsByYear in
  let carry :=
    carryAt Math_pow configs contributionsByYear startCapital returns in
  (forall b, b == 1 -> Math_pow b (1 / 12) == 1) ->
  returns !! i = Some r ->
  yr_return r == 0 ->
  (forall sys,
     returnAmountAt Math_pow configs contributionsByYear startCapital returns
       sys i r == 0)
  /\ (exists w w',
        portfolioValues result noTax !! i = Some w
        /\ portfolioValues result noTax !! S i = Some w'
        /\ w' == w + 12 * depositAt contributionsByYear r)
  /\ annualTax result future !! i = Some 0
  /\ carry (S i) = carry i.
Proof.
  intros result carry Hpow Hr Hzero.
  assert (Hgrowth : forall w,
    yearValueAfterReturn Math_pow contributionsByYear r w
    == w + 12 * depositAt contributionsByYear r).
  { intros w. unfold yearValueAfterReturn, valueAfterReturnOf.
    assert (Haf : annualFactorAt r == 1)
      by (unfold annualFactorAt; rewrite Hzero; reflexivity).
    assert (Hd : 0 <= depositAt contributionsByYear r).
    { unfold depositAt, depositOf.
      destruct contributionsByYear; apply Math_max_lb_l. }
    destruct (leb (depositAt contributionsByYear r) 0) eqn:E; cmp_hyps.
    - rewrite Haf. assert (Hd0 : depositAt contributionsByYear r == 0) by lra.
      rewrite Hd0. ring.
    - rewrite iter_no_growth; [reflexivity |].
      unfold monthlyFactorOf.
      assert (Hpos : leb (annualFactorAt r) 0 = false)
        by (apply leb_false; lra).
      rewrite Hpos. by apply Hpow. }
  assert (Hra : forall sys,
    returnAmountAt Math_pow configs contributionsByYear startCapital returns
      sys i r == 0).
  { intros sys. unfold returnAmountAt, yearReturnAmount.
    rewrite Hgrowth. ring. }
  split; [exact Hra |]. split.
  - pose proof (lookup_lt_Some _ _ _ Hr) as Hi.
    destruct (wealth_lookup Math_pow configs contributionsByYear startCapital
                returns noTax i ltac:(lia)) as [w Hw].
    destruct (wealth_step Math_pow configs contributionsByYear startCapital
                returns noTax i r w Hr Hw) as (H1 & _).
    rewrite yearTax_noTax in H1.
    eexists _, _. split; [exact Hw |]. split; [exact H1 |].
    rewrite Hgrowth. ring.
  - destruct (run_year Math_pow configs contributionsByYear startCapital
                returns future i r Hr) as (_ & _ & Ha & _ & Hc).
    specialize (Hra future). unfold returnAmountAt in Hra.
    assert (Hinc : calcFutureIncome
                     (yearReturnAmount Math_pow contributionsByYear r
                        (prevValueAt Math_pow configs contributionsByYear
                           startCapital returns future i))
                     (configs_future configs) == 0).
    { unfold calcFutureIncome.
      assert (Hle : leb (yearReturnAmount Math_pow contributionsByYear r
                           (prevValueAt Math_pow configs contributionsByYear
                              startCapital returns future i)) 0 = true)
        by (apply leb_true; lra).
      by rewrite Hle. }
    unfold yearTax, yearOutcome, regimeTax in Ha, Hc.
    rewrite (futureCase_zero _ _ _ _ Hinc) in Ha, Hc. simpl in Ha, Hc.
    rewrite clamp_zero in Ha. by split.
Qed.

(** ** What a run depends on *)

Lemma yearLoop_deposit_ext (Math_pow : Q -> Q -> Q) (configs : Configs)
  (c c' : Contributions) (rest : list YearReturn) (i : nat) (st : SimState) :
  Forall (fun r => depositOf c (yr_year r) = depositOf c' (yr_year r)) rest ->
  yearLoop Math_pow configs c i rest st
  = yearLoop Math_pow configs c' i rest st.
Proof.
  intros H. revert i st. induction H as [|r rest Hr _ IH]; intros i st.
  - reflexivity.
  - simpl. rewrite IH. f_equal. unfold yearStep. by rewrite Hr.
Qed.

(** X17.  A run depends on [contributionsByYear] only through the deposits of
    the years of the return series: a map that holds the same amount for each
    of those years gives the result of that flat amount, and a map that holds
    none of them gives the result of no contribution. *)
Theorem contributions_through_deposits (Math_pow : Q -> Q -> Q)
  (configs : Configs) (startCapital : Q) (returns : list YearReturn) :
  (forall c c',
     Forall (fun r => depositOf c (yr_year r) = depositOf c' (yr_year r))
       returns ->
     runSimulation Math_pow startCapital returns configs c
     = runSimulation Math_pow startCapital returns configs c')
  /\ (forall m q,
        Forall (fun r => m !! yr_year r = Some q) returns ->
        runSimulation Math_pow startCapital returns configs (ContribMap m)
        = runSimulation Math_pow startCapital returns configs (ContribFlat q))
  /\ (forall m,
        Forall (fun r => m !! yr_year r = None) returns ->
        runSimulation Math_pow startCapital returns configs (ContribMap m)
        = runSimulation Math_pow startCapital returns configs (ContribFlat 0)).
Proof.
  assert (Hext : forall c c',
     Forall (fun r => depositOf c (yr_year r) = depositOf c' (yr_year r))
       returns ->
     runSimulation Math_pow startCapital returns configs c
     = runSimulation Math_pow startCapital returns configs c').
  { intros c c' H. unfold runSimulation, finalState.
    by rewrite (yearLoop_deposit_ext Math_pow configs c c' returns 0 _ H). }
  split; [exact Hext |]. split.
  - intros m q H. apply Hext. eapply Forall_impl; [exact H |].
    intros r Hr. simpl. by rewrite Hr.
  - intros m H. apply Hext. eapply Forall_impl; [exact H |].
    intros r Hr. simpl. by rewrite Hr.
Qed.

(** X18.  Appending years to the return series leaves the earlier years as
    they were: every series of the shorter run is a prefix of the series of
    the longer run, provided the deposits of the earlier years agree. *)
Theorem run_extension (Math_pow : Q -> Q -> Q) (configs : Configs)
  (c c' : Contributions) (startCapital : Q) (returns more : list YearReturn)
  (sys : System) :
  Forall (fun r => depositOf c (yr_year r) = depositOf c' (yr_year r))
    returns ->
  let short := runSimulation Math_pow startCapital returns configs c in
  let long :=
    runSimulation Math_pow startCapital (returns ++ more) configs c' in
  portfolioValues short sys `prefix_of` portfolioValues long sys
  /\ annualTax short sys `prefix_of` annualTax long sys
  /\ cumulativeTax short sys `prefix_of` cumulativeTax long sys.
Proof.
  intros H short long. subst short long. unfold runSimulation, finalState.
  cbn [portfolioValues annualTax cumulativeTax].
  rewrite yearLoop_app.
  rewrite (yearLoop_deposit_ext Math_pow configs c c' returns 0 _ H).
  apply yearLoop_prefix.
Qed.

Section TwoConfigs.

Variable Math_pow : Q -> Q -> Q.
Variable contributionsByYear : Contributions.
Variable startCapital : Q.
Variable returns : list YearReturn.
Variables configsA configsB : Configs.

Local Abbreviation resultA :=
  (runSimulation Math_pow startCapital returns configsA contributionsByYear).
Local Abbreviation resultB :=
  (runSimulation Math_pow startCapital returns configsB contributionsByYear).
Local Abbreviation carryA :=
  (carryAt Math_pow configsA contributionsByYear startCapital returns).
Local Abbreviation carryB :=
  (carryAt Math_pow configsB contributionsByYear startCapital returns).
Local Abbreviation yearTaxA :=
  (yearTax Math_pow configsA contributionsByYear).
Local Abbreviation yearTaxB :=
  (yearTax Math_pow configsB contributionsByYear).

(** Two runs that tax every year alike give a regime the same series. *)
Lemma series_ext (sys : System) :
  (forall i r w,
     returns !! i = Some r ->
     yearTaxA sys r w (carryA i) = yearTaxB sys r w (carryB i)) ->
  portfolioValues resultA sys = portfolioValues resultB sys
  /\ annualTax resultA sys = annualTax resultB sys
  /\ cumulativeTax resultA sys = cumulativeTax resultB sys.
Proof.
  intros Htax.
  destruct (result_lengths Math_pow configsA contributionsByYear startCapital
              returns sys) as (LA1 & LA2 & LA3).
  destruct (result_lengths Math_pow configsB contributionsByYear startCapital
              returns sys) as (LB1 & LB2 & LB3).
  assert (Hpv : forall i,
            portfolioValues resultA sys !! i
            = portfolioValues resultB sys !! i).
  { intros i. induction i as [|i IH].
    - by rewrite !wealth_first.
    - destruct (decide (i < length returns)%nat) as [Hi|Hi].
      + destruct (lookup_lt_is_Some_2 returns i Hi) as [r Hr].
        destruct (wealth_lookup Math_pow configsA contributionsByYear
                    startCapital returns sys i ltac:(lia)) as [w Hw].
        destruct (wealth_step Math_pow configsA contributionsByYear
                    startCapital returns sys i r w Hr Hw) as (-> & _).
        rewrite Hw in IH. symmetry in IH.
        destruct (wealth_step Math_pow configsB contributionsByYear
                    startCapital returns sys i r w Hr IH) as (-> & _).
        by rewrite (Htax i r w Hr).
      + rewrite !lookup_ge_None_2; [done | lia | lia]. }
  assert (Han : forall i,
            annualTax resultA sys !! i = annualTax resultB sys !! i).
  { intros i. destruct (decide (i < length returns)%nat) as [Hi|Hi].
    - destruct (lookup_lt_is_Some_2 returns i Hi) as [r Hr].
      destruct (wealth_lookup Math_pow configsA contributionsByYear
                  startCapital returns sys i ltac:(lia)) as [w Hw].
      pose proof Hw as Hw'. rewrite Hpv in Hw'.
      destruct (wealth_step Math_pow configsA contributionsByYear
                  startCapital returns sys i r w Hr Hw) as (_ & -> & _).
      destruct (wealth_step Math_pow configsB contributionsByYear
                  startCapital returns sys i r w Hr Hw') as (_ & -> & _).
      by rewrite (Htax i r w Hr).
    - rewrite !lookup_ge_None_2; [done | lia | lia]. }
  assert (Hcu : forall i,
            cumulativeTax resultA sys !! i = cumulativeTax resultB sys !! i).
  { intros i. induction i as [|i IH].
    - destruct (decide (0 < length returns)%nat) as [Hi|Hi].
      + destruct (lookup_lt_is_Some_2 returns 0 Hi) as [r Hr].
        destruct (wealth_lookup Math_pow configsA contributionsByYear
                    startCapital returns sys 0 ltac:(lia)) as [w Hw].
        pose proof Hw as Hw'. rewrite Hpv in Hw'.
        destruct (wealth_step Math_pow configsA contributionsByYear
                    startCapital returns sys 0 r w Hr Hw) as (_ & _ & ->).
        destruct (wealth_step Math_pow configsB contributionsByYear
                    startCapital returns sys 0 r w Hr Hw') as (_ & _ & ->).
        by rewrite (Htax 0%nat r w Hr).
      + rewrite !lookup_ge_None_2; [done | lia | lia].
    - destruct (decide (S i < length returns)%nat) as [Hi|Hi].
      + destruct (lookup_lt_is_Some_2 returns (S i) Hi) as [r Hr].
        destruct (wealth_lookup Math_pow configsA contributionsByYear
                    startCapital returns sys (S i) ltac:(lia)) as [w Hw].
        pose proof Hw as Hw'. rewrite Hpv in Hw'.
        destruct (wealth_step Math_pow configsA contributionsByYear
                    startCapital returns sys (S i) r w Hr Hw) as (_ & _ & ->).
        destruct (wealth_step Math_pow configsB contributionsByYear
                    startCapital returns sys (S i) r w Hr Hw') as (_ & _ & ->).
        rewrite (Htax (S i) r w Hr). cbn [prevCumulativeTaxAt].
        unfold at_index. by rewrite IH.
      + rewrite !lookup_ge_None_2; [done | lia | lia]. }
  split; [by apply list_eq |]. split; by apply list_eq.
Qed.

Lemma future_carry_ext :
  configs_future configsA = configs_future configsB ->
  forall i, (i <= length returns)%nat ->
    carryA i = carryB i
    /\ portfolioValues resultA future !! i
       = portfolioValues resultB future !! i.
Proof.
  intros Hcfg i. induction i as [|i IH]; intros Hi.
  - split; [reflexivity | by rewrite !wealth_first].
  - destruct (IH ltac:(lia)) as [Hc Hw].
    destruct (lookup_lt_is_Some_2 returns i ltac:(lia)) as [r Hr].
    destruct (run_year Math_pow configsA contributionsByYear startCapital
                returns future i r Hr) as (A1 & A2 & _ & _ & A5).
    destruct (run_year Math_pow configsB contributionsByYear startCapital
                returns future i r Hr) as (B1 & B2 & _ & _ & B5).
    assert (Hprev : prevValueAt Math_pow configsA contributionsByYear
                      startCapital returns future i
                    = prevValueAt Math_pow configsB contributionsByYear
                        startCapital returns future i).
    { rewrite A1, B1 in Hw. by injection Hw. }
    rewrite A2, B2, A5, B5.
    unfold yearTax, yearOutcome, regimeTax. by rewrite Hprev, Hc, Hcfg.
Qed.

End TwoConfigs.

(** X19.  The regimes do not influence one another: the three series of a
    regime are the same in two runs whose configs agree on that regime (the
    no-tax regime reads no config at all). *)
Theorem regimes_independent (Math_pow : Q -> Q -> Q)
  (contributionsByYear : Contributions) (startCapital : Q)
  (returns : list YearReturn) (configsA configsB : Configs) :
  let resultA :=
    runSimulation Math_pow startCapital returns configsA contributionsByYear in
  let resultB :=
    runSimulation Math_pow startCapital returns configsB contributionsByYear in
  (portfolioValues resultA noTax = portfolioValues resultB noTax
   /\ annualTax resultA noTax = annualTax resultB noTax
   /\ cumulativeTax resultA noTax = cumulativeTax resultB noTax)
  /\ (configs_old configsA = configs_old configsB ->
      portfolioValues resultA old = portfolioValues resultB old
      /\ annualTax resultA old = annualTax resultB old
      /\ cumulativeTax resultA old = cumulativeTax resultB old)
  /\ (configs_current configsA = configs_current configsB ->
      portfolioValues resultA current = portfolioValues resultB current
      /\ annualTax resultA current = annualTax resultB current
      /\ cumulativeTax resultA current = cumulativeTax resultB current)
  /\ (configs_future configsA = configs_future configsB ->
      portfolioValues resultA future = portfolioValues resultB future
      /\ annualTax resultA future = annualTax resultB future
      /\ cumulativeTax resultA future = cumulativeTax resultB future).
Proof.
  intros resultA resultB. subst resultA resultB.
  split; [| split; [| split]].
  - apply series_ext. reflexivity.
  - intros H. apply series_ext. intros i r w _.
    unfold yearTax, yearOutcome, regimeTax. by rewrite H.
  - intros H. apply series_ext. intros i r w _.
    unfold yearTax, yearOutcome, regimeTax. by rewrite H.
  - intros H. apply series_ext. intros i r w Hr.
    destruct (future_carry_ext Math_pow contributionsByYear startCapital
                returns configsA configsB H i) as [Hc _];
      [apply lookup_lt_Some in Hr; lia |].
    unfold yearTax, yearOutcome, regimeTax. by rewrite H, Hc.
Qed.

(** ** The return series of the market data *)

Lemma StronglySorted_le_lt (l : list Z) :
  StronglySorted Z.le l -> NoDup l -> StronglySorted Z.lt l.
Proof.
  induction 1 as [|x l Hl IH Hx]; intros Hnd; [constructor |].
  apply NoDup_cons in Hnd as [Hnotin Hnd].
  constructor; [by apply IH |].
  rewrite Forall_forall in Hx |- *. intros y Hy.
  pose proof (Hx y Hy). assert (x <> y) by (intros ->; contradiction). lia.
Qed.

Lemma StronglySorted_filter_keep {A} (R : relation A) (P : A -> Prop)
  `{forall x, Decision (P x)} (l : list A) :
  StronglySorted R l -> StronglySorted R (filter P l).
Proof.
  induction 1 as [|x l Hl IH Hx]; [constructor |].
  rewrite filter_cons. case_decide; [| exact IH].
  constructor; [exact IH |].
  rewrite Forall_forall in Hx |- *. intros y Hy.
  apply Hx. by apply list_elem_of_filter in Hy as [_ Hy].
Qed.

Lemma sortedYears_spec (returns : gmap Z Q) :
  StronglySorted Z.lt (sortedYears returns)
  /\ forall y, y ∈ sortedYears returns <-> is_Some (returns !! y).
Proof.
  unfold sortedYears. split.
  - apply StronglySorted_le_lt.
    + apply StronglySorted_merge_sort; apply _.
    + rewrite merge_sort_Permutation. apply NoDup_fst_map_to_list.
  - intros y. rewrite merge_sort_Permutation, list_elem_of_fmap. split.
    + intros ([y' q] & -> & Hin). apply elem_of_map_to_list in Hin. by exists q.
    + intros [q Hq]. exists (y, q). split; [done |].
      by apply elem_of_map_to_list.
Qed.

Lemma objectPrototypeKeys_not_own (indexKey : string) :
  indexKey ∈ objectPrototypeKeys -> marketData !! indexKey = None.
Proof.
  intros H. unfold objectPrototypeKeys in H.
  repeat (apply elem_of_cons in H as [->|H]; [vm_compute; reflexivity |]).
  by apply elem_of_nil in H.
Qed.

(** What [marketData[indexKey]] finds *)
Lemma marketData_at_cases (indexKey : string) :
  (exists data,
     marketData !! indexKey = Some data
     /\ (indexKey ∉ objectPrototypeKeys)
     /\ marketData_at indexKey = Own data)
  \/ (marketData !! indexKey = None
      /\ indexKey ∈ objectPrototypeKeys
      /\ marketData_at indexKey = Inherited)
  \/ (marketData !! indexKey = None
      /\ (indexKey ∉ objectPrototypeKeys)
      /\ marketData_at indexKey = Undefined).
Proof.
  unfold marketData_at.
  destruct (marketData !! indexKey) as [data|] eqn:E.
  - left. exists data. split; [done |]. split; [| done].
    intros Hin. apply objectPrototypeKeys_not_own in Hin. congruence.
  - case_bool_decide; [right; left | right; right]; done.
Qed.

Lemma getAvailableYears_cases (indexKey : string) :
  getAvailableYears indexKey
  = match marketData_at indexKey with
    | Own data => Return (sortedYears (idx_returns data))
    | Inherited => Throw TypeError
    | Undefined => Return []
    end.
Proof. unfold getAvailableYears. by destruct (marketData_at indexKey). Qed.

Lemma mapM_Return {A B : Type} (f : A -> B) (l : list A) :
  mapM (fun a => Return (f a)) l = Return (f <$> l).
Proof. induction l as [|a l IH]; [reflexivity |]. simpl. by rewrite IH. Qed.

Lemma getReturns_cases (indexKey : string) (startYear endYear : Z) :
  getReturns indexKey startYear endYear
  = match marketData_at indexKey with
    | Own data =>
        Return
          ((fun y => mkYearReturn y (default 0 (idx_returns data !! y)))
             <$> filter (fun y => (startYear <= y)%Z /\ (y <= endYear)%Z)
                   (sortedYears (idx_returns data)))
    | Inherited => Throw TypeError
    | Undefined => Return []
    end.
Proof.
  unfold getReturns. rewrite getAvailableYears_cases.
  destruct (marketData_at indexKey) as [data| |]; try reflexivity.
  simpl. apply mapM_Return.
Qed.

(** X20.  [getAvailableYears] throws a [TypeError] exactly for the keys the
    object inherits and returns for every other key: the empty list for a key
    that is not an index, and for an index its years in strictly increasing
    order, each exactly once. *)
Theorem getAvailableYears_sorted (indexKey : string) :
  ((getAvailableYears indexKey = Throw TypeError)
   <-> (indexKey ∈ objectPrototypeKeys))
  /\ (indexKey ∉ objectPrototypeKeys ->
      exists years, getAvailableYears indexKey = Return years)
  /\ (marketData !! indexKey = None -> indexKey ∉ objectPrototypeKeys ->
      getAvailableYears indexKey = Return [])
  /\ forall years,
       getAvailableYears indexKey = Return years ->
       StronglySorted Z.lt years
       /\ forall y,
            y ∈ years
            <-> exists data q,
                  marketData !! indexKey = Some data
                  /\ idx_returns data !! y = Some q.
Proof.
  rewrite getAvailableYears_cases.
  destruct (marketData_at_cases indexKey)
    as [(data & Hd & Hown & ->)|[(Hd & Hin & ->)|(Hd & Hnot & ->)]].
  - destruct (sortedYears_spec (idx_returns data)) as [Hs Hin].
    split; [split; [discriminate | contradiction] |].
    split; [by eexists |]. split; [congruence |].
    intros years [= <-]. split; [exact Hs |].
    intros y. rewrite Hin. split.
    + intros [q Hq]. by exists data, q.
    + intros (d & q & Hd' & Hq). rewrite Hd in Hd'. injection Hd' as <-.
      by exists q.
  - split; [done |]. split; [contradiction |]. split; [contradiction |].
    discriminate.
  - split; [split; [discriminate | contradiction] |].
    split; [by eexists |]. split; [done |].
    intros years [= <-]. split; [constructor |].
    intros y. split; [by intros ?%elem_of_nil |].
    intros (d & q & Hd' & _). congruence.
Qed.

(** The entries of a series [getReturns] returns *)
Lemma getReturns_elem_of (indexKey : string) (startYear endYear : Z)
  (series : list YearReturn) (y : Z) (q : Q) :
  getReturns indexKey startYear endYear = Return series ->
  mkYearReturn y q ∈ series
  <-> (startYear <= y <= endYear)%Z
      /\ exists data,
           marketData !! indexKey = Some data
           /\ idx_returns data !! y = Some q.
Proof.
  rewrite getReturns_cases.
  destruct (marketData_at_cases indexKey)
    as [(data & Hd & Hown & ->)|[(Hd & Hin & ->)|(Hd & Hnot & ->)]].
  - intros [= <-].
    destruct (sortedYears_spec (idx_returns data)) as [_ Hin].
    rewrite list_elem_of_fmap. split.
    + intros (y' & Heq & Hy'). apply list_elem_of_filter in Hy' as [HP Hy'].
      apply Hin in Hy' as [q' Hq']. rewrite Hq' in Heq. simpl in Heq.
      injection Heq as -> ->.
      split; [exact (conj (proj1 HP) (proj2 HP)) |]. by exists data.
    + intros ([H1 H2] & d & Hd' & Hq). rewrite Hd in Hd'. injection Hd' as <-.
      exists y. split; [by rewrite Hq |].
      apply list_elem_of_filter. split; [done |]. apply Hin. by exists q.
  - discriminate.
  - intros [= <-]. split; [by intros ?%elem_of_nil |].
    intros (_ & d & Hd' & _). congruence.
Qed.

(** X21.  [getReturns] throws a [TypeError] exactly for the keys the object
    inherits and returns for every other key; the series it returns holds, in
    strictly increasing order of the year, exactly the entries of the index
    whose year lies in the range, and is empty for a key that is not an index
    and for an empty range. *)
Theorem getReturns_series (indexKey : string) (startYear endYear : Z) :
  ((getReturns indexKey startYear endYear = Throw TypeError)
   <-> (indexKey ∈ objectPrototypeKeys))
  /\ (indexKey ∉ objectPrototypeKeys ->
      exists series, getReturns indexKey startYear endYear = Return series)
  /\ forall series,
       getReturns indexKey startYear endYear = Return series ->
       (marketData !! indexKey = None -> series = [])
       /\ ((endYear < startYear)%Z -> series = [])
       /\ StronglySorted Z.lt (yr_year <$> series)
       /\ forall y q,
            mkYearReturn y q ∈ series
            <-> (startYear <= y <= endYear)%Z
                /\ exists data,
                     marketData !! indexKey = Some data
                     /\ idx_returns data !! y = Some q.
Proof.
  split; [| split].
  - rewrite getReturns_cases.
    destruct (marketData_at_cases indexKey)
      as [(data & Hd & Hown & ->)|[(Hd & Hin & ->)|(Hd & Hnot & ->)]];
      split; done.
  - intros Hnot. rewrite getReturns_cases.
    destruct (marketData_at_cases indexKey)
      as [(data & Hd & Hown & ->)|[(Hd & Hin & ->)|(Hd & _ & ->)]];
      [by eexists | contradiction | by eexists].
  - intros series Hseries.
    split; [| split; [| split]];
      [| | | intros y q; by apply getReturns_elem_of].
    + intros Hnone. destruct series as [|[y q] series]; [reflexivity |].
      assert (Hin : mkYearReturn y q ∈ mkYearReturn y q :: series) by left.
      apply (getReturns_elem_of _ _ _ _ _ _ Hseries) in Hin
        as (_ & d & Hd & _).
      congruence.
    + intros Hlt. destruct series as [|[y q] series]; [reflexivity |].
      assert (Hin : mkYearReturn y q ∈ mkYearReturn y q :: series) by left.
      apply (getReturns_elem_of _ _ _ _ _ _ Hseries) in Hin as (Hrange & _).
      lia.
    + revert Hseries. rewrite getReturns_cases.
      destruct (marketData_at indexKey) as [data| |];
        [| discriminate | intros [= <-]; constructor].
      intros [= <-].
      destruct (sortedYears_spec (idx_returns data)) as [Hs _].
      rewrite <- list_fmap_compose.
      rewrite (list_fmap_ext _ id (filter _ _) ) by done.
      rewrite list_fmap_id. by apply StronglySorted_filter_keep.
Qed.

(** ** The market data, the schedule and the simulation together *)

Lemma table_values (P : Q -> Prop) (l : list (Z * Q)) (y : Z) (q : Q) :
  Forall (fun p => P p.2) l ->
  (list_to_map l : gmap Z Q) !! y = Some q -> P q.
Proof.
  intros Hall Hq. apply elem_of_list_to_map_2 in Hq.
  rewrite Forall_forall in Hall. apply (Hall (y, q) Hq).
Qed.

Lemma cpiData_bounds (y : Z) : -(1 # 2) <= getCpiForYear y <= 10.
Proof.
  unfold getCpiForYear. destruct (cpiData !! y) as [q|] eqn:E; simpl.
  - revert E. apply (table_values (fun q => -(1 # 2) <= q <= 10)).
    repeat (apply Forall_cons; split;
            [simpl; split; vm_compute; discriminate |]).
    apply Forall_nil. done.
  - split; vm_compute; discriminate.
Qed.

Lemma marketData_bounds (indexKey : string) (data : IndexData) (y : Z) (q : Q) :
  marketData !! indexKey = Some data ->
  idx_returns data !! y = Some q ->
  -100 < q.
Proof.
  intros Hd. apply elem_of_list_to_map_2 in Hd.
  repeat (apply elem_of_cons in Hd as [Hd|Hd];
          [injection Hd as _ ->; simpl;
           apply (table_values (fun q => -100 < q));
           repeat (apply Forall_cons; split; [reflexivity |]);
           by apply Forall_nil |]).
  by apply elem_of_nil in Hd.
Qed.

Lemma scheduleAmount_nonneg (baseAmount : Q) (startYear : Z)
  (indexation : bool) (k : nat) :
  0 <= baseAmount ->
  0 <= scheduleAmount getCpiForYear baseAmount startYear indexation k.
Proof.
  intros H. induction k as [|k IH]; [exact H |].
  cbn [scheduleAmount]. destruct indexation; [| exact IH].
  pose proof (cpiData_bounds (startYear + Z.of_nat (S k))) as [Hlo _].
  apply Qmult_le_0_compat; [exact IH |].
  assert (-1 <= getCpiForYear (startYear + Z.of_nat (S k)) / 100)
    by (apply Qle_shift_div_l; lra).
  lra.
Qed.

(** Rounding to cents gives no negative amount from one that is not negative,
    in either direction at half a cent. *)
Lemma round2_nonneg (up : bool) (a : Q) : 0 <= a -> 0 <= round2 up a.
Proof.
  intros H. destruct (round2_nearest up a) as (cents & -> & Hlo & _).
  apply Qdiv_nonneg; [| lra].
  assert (E : inject_Z cents == inject_Z cents / 100 * 100) by field.
  set (q := inject_Z cents / 100) in *. clearbody q.
  destruct (Z_lt_le_dec cents 0) as [Hneg|Hpos].
  - assert (Hle : (cents <= -1)%Z) by lia.
    rewrite Zle_Qle in Hle. change (inject_Z (-1)) with (-1) in Hle. lra.
  - rewrite Zle_Qle in Hpos. exact Hpos.
Qed.

(** X22.  With a base amount that is not negative no amount of the schedule
    is negative, so the simulation takes each of them as deposit without
    clamping. *)
Theorem buildContributionsByYear_nonneg (tieUp : Z -> bool) (baseAmount : Q)
  (startYear endYear : Z) (cpiEnabled : bool) (y : Z) (amount : Q) :
  0 <= baseAmount ->
  buildContributionsByYear tieUp baseAmount startYear endYear cpiEnabled !! y
  = Some amount ->
  0 <= amount
  /\ depositOf
       (ContribMap
          (buildContributionsByYear tieUp baseAmount startYear endYear
             cpiEnabled))
       y == amount.
Proof.
  intros Hbase Hy.
  assert (Hnn : 0 <= amount).
  { rewrite buildContributionsByYear_lookup in Hy.
    case_decide; [| discriminate]. injection Hy as <-.
    by apply round2_nonneg, scheduleAmount_nonneg. }
  split; [exact Hnn |]. simpl. rewrite Hy. simpl.
  by apply clamp_weight_nonneg.
Qed.

(** X23.  A series [getReturns] returns and the schedule built for the same
    range fit the simulation: every return is above -100 percent, and every
    year of the series finds its deposit in the schedule, a whole number of
    cents within half a cent of the scheduled amount of that year. *)
Theorem getReturns_feeds_simulation (tieUp : Z -> bool) (indexKey : string)
  (startYear endYear : Z) (baseAmount : Q) (cpiEnabled : bool)
  (series : list YearReturn) :
  0 <= baseAmount ->
  getReturns indexKey startYear endYear = Return series ->
  Forall
    (fun r =>
       let amount :=
         scheduleAmount getCpiForYear baseAmount startYear cpiEnabled
           (Z.to_nat (yr_year r - startYear)) in
       -100 < yr_return r
       /\ exists cents : Z,
            depositOf
              (ContribMap
                 (buildContributionsByYear tieUp baseAmount startYear endYear
                    cpiEnabled)) (yr_year r)
            == inject_Z cents / 100
            /\ amount - (1 # 200) <= inject_Z cents / 100
            /\ inject_Z cents / 100 <= amount + (1 # 200))
    series.
Proof.
  intros Hbase Hseries. apply Forall_forall. intros [y q] Hr.
  apply (getReturns_elem_of _ _ _ _ _ _ Hseries) in Hr
    as (Hrange & data & Hd & Hq).
  cbv zeta. cbn [yr_year yr_return].
  split; [by apply (marketData_bounds indexKey data y) |].
  pose proof (scheduleAmount_nonneg baseAmount startYear cpiEnabled
                (Z.to_nat (y - startYear)) Hbase) as Hnn.
  apply (round2_nonneg (tieUp y)) in Hnn.
  destruct (round2_nearest (tieUp y)
              (scheduleAmount getCpiForYear baseAmount startYear cpiEnabled
                 (Z.to_nat (y - startYear)))) as (cents & E & Hlo & Hhi).
  exists cents. rewrite <- E. split; [| by split].
  simpl. rewrite buildContributionsByYear_lookup.
  case_decide; [| lia]. simpl. by apply clamp_weight_nonneg.
Qed.

(** ** The further properties on concrete inputs *)

Lemma pow_approx_nonneg (b : Q) : 0 < b -> 0 <= pow_approx b (1 / 12).
Proof.
  intros H. unfold pow_approx.
  assert (E : 1 / 12 == 1 # 12) by reflexivity. rewrite E. lra.
Qed.

Lemma pow_approx_one (b : Q) : b == 1 -> pow_approx b (1 / 12) == 1.
Proof. intros H. unfold pow_approx. rewrite H. ring. Qed.

Lemma calcCurrentSystem_exemption_witness :
  calcCurrentSystem 59357 0 (configs_current getDefaultConfigs) = 0.
Proof. apply calcCurrentSystem_exemption. vm_compute. discriminate. Defined.

Lemma calcOldMethodSystem_brackets_witness :
  calcOldMethodSystem 200000 0 defaultOldMethodConfig == 1621.52537496.
Proof.
  assert (H1 : 0 <= default 50651 (om_bracket1Limit defaultOldMethodConfig))
    by (vm_compute; discriminate).
  assert (H2 : default 50651 (om_bracket1Limit defaultOldMethodConfig)
               <= default 962351 (om_bracket2Limit defaultOldMethodConfig))
    by (vm_compute; discriminate).
  assert (H3 : 0 < 200000
                   - default 50650
                       (cfg_exemption (om_config defaultOldMethodConfig))
                     * getPartnerMultiplier (om_config defaultOldMethodConfig))
    by (vm_compute; reflexivity).
  destruct (calcOldMethodSystem_brackets defaultOldMethodConfig 200000 0
              H1 H2 H3) as (a1 & a2 & a3 & Hamounts & _ & _ & Hpos).
  vm_compute in Hamounts. injection Hamounts as <- <- <-.
  etransitivity; [apply Hpos; vm_compute; reflexivity |].
  vm_compute. reflexivity.
Defined.

Lemma partner_doubles_thresholds_witness :
  calcOldSystem 100000 0
    (set_partnerMultiplier (JNumber (Fin 2)) (configs_old getDefaultConfigs))
  == calcOldSystem 100000 0
       (withThresholds (2 * 21139) 3800 1800
          (set_partnerMultiplier (JNumber (Fin 2))
             (configs_old getDefaultConfigs))).
Proof.
  exact (proj1 (partner_doubles_thresholds
                  (set_partnerMultiplier (JNumber (Fin 2))
                     (configs_old getDefaultConfigs)) 100000 0 eq_refl)).
Defined.

Lemma future_calculators_monotone_witness :
  calcFutureIncome (-100) (configs_future getDefaultConfigs)
  <= calcFutureIncome 5000 (configs_future getDefaultConfigs).
Proof.
  apply (future_calculators_monotone (configs_future getDefaultConfigs)
           (-100) 5000 0 0).
  vm_compute. discriminate.
Defined.

Lemma wealth_after_tax_witness :
  exists tax,
    annualTax
      (runSimulation pow_approx 100000 lossThenGain getDefaultConfigs
         (ContribFlat 0)) future !! 1%nat = Some tax.
Proof.
  destruct (wealth_after_tax pow_approx getDefaultConfigs (ContribFlat 0)
              100000 lossThenGain future 1 (mkYearReturn 2023 20) eq_refl)
    as (w & w' & tax & _ & _ & Htax & _).
  by exists tax.
Defined.

Lemma noTax_series_witness :
  annualTax
    (runSimulation pow_approx 100000 lossThenGain getDefaultConfigs
       (ContribFlat 0)) noTax !! 0%nat = Some 0.
Proof.
  exact (proj1 (noTax_series pow_approx getDefaultConfigs (ContribFlat 0)
                  100000 lossThenGain 0 (mkYearReturn 2022 (-10)) eq_refl)).
Defined.

Lemma cumulativeTax_running_sum_witness :
  let result :=
    runSimulation pow_approx 100000 lossThenGain getDefaultConfigs
      (ContribFlat 0) in
  at_index (cumulativeTax result old) 1
  = sumTax (take 2 (annualTax result old)).
Proof.
  apply (cumulativeTax_running_sum pow_approx getDefaultConfigs
           (ContribFlat 0) 100000 lossThenGain old 1).
  vm_compute. reflexivity.
Defined.

Lemma wealth_nonneg_witness :
  0 <= at_index
         (portfolioValues
            (runSimulation pow_approx 100000 lossThenGain getDefaultConfigs
               (ContribFlat 0)) future) 2.
Proof.
  apply (wealth_nonneg pow_approx getDefaultConfigs (ContribFlat 0) 100000
           lossThenGain future 2).
  - apply pow_approx_nonneg.
  - repeat constructor; vm_compute; discriminate.
  - vm_compute. discriminate.
  - vm_compute. reflexivity.
Defined.

Lemma noTax_wealth_dominates_witness :
  let result :=
    runSimulation pow_approx 100000 lossThenGain getDefaultConfigs
      (ContribFlat 0) in
  at_index (portfolioValues result old) 2
  <= at_index (portfolioValues result noTax) 2.
Proof.
  apply (noTax_wealth_dominates pow_approx getDefaultConfigs (ContribFlat 0)
           100000 lossThenGain old 2).
  - apply pow_approx_nonneg.
  - repeat constructor; vm_compute; discriminate.
  - vm_compute. reflexivity.
  - vm_compute. reflexivity.
Defined.

Lemma future_tax_bound_witness :
  let result :=
    runSimulation pow_approx 100000 lossThenGain getDefaultConfigs
      (ContribFlat 0) in
  at_index (annualTax result future) 1
  <= Math_max 0
       (returnAmountAt pow_approx getDefaultConfigs (ContribFlat 0) 100000
          lossThenGain future 1 (mkYearReturn 2023 20)) * (36 / 100).
Proof.
  apply (future_tax_bound pow_approx getDefaultConfigs (ContribFlat 0) 100000
           lossThenGain 1 (mkYearReturn 2023 20)).
  - vm_compute. discriminate.
  - vm_compute. discriminate.
  - reflexivity.
  - vm_compute. reflexivity.
Defined.

Lemma future_setoff_exclusive_witness :
  carryAt pow_approx getDefaultConfigs (ContribFlat 0) 100000 lossThenGain 2
  == 0.
Proof.
  destruct (future_setoff_exclusive pow_approx getDefaultConfigs
              (ContribFlat 0) 100000 lossThenGain 1 (mkYearReturn 2023 20)
              eq_refl) as [_ Hmore].
  - vm_compute. reflexivity.
  - apply Hmore. vm_compute. discriminate.
Defined.

Lemma zero_return_year_witness :
  annualTax
    (runSimulation pow_approx 50000 [mkYearReturn 2024 0] getDefaultConfigs
       (ContribFlat 1000)) future !! 0%nat = Some 0.
Proof.
  destruct (zero_return_year pow_approx getDefaultConfigs (ContribFlat 1000)
              50000 [mkYearReturn 2024 0] 0 (mkYearReturn 2024 0)
              pow_approx_one eq_refl) as (_ & _ & Htax & _).
  - reflexivity.
  - exact Htax.
Defined.

Lemma run_extension_witness :
  portfolioValues
    (runSimulation pow_approx 100000 [mkYearReturn 2022 (-10)]
       getDefaultConfigs (ContribFlat 0)) future
  `prefix_of`
  portfolioValues
    (runSimulation pow_approx 100000 lossThenGain getDefaultConfigs
       (ContribFlat 0)) future.
Proof.
  apply (run_extension pow_approx getDefaultConfigs (ContribFlat 0)
           (ContribFlat 0) 100000 [mkYearReturn 2022 (-10)]
           [mkYearReturn 2023 20] future).
  by repeat constructor.
Defined.

Lemma buildContributionsByYear_nonneg_witness :
  0 <= 76.27
  /\ depositOf
       (ContribMap (buildContributionsByYear (fun _ => false) 75 2004 2006 true))
       2005 == 76.27.
Proof.
  apply (buildContributionsByYear_nonneg (fun _ => false) 75 2004 2006 true
           2005 76.27).
  - vm_compute. discriminate.
  - vm_compute. reflexivity.
Defined.

Lemma getReturns_feeds_simulation_witness :
  exists series,
    getReturns "aex" 2015 2024 = Return series
    /\ Forall (fun r => -100 < yr_return r) series.
Proof.
  eexists. split; [vm_compute; reflexivity |].
  eapply Forall_impl;
    [apply (getReturns_feeds_simulation (fun _ => true) "aex" 2015 2024 1000
              true);
     [vm_compute; discriminate | vm_compute; reflexivity] |].
  by intros r [H _].
Defined.
